(** * Life OS Agent: the weekly scheduling engine

    A shallow embedding of the scheduling core of the two application
    variants of the repository,

      - [life-os-agent/src/lifeos/scheduler.py] and [config.py]
        (module [Agent] below), and
      - [apps/life-os-agent/src/lifeos/scheduler.py] and [config.py]
        (module [Apps] below),

    followed by the properties of the specification that were checked
    against them.

    Modelling conventions.

      - A Python [datetime] is the number of microseconds elapsed since
        0001-01-01T00:00:00, which is a Monday ([date(1,1,1).weekday() = 0]).
        All datetimes of one run carry the same UTC offset, so comparison
        and subtraction are those of the integers.  The year range of
        Python's [datetime] is not modelled.
      - A [timedelta] is a number of microseconds.
      - Exceptions ([KeyError], [ValueError]) are the [None] of [option].
      - Python's builtin [int] on strings is a parameter, [py_int].
      - A Python dict is an association list in insertion order; a list of
        objects that are mutated in place is a store indexed by position. *)

From Stdlib Require Import ZArith String Ascii DecimalString.
From stdpp Require Import base tactics option list strings numbers sorting.

Open Scope string_scope.
Open Scope list_scope.
Open Scope Z_scope.

(** ** Dates and times *)

Abbreviation datetime := Z (only parsing).
Abbreviation timedelta := Z (only parsing).

Module PyTime.

Definition us_per_minute : Z := 60000000.
Definition us_per_hour : Z := 3600000000.
Definition us_per_day : Z := 86400000000.

(** [timedelta(minutes=n)] and [timedelta(days=n)]. *)
Definition minutes (n : Z) : timedelta := n * us_per_minute.
Definition days (n : Z) : timedelta := n * us_per_day.

(** [int(td.total_seconds() / 60)]: [int] truncates towards zero. *)
Definition whole_minutes (td : timedelta) : Z := td `quot` us_per_minute.

(** [dt.weekday()], Monday is 0. *)
Definition weekday (dt : datetime) : Z := (dt `div` us_per_day) `mod` 7.

(** [dt.hour]. *)
Definition hour (dt : datetime) : Z := (dt `div` us_per_hour) `mod` 24.

(** [dt.replace(hour=0, minute=0, second=0, microsecond=0)]. *)
Definition at_midnight (dt : datetime) : datetime := dt - dt `mod` us_per_day.

Definition day_names : list string :=
  ["monday"; "tuesday"; "wednesday"; "thursday"; "friday"; "saturday"; "sunday"].

(** [dt.strftime("%A").lower()]. *)
Definition day_name (dt : datetime) : string :=
  default "monday" (day_names !! Z.to_nat (weekday dt)).

(** A datetime from a day number (day 0 is Monday 0001-01-01) and a time
    of day. *)
Definition mk_datetime (day h m : Z) : datetime :=
  day * us_per_day + h * us_per_hour + m * us_per_minute.

End PyTime.

(** ** Python builtins on strings and lists *)

Module Py.

(** [c in s] for a one-character string [c]. *)
Fixpoint has_char (c : ascii) (s : string) : bool :=
  match s with
  | EmptyString => false
  | String c' s' => if decide (c' = c) then true else has_char c s'
  end.

(** [s.split(c)] for a one-character separator [c]. *)
Fixpoint split (c : ascii) (s : string) : list string :=
  match s with
  | EmptyString => [EmptyString]
  | String c' s' =>
      if decide (c' = c) then EmptyString :: split c s'
      else match split c s' with
           | [] => [String c' EmptyString]
           | p :: ps => String c' p :: ps
           end
  end.

Definition is_space (c : ascii) : bool :=
  let n := nat_of_ascii c in
  bool_decide (n = 32 ∨ (9 ≤ n ∧ n ≤ 13) ∨ (28 ≤ n ∧ n ≤ 31))%nat.

Fixpoint lstrip (s : string) : string :=
  match s with
  | EmptyString => EmptyString
  | String c s' => if is_space c then lstrip s' else s
  end.

Fixpoint rstrip (s : string) : string :=
  match s with
  | EmptyString => EmptyString
  | String c s' =>
      match rstrip s' with
      | EmptyString => if is_space c then EmptyString else String c EmptyString
      | r => String c r
      end
  end.

(** [s.strip()]. *)
Definition strip (s : string) : string := rstrip (lstrip s).

(** [str(n)] for an integer. *)
Definition str_of_int (n : Z) : string := NilZero.string_of_int (Z.to_int n).

(** A dict as an association list in insertion order: [d[k] = v] replaces
    the value of an existing key where it stands and appends a new key. *)
Fixpoint dict_set {V : Type} (k : string) (v : V) (d : list (string * V))
  : list (string * V) :=
  match d with
  | [] => [(k, v)]
  | (k', v') :: d' =>
      if decide (k' = k) then (k, v) :: d' else (k', v') :: dict_set k v d'
  end.

(** [d.get(k)]. *)
Fixpoint dict_get {V : Type} (k : string) (d : list (string * V)) : option V :=
  match d with
  | [] => None
  | (k', v) :: d' => if decide (k' = k) then Some v else dict_get k d'
  end.

(** [sorted(l, key=key)] and [l.sort(key=key)]: the stable sort, which
    only uses [<] on keys.  An element is inserted in front of the first
    element that is not smaller than it, so that an element keeps its place
    among those of equal key. *)
Section sorted.
Context {A K : Type} (key : A → K) (lt : K → K → bool).

Fixpoint insert (x : A) (l : list A) : list A :=
  match l with
  | [] => [x]
  | y :: l' => if lt (key y) (key x) then y :: insert x l' else x :: l
  end.

Definition sorted (l : list A) : list A := foldr insert [] l.
End sorted.

(** [<] on pairs of integers (tuples compare lexicographically). *)
Definition pair_lt (a b : Z * Z) : bool :=
  bool_decide (a.1 < b.1 ∨ (a.1 = b.1 ∧ a.2 < b.2)).

End Py.

(** ** The [life-os-agent] variant *)

Module Agent.

(** *** [config.py] *)

Inductive IntOrStr := PyInt (n : Z) | PyStr (s : string).
Inductive StrOrList := OneStr (s : string) | StrList (l : list string).

Record Activity := {
  a_id : string;
  a_name : string;
  a_category : string;
  a_frequency : IntOrStr;
  a_duration : IntOrStr;
  a_location : option string;
  a_days_preference : option (list string);
  a_time_preference : option StrOrList;
  a_note : option string;
}.

Record Priorities := {
  critical : list string;
  high : list string;
  medium : list string;
  low : list string;
}.

Record EventFormat := {
  prefix : string;
  include_category : bool;
}.

Record LifeOSConfig := {
  activities : list Activity;
  priorities : Priorities;
  event_format : EventFormat;
}.

(** *** [scheduler.py]: the data *)

Record TimeSlot := {
  start : datetime;
  end_ : datetime;
  is_available : bool;
  event_id : option string;
  event_summary : option string;
  is_lifeos_event : bool;
  activity_id : option string;
}.

(** A calendar event as the scheduler reads it: [start] and [end_] are
    [event["start"]["dateTime"]] and [event["end"]["dateTime"]], absent for
    an all-day event; [ev_generated] and [ev_activity_id] are the entries
    [lifeos_generated] and [lifeos_activity_id] of
    [event["extendedProperties"]["private"]]. *)
Record Event := {
  ev_id : option string;
  ev_summary : option string;
  ev_start : option datetime;
  ev_end : option datetime;
  ev_generated : option string;
  ev_activity_id : option string;
}.

Record ScheduleProposal := {
  p_activity : Activity;
  p_start : datetime;
  p_end : datetime;
  p_reasoning : string;
  p_conflicts_with : option (list string);
  p_priority : string;
}.

Record Requirement := {
  r_activity : Activity;
  min_sessions : Z;
  max_sessions : Z;
  min_duration : Z;
  max_duration : Z;
  total_min_minutes : Z;
  total_max_minutes : Z;
  r_priority : string;
}.

Record Analysis := {
  an_activity : Activity;
  required_sessions : Z * Z;
  required_minutes : Z * Z;
  scheduled_sessions : Z;
  scheduled_minutes : Z;
  sessions_deficit : Z;
  sessions_surplus : Z;
  minutes_deficit : Z;
  an_priority : string;
}.

Definition duration_minutes (slot : TimeSlot) : Z :=
  PyTime.whole_minutes (end_ slot - start slot).

Definition overlaps (self other : TimeSlot) : bool :=
  bool_decide (start self < end_ other) && bool_decide (start other < end_ self).

Definition contains (self : TimeSlot) (dt : datetime) : bool :=
  bool_decide (start self ≤ dt) && bool_decide (dt < end_ self).

(** A free slot, [TimeSlot(start=s, end=e, is_available=True)]. *)
Definition gap_slot (s e : datetime) : TimeSlot :=
  {| start := s; end_ := e; is_available := true; event_id := None;
     event_summary := None; is_lifeos_event := false; activity_id := None |}.

(** [slot.start = t]. *)
Definition set_start (t : datetime) (slot : TimeSlot) : TimeSlot :=
  {| start := t; end_ := end_ slot; is_available := is_available slot;
     event_id := event_id slot; event_summary := event_summary slot;
     is_lifeos_event := is_lifeos_event slot; activity_id := activity_id slot |}.

Section WithInt.
(** Python's [int] on a string; [None] is [ValueError]. *)
Variable py_int : string → option Z.

Definition get_duration_range (a : Activity) : option (Z * Z) :=
  match a_duration a with
  | PyInt n => Some (n, n)
  | PyStr s =>
      if Py.has_char "-" s then
        let parts := Py.split "-" s in
        lo ← parts !! 0%nat ≫= py_int;
        hi ← parts !! 1%nat ≫= py_int;
        Some (lo, hi)
      else n ← py_int s; Some (n, n)
  end.

Definition get_frequency_range (a : Activity) : option (Z * Z) :=
  match a_frequency a with
  | PyInt n => Some (n, n)
  | PyStr s =>
      if decide (s = "daily") then Some (7, 7)
      else if decide (s = "weekly") then Some (1, 1)
      else if Py.has_char "-" s then
        let parts := Py.split "-" s in
        lo ← parts !! 0%nat ≫= py_int;
        hi ← parts !! 1%nat ≫= py_int;
        Some (lo, hi)
      else n ← py_int s; Some (n, n)
  end.

Definition get_activity_priority (config : LifeOSConfig) (activity_id : string)
  : string :=
  if decide (activity_id ∈ critical (priorities config)) then "critical"
  else if decide (activity_id ∈ high (priorities config)) then "high"
  else if decide (activity_id ∈ medium (priorities config)) then "medium"
  else if decide (activity_id ∈ low (priorities config)) then "low"
  else "medium".

(** *** [Scheduler.get_week_bounds] *)

Definition get_week_bounds (now : datetime) (start_date : option datetime)
  : datetime * datetime :=
  let start_date := default now start_date in
  let days_since_monday := PyTime.weekday start_date in
  let week_start := start_date - PyTime.days days_since_monday in
  let week_start := PyTime.at_midnight week_start in
  let week_end := week_start + PyTime.days 7 in
  (week_start, week_end).

(** *** [Scheduler.get_available_slots]

    Timestamps are instants here, and any two of them compare.  Python
    refuses, with a [TypeError], to compare or subtract a timestamp
    that carries a UTC offset and one that carries none: the model is of
    the calls whose range bounds and event times all carry an offset or
    all carry none, and it says nothing of when the other calls
    return. *)

(** The first loop: the events with a [dateTime] start become busy slots. *)
Fixpoint busy_slots_of (existing_events : list Event) : option (list TimeSlot) :=
  match existing_events with
  | [] => Some []
  | event :: rest =>
      match ev_start event with
      | None => busy_slots_of rest
      | Some event_start =>
          event_end ← ev_end event;
          busy ← busy_slots_of rest;
          Some ({| start := event_start; end_ := event_end;
                   is_available := false;
                   event_id := ev_id event;
                   event_summary := ev_summary event;
                   is_lifeos_event :=
                     bool_decide (ev_generated event = Some "true");
                   activity_id := ev_activity_id event |} :: busy)
      end
  end.

(** The sweep over the sorted busy slots, with its running [current]. *)
Fixpoint find_gaps (min_duration : Z) (busy_slots : list TimeSlot)
    (current end_date : datetime) : list TimeSlot :=
  match busy_slots with
  | [] =>
      if decide (current < end_date) then
        let gap := gap_slot current end_date in
        if decide (min_duration ≤ duration_minutes gap) then [gap] else []
      else []
  | busy :: rest =>
      (if decide (current < start busy) then
         let gap := gap_slot current (start busy) in
         if decide (min_duration ≤ duration_minutes gap) then [gap] else []
       else [])
      ++ find_gaps min_duration rest (current `max` end_ busy) end_date
  end.

Definition get_available_slots (existing_events : list Event)
    (start_date end_date : datetime) (min_duration : Z)
  : option (list TimeSlot) :=
  busy_slots ← busy_slots_of existing_events;
  let busy_slots := Py.sorted start Z.ltb busy_slots in
  Some (find_gaps min_duration busy_slots start_date end_date).

Definition default_min_duration : Z := 15.

(** *** The method and the list it is given

    [existing_events] is a list object of the caller.  Here the body of
    the method is written over what it does with that object, in a state
    monad: the state is the content of the list, a computation returns a
    result, or [None] for an exception, and the content of the list
    after it.  The method reaches the list through the iterator of its
    first loop only: each turn asks for the item at the next index of
    the list as it is then, and the loop ends when there is none.  The
    lists [busy_slots] and [available_slots] are made by the method. *)
Definition Run (A : Type) : Type := list Event → option A * list Event.

Definition run_ret {A} (a : A) : Run A := λ l, (Some a, l).

Definition run_raise {A} : Run A := λ l, (None, l).

Definition run_bind {A B} (m : Run A) (k : A → Run B) : Run B :=
  λ l, match m l with
       | (Some a, l') => k a l'
       | (None, l') => (None, l')
       end.

(** What is computed from values alone. *)
Definition run_lift {A} (x : option A) : Run A :=
  match x with
  | Some a => run_ret a
  | None => run_raise
  end.

(** [next(it)] for the iterator of the list at index [i]: the item, or
    nothing at the end of the list. *)
Definition item_at (i : nat) : Run (option Event) := λ l, (Some (l !! i), l).

(** The body of the first loop: the slots that [busy_slots.append] adds
    for [event], none for an event without a start [dateTime]. *)
Definition busy_slots_of_event (event : Event) : option (list TimeSlot) :=
  match ev_start event with
  | None => Some []
  | Some event_start =>
      event_end ← ev_end event;
      Some [{| start := event_start; end_ := event_end;
               is_available := false;
               event_id := ev_id event;
               event_summary := ev_summary event;
               is_lifeos_event :=
                 bool_decide (ev_generated event = Some "true");
               activity_id := ev_activity_id event |}]
  end.

(** The first loop from index [i], with the list [busy_slots] built so
    far; [fuel] bounds the number of turns, and running out of it is
    reported as [None]. *)
Fixpoint busy_loop (fuel : nat) (i : nat) (busy_slots : list TimeSlot)
  : Run (list TimeSlot) :=
  match fuel with
  | O => run_raise
  | S fuel =>
      run_bind (item_at i) (λ item,
        match item with
        | None => run_ret busy_slots
        | Some event =>
            run_bind (run_lift (busy_slots_of_event event)) (λ new,
              busy_loop fuel (S i) (busy_slots ++ new))
        end)
  end.

Definition run_get_available_slots (fuel : nat)
    (start_date end_date : datetime) (min_duration : Z)
  : Run (list TimeSlot) :=
  run_bind (busy_loop fuel 0 []) (λ busy_slots,
    let busy_slots := Py.sorted start Z.ltb busy_slots in
    run_ret (find_gaps min_duration busy_slots start_date end_date)).

(** *** [Scheduler.filter_slots_by_preference]

    The function returns the slot objects it was given, not copies: it
    is written over references [R] to slots, read through [deref]. *)
Section filter.
Context {R : Type} (deref : R → TimeSlot).

(** The inner loop over [prefs], with its flag [matches_pref]. *)
Fixpoint match_prefs (prefs : list string) (hour : Z) (matches_pref : bool)
  : bool :=
  match prefs with
  | [] => matches_pref
  | pref :: rest =>
      match_prefs rest hour
        (if bool_decide (pref = "morning") && bool_decide (5 ≤ hour < 12)
         then true
         else if bool_decide (pref = "afternoon") && bool_decide (12 ≤ hour < 17)
         then true
         else if bool_decide (pref = "evening") && bool_decide (17 ≤ hour < 22)
         then true
         else if bool_decide (pref ∈ ["flexible"; "any"])
         then true
         else matches_pref)
  end.

(** The truth value of [day_preference] and of [time_preference]:
    [None], an empty list and an empty string are false. *)
Definition day_preference_truthy (day_preference : option (list string))
  : bool :=
  match day_preference with
  | None | Some [] => false
  | Some (_ :: _) => true
  end.

Definition time_preference_truthy (time_preference : option StrOrList)
  : bool :=
  match time_preference with
  | None | Some (OneStr "") | Some (StrList []) => false
  | _ => true
  end.

(** One turn of the loop over [slots]: is [slot] appended to
    [filtered]? *)
Definition keeps_slot (time_preference : option StrOrList)
    (day_preference : option (list string)) (slot : R) : bool :=
  if day_preference_truthy day_preference
     && negb (bool_decide
                (PyTime.day_name (start (deref slot))
                   ∈ default [] day_preference))
  then false
  else if time_preference_truthy time_preference then
    let prefs := match time_preference with
                 | Some (OneStr s) => [s]
                 | Some (StrList l) => l
                 | None => []
                 end in
    let hour := PyTime.hour (start (deref slot)) in
    match_prefs prefs hour false
  else true.

Definition filter_slots_by_preference (slots : list R)
    (time_preference : option StrOrList)
    (day_preference : option (list string)) : list R :=
  match time_preference, day_preference with
  | None, None => slots
  | _, _ => List.filter (keeps_slot time_preference day_preference) slots
  end.
End filter.

(** *** [Scheduler.calculate_weekly_requirements] *)

Fixpoint requirements_loop (config : LifeOSConfig) (acts : list Activity)
    (requirements : list (string * Requirement))
  : option (list (string * Requirement)) :=
  match acts with
  | [] => Some requirements
  | activity :: rest =>
      '(min_freq, max_freq) ← get_frequency_range activity;
      '(min_dur, max_dur) ← get_duration_range activity;
      requirements_loop config rest
        (Py.dict_set (a_id activity)
           {| r_activity := activity;
              min_sessions := min_freq;
              max_sessions := max_freq;
              min_duration := min_dur;
              max_duration := max_dur;
              total_min_minutes := min_freq * min_dur;
              total_max_minutes := max_freq * max_dur;
              r_priority := get_activity_priority config (a_id activity) |}
           requirements)
  end.

Definition calculate_weekly_requirements (config : LifeOSConfig)
  : option (list (string * Requirement)) :=
  requirements_loop config (activities config) [].

(** *** [Scheduler.analyze_scheduled_vs_required] *)

(** The loop over the events for one activity id, with its two
    counters. *)
Fixpoint tally (activity_id : string) (existing_events : list Event)
    (scheduled_sessions scheduled_minutes : Z) : option (Z * Z) :=
  match existing_events with
  | [] => Some (scheduled_sessions, scheduled_minutes)
  | event :: rest =>
      if decide (ev_activity_id event = Some activity_id) then
        s ← ev_start event;
        e ← ev_end event;
        tally activity_id rest (scheduled_sessions + 1)
          (scheduled_minutes + PyTime.whole_minutes (e - s))
      else tally activity_id rest scheduled_sessions scheduled_minutes
  end.

(** The entry [analysis[activity_id]] built from the requirement and the
    two counters. *)
Definition analysis_entry (req : Requirement)
    (scheduled_sessions scheduled_minutes : Z) : Analysis :=
  {| an_activity := r_activity req;
     required_sessions := (min_sessions req, max_sessions req);
     required_minutes := (total_min_minutes req, total_max_minutes req);
     scheduled_sessions := scheduled_sessions;
     scheduled_minutes := scheduled_minutes;
     sessions_deficit := 0 `max` (min_sessions req - scheduled_sessions);
     sessions_surplus := 0 `max` (scheduled_sessions - max_sessions req);
     minutes_deficit := 0 `max` (total_min_minutes req - scheduled_minutes);
     an_priority := r_priority req |}.

Fixpoint analysis_loop (existing_events : list Event)
    (items : list (string * Requirement)) (analysis : list (string * Analysis))
  : option (list (string * Analysis)) :=
  match items with
  | [] => Some analysis
  | (activity_id, req) :: rest =>
      '(sessions, mins) ← tally activity_id existing_events 0 0;
      analysis_loop existing_events rest
        (Py.dict_set activity_id (analysis_entry req sessions mins) analysis)
  end.

Definition analyze_scheduled_vs_required (config : LifeOSConfig)
    (existing_events : list Event) (week_start week_end : datetime)
  : option (list (string * Analysis)) :=
  requirements ← calculate_weekly_requirements config;
  analysis_loop existing_events requirements [].

(** *** [Scheduler.propose_schedule] *)

Definition priority_order : list (string * Z) :=
  [("critical", 0); ("high", 1); ("medium", 2); ("low", 3)].

(** The sort key [(priority_order.get(priority, 2), -sessions_deficit)]. *)
Definition schedule_key (x : string * Analysis) : Z * Z :=
  (default 2 (Py.dict_get (an_priority x.2) priority_order),
   - sessions_deficit x.2).

Definition activities_to_schedule (analysis : list (string * Analysis))
  : list (string * Analysis) :=
  Py.sorted schedule_key Py.pair_lt
    (filter (λ x, 0 < sessions_deficit x.2) analysis).

(** The slot objects of [available] live in a store and are referred to
    by their position in it; the walk over [preferred_slots] shrinks the
    slot it books in place. *)
Definition deref (store : list TimeSlot) (r : nat) : TimeSlot :=
  default (gap_slot 0 0) (store !! r).

Definition reasoning_text (data : Analysis) (activity : Activity) : string :=
  "Filling deficit of " +:+ Py.str_of_int (sessions_deficit data)
    +:+ " sessions for " +:+ a_name activity.

Fixpoint book_sessions (activity : Activity) (data : Analysis) (min_dur : Z)
    (store : list TimeSlot) (preferred_slots : list nat) (needed_sessions : Z)
  : list ScheduleProposal * list TimeSlot :=
  match preferred_slots with
  | [] => ([], store)
  | r :: rest =>
      if decide (needed_sessions ≤ 0) then ([], store)
      else
        let slot := deref store r in
        if decide (min_dur ≤ duration_minutes slot) then
          let duration := min_dur `min` duration_minutes slot in
          let end_time := start slot + PyTime.minutes duration in
          let proposal :=
            {| p_activity := activity;
               p_start := start slot;
               p_end := end_time;
               p_reasoning := reasoning_text data activity;
               p_conflicts_with := None;
               p_priority := an_priority data |} in
          let store := alter (set_start end_time) r store in
          let '(proposals, store) :=
            book_sessions activity data min_dur store rest
              (needed_sessions - 1) in
          (proposal :: proposals, store)
        else book_sessions activity data min_dur store rest needed_sessions
  end.

(** The slots walked for an activity: the preferred ones, or all of
    [available] when there is none. *)
Definition slots_to_walk (store : list TimeSlot) (available : list nat)
    (activity : Activity) : list nat :=
  let preferred_slots :=
    filter_slots_by_preference (deref store) available
      (a_time_preference activity) (a_days_preference activity) in
  match preferred_slots with
  | [] => available
  | _ => preferred_slots
  end.

(** One turn of the loop over [activities_to_schedule]. *)
Definition schedule_activity (available : list nat) (store : list TimeSlot)
    (item : string * Analysis)
  : option (list ScheduleProposal * list TimeSlot) :=
  let activity := an_activity item.2 in
  let needed_sessions := sessions_deficit item.2 in
  '(min_dur, max_dur) ← get_duration_range activity;
  Some (book_sessions activity item.2 min_dur store
          (slots_to_walk store available activity) needed_sessions).

Fixpoint schedule_loop (available : list nat) (store : list TimeSlot)
    (items : list (string * Analysis))
  : option (list ScheduleProposal * list TimeSlot) :=
  match items with
  | [] => Some ([], store)
  | item :: rest =>
      '(proposals, store) ← schedule_activity available store item;
      '(more, store) ← schedule_loop available store rest;
      Some (proposals ++ more, store)
  end.

Definition propose_schedule (config : LifeOSConfig) (now : datetime)
    (existing_events : list Event) (week_start : option datetime)
  : option (list ScheduleProposal) :=
  let '(week_start, week_end) :=
    match week_start with
    | None => get_week_bounds now None
    | Some week_start => (week_start, week_start + PyTime.days 7)
    end in
  analysis ←
    analyze_scheduled_vs_required config existing_events week_start week_end;
  available ←
    get_available_slots existing_events week_start week_end
      default_min_duration;
  '(proposals, _) ←
    schedule_loop (seq 0 (length available)) available
      (activities_to_schedule analysis);
  Some proposals.

(** *** From a proposal to a booked event

    [ScheduleProposal.to_event_body] followed by
    [CalendarClient.create_event], which files the start and end under
    [dateTime] and the extended properties under [extendedProperties];
    the calendar assigns the id. *)
Definition to_event_summary (config : LifeOSConfig) (p : ScheduleProposal)
  : string :=
  let category_suffix :=
    if include_category (event_format config)
    then " [" +:+ a_category (p_activity p) +:+ "]" else "" in
  Py.strip (prefix (event_format config) +:+ a_name (p_activity p)
              +:+ category_suffix).

Definition booked_event (config : LifeOSConfig) (new_id : option string)
    (p : ScheduleProposal) : Event :=
  {| ev_id := new_id;
     ev_summary := Some (to_event_summary config p);
     ev_start := Some (p_start p);
     ev_end := Some (p_end p);
     ev_generated := Some "true";
     ev_activity_id := Some (a_id (p_activity p)) |}.

End WithInt.
End Agent.

(** ** The [apps/life-os-agent] variant *)

Module Apps.

(** *** [config.py] *)

Inductive DayOfWeek :=
  MONDAY | TUESDAY | WEDNESDAY | THURSDAY | FRIDAY | SATURDAY | SUNDAY.
Inductive TimePreference := MORNING | AFTERNOON | EVENING | FLEXIBLE.
Inductive Priority := CRITICAL | HIGH | MEDIUM | LOW.
Inductive ActivityCategory := HEALTH | LEARNING | CREATIVE | WORK | LIFE | SOCIAL.
Inductive IntOrStr := PyInt (n : Z) | PyStr (s : string).

#[global] Instance DayOfWeek_eq_dec : EqDecision DayOfWeek.
Proof. solve_decision. Defined.
#[global] Instance TimePreference_eq_dec : EqDecision TimePreference.
Proof. solve_decision. Defined.
#[global] Instance Priority_eq_dec : EqDecision Priority.
Proof. solve_decision. Defined.

Record WorkTemplate := {
  w_days : list DayOfWeek;
  w_start : string;
  w_end : string;
}.

Record Template := {
  work : option WorkTemplate;
}.

Record Commitment := {
  c_name : string;
  c_day : DayOfWeek;
  c_start : string;
  c_end : string;
}.

Record Activity := {
  a_id : string;
  a_name : string;
  a_category : ActivityCategory;
  a_frequency : IntOrStr;
  a_duration : IntOrStr;
  a_time_preference : TimePreference;
  a_days_preference : option (list DayOfWeek);
  a_location : option string;
}.

Record Priorities := {
  critical : list string;
  high : list string;
  medium : list string;
  low : list string;
}.

Record LifeOSConfig := {
  template : option Template;
  commitments : list Commitment;
  activities : list Activity;
  priorities : Priorities;
}.

(** *** [scheduler.py]: the data

    A [date] is a day number (day 0 is Monday 0001-01-01) and a [time] a
    number of microseconds since midnight. *)

Record TimeSlot := {
  start : datetime;
  end_ : datetime;
  day : option DayOfWeek;
}.

Record ScheduledEvent := {
  e_id : string;
  e_title : string;
  e_start : datetime;
  e_end : datetime;
  e_activity_id : option string;
  e_location : option string;
  e_description : option string;
}.

Record ProposedEvent := {
  pe_activity : Activity;
  pe_slot : TimeSlot;
  pe_priority : Priority;
  pe_notes : string;
}.

Record Coverage := {
  cov_scheduled : Z;
  cov_target : Z;
  cov_covered : bool;
}.

Record ScheduleProposal := {
  sp_week_start : Z;
  proposed_events : list ProposedEvent;
  conflicts : list string;
  coverage : list (string * Coverage);
}.

Record Requirement := {
  r_activity : Activity;
  target_sessions : Z;
  min_minutes : Z;
  max_minutes : Z;
  r_priority : Priority;
}.

Record Analysis := {
  activity_name : string;
  an_target_sessions : Z;
  scheduled_sessions : Z;
  gap_sessions : Z;
  target_minutes : Z;
  scheduled_minutes : Z;
  an_priority : Priority;
  on_track : bool;
}.

(** [time(h, m)]; the constructor raises outside the clock. *)
Definition time (h m : Z) : option Z :=
  if bool_decide (0 ≤ h < 24) && bool_decide (0 ≤ m < 60)
  then Some (h * PyTime.us_per_hour + m * PyTime.us_per_minute) else None.

(** The literals [time(6, 0)], [time(12, 0)], [time(17, 0)], [time(22, 0)]. *)
Definition t06 : Z := 6 * PyTime.us_per_hour.
Definition t12 : Z := 12 * PyTime.us_per_hour.
Definition t17 : Z := 17 * PyTime.us_per_hour.
Definition t22 : Z := 22 * PyTime.us_per_hour.

(** [datetime.combine(d, t)], [dt.date()] and [dt.time()]. *)
Definition combine (d : Z) (t : Z) : datetime := d * PyTime.us_per_day + t.
Definition date_of (dt : datetime) : Z := dt `div` PyTime.us_per_day.
Definition time_of (dt : datetime) : Z := dt `mod` PyTime.us_per_day.

(** [DayOfWeek(d.strftime("%A").lower())]. *)
Definition day_of_date (d : Z) : DayOfWeek :=
  default MONDAY
    ([MONDAY; TUESDAY; WEDNESDAY; THURSDAY; FRIDAY; SATURDAY; SUNDAY]
       !! Z.to_nat (d `mod` 7)).

Definition duration_minutes (slot : TimeSlot) : Z :=
  PyTime.whole_minutes (end_ slot - start slot).

Definition event_duration_minutes (e : ScheduledEvent) : Z :=
  PyTime.whole_minutes (e_end e - e_start e).

Definition TIME_RANGES (p : TimePreference) : Z * Z :=
  match p with
  | MORNING => (t06, t12)
  | AFTERNOON => (t12, t17)
  | EVENING => (t17, t22)
  | FLEXIBLE => (t06, t22)
  end.

Section WithBuiltins.
(** Python's [int] on a string, [str.lower] and [str] of a date. *)
Variable py_int : string → option Z.
Variable py_lower : string → string.
Variable str_of_date : Z → string.

(** [h, m = map(int, s.split(":")); return time(h, m)], the body of the
    properties [start_time] and [end_time]. *)
Definition parse_time (s : string) : option Z :=
  match Py.split ":" s with
  | [a; b] => h ← py_int a; m ← py_int b; time h m
  | _ => None
  end.

Definition min_duration (a : Activity) : option Z :=
  match a_duration a with
  | PyInt n => Some n
  | PyStr s =>
      if Py.has_char "-" s then Py.split "-" s !! 0%nat ≫= py_int
      else py_int s
  end.

Definition max_duration (a : Activity) : option Z :=
  match a_duration a with
  | PyInt n => Some n
  | PyStr s =>
      if Py.has_char "-" s then Py.split "-" s !! 1%nat ≫= py_int
      else py_int s
  end.

Definition weekly_target (a : Activity) : option Z :=
  match a_frequency a with
  | PyInt n => Some n
  | PyStr s =>
      if decide (s = "daily") then Some 7
      else if decide (s = "weekly") then Some 1
      else if Py.has_char "-" s then Py.split "-" s !! 0%nat ≫= py_int
      else py_int s
  end.

Definition get_priority (p : Priorities) (activity_id : string) : Priority :=
  if decide (activity_id ∈ critical p) then CRITICAL
  else if decide (activity_id ∈ high p) then HIGH
  else if decide (activity_id ∈ medium p) then MEDIUM
  else if decide (activity_id ∈ low p) then LOW
  else MEDIUM.

(** *** [Scheduler.get_week_bounds] on dates *)
Definition get_week_bounds (today : Z) (reference_date : option Z) : Z * Z :=
  let reference_date := default today reference_date in
  let days_since_monday := reference_date `mod` 7 in
  let monday := reference_date - days_since_monday in
  let sunday := monday + 6 in
  (monday, sunday).

(** *** [Scheduler.calculate_weekly_requirements] *)
Fixpoint requirements_loop (config : LifeOSConfig) (acts : list Activity)
    (requirements : list (string * Requirement))
  : option (list (string * Requirement)) :=
  match acts with
  | [] => Some requirements
  | activity :: rest =>
      target ← weekly_target activity;
      lo ← min_duration activity;
      hi ← max_duration activity;
      requirements_loop config rest
        (Py.dict_set (a_id activity)
           {| r_activity := activity;
              target_sessions := target;
              min_minutes := target * lo;
              max_minutes := target * hi;
              r_priority := get_priority (priorities config) (a_id activity) |}
           requirements)
  end.

Definition calculate_weekly_requirements (config : LifeOSConfig)
  : option (list (string * Requirement)) :=
  requirements_loop config (activities config) [].

(** *** [Scheduler.get_available_slots]

    The function appends the work and commitment blocks to the list
    object it is given: it returns the slots together with the final
    content of that list. *)

Definition synthetic_event (id title : string) (s e : datetime)
  : ScheduledEvent :=
  {| e_id := id; e_title := title; e_start := s; e_end := e;
     e_activity_id := None; e_location := None; e_description := None |}.

Definition add_work (config : LifeOSConfig) (current_date : Z)
    (day : DayOfWeek) (existing_events : list ScheduledEvent)
  : option (list ScheduledEvent) :=
  match template config ≫= work with
  | Some w =>
      if decide (day ∈ w_days w) then
        work_start ← parse_time (w_start w);
        work_end ← parse_time (w_end w);
        Some (existing_events ++
                [synthetic_event ("work_" +:+ str_of_date current_date) "Work"
                   (combine current_date work_start)
                   (combine current_date work_end)])
      else Some existing_events
  | None => Some existing_events
  end.

Fixpoint add_commitments (current_date : Z) (day : DayOfWeek)
    (cs : list Commitment) (existing_events : list ScheduledEvent)
  : option (list ScheduledEvent) :=
  match cs with
  | [] => Some existing_events
  | commitment :: rest =>
      if decide (c_day commitment = day) then
        s ← parse_time (c_start commitment);
        e ← parse_time (c_end commitment);
        add_commitments current_date day rest
          (existing_events ++
             [synthetic_event
                ("commitment_" +:+ c_name commitment +:+ "_"
                   +:+ str_of_date current_date)
                (c_name commitment)
                (combine current_date s) (combine current_date e)])
      else add_commitments current_date day rest existing_events
  end.

(** The sweep over the sorted events of one day; the last argument is
    [day_end]. *)
Fixpoint find_gaps (slot_duration : Z) (day : DayOfWeek)
    (day_events : list ScheduledEvent) (current_time day_end : datetime)
  : list TimeSlot :=
  match day_events with
  | [] =>
      if decide (current_time < day_end) then
        let gap := {| start := current_time; end_ := day_end;
                      day := Some day |} in
        if decide (slot_duration ≤ duration_minutes gap) then [gap] else []
      else []
  | event :: rest =>
      (if decide (current_time < e_start event) then
         let gap := {| start := current_time; end_ := e_start event;
                       day := Some day |} in
         if decide (slot_duration ≤ duration_minutes gap) then [gap] else []
       else [])
      ++ find_gaps slot_duration day rest (current_time `max` e_end event)
           day_end
  end.

(** One turn of the loop over [range(7)]: the slots of the day and the
    list object after the turn. *)
Definition day_slots (config : LifeOSConfig) (week_start : Z)
    (slot_duration : Z) (existing_events : list ScheduledEvent)
    (day_offset : Z) : option (list TimeSlot * list ScheduledEvent) :=
  let current_date := week_start + day_offset in
  let day := day_of_date current_date in
  let day_start := combine current_date t06 in
  let day_end := combine current_date t22 in
  existing_events ← add_work config current_date day existing_events;
  existing_events ←
    add_commitments current_date day (commitments config) existing_events;
  let day_events :=
    filter (λ e, date_of (e_start e) = current_date) existing_events in
  let day_events := Py.sorted e_start Z.ltb day_events in
  Some (find_gaps slot_duration day day_events day_start day_end,
        existing_events).

Fixpoint days_loop (config : LifeOSConfig) (week_start : Z)
    (slot_duration : Z) (offsets : list Z)
    (available : list TimeSlot) (existing_events : list ScheduledEvent)
  : option (list TimeSlot * list ScheduledEvent) :=
  match offsets with
  | [] => Some (available, existing_events)
  | day_offset :: rest =>
      '(gaps, existing_events) ←
        day_slots config week_start slot_duration existing_events day_offset;
      days_loop config week_start slot_duration rest (available ++ gaps)
        existing_events
  end.

Definition get_available_slots (config : LifeOSConfig) (week_start : Z)
    (existing_events : list ScheduledEvent) (slot_duration : Z)
  : option (list TimeSlot * list ScheduledEvent) :=
  days_loop config week_start slot_duration (seqZ 0 7) [] existing_events.

Definition default_slot_duration : Z := 30.

(** *** [Scheduler.filter_slots_by_preference] *)

Definition days_preference_truthy (a : Activity) : bool :=
  match a_days_preference a with
  | None | Some [] => false
  | Some (_ :: _) => true
  end.

(** The loop over [slots], with its two lists [preferred] and [other]. *)
Fixpoint partition_slots (activity : Activity) (slots : list TimeSlot)
    (preferred other : list TimeSlot) : list TimeSlot * list TimeSlot :=
  match slots with
  | [] => (preferred, other)
  | slot :: rest =>
      let '(pref_start, pref_end) := TIME_RANGES (a_time_preference activity) in
      let slot_time := time_of (start slot) in
      if days_preference_truthy activity
         && negb (bool_decide
                    (day slot ∈ (Some <$> default [] (a_days_preference activity))))
      then partition_slots activity rest preferred other
      else if bool_decide (pref_start ≤ slot_time < pref_end)
      then partition_slots activity rest (preferred ++ [slot]) other
      else if decide (a_time_preference activity = FLEXIBLE)
      then partition_slots activity rest (preferred ++ [slot]) other
      else partition_slots activity rest preferred (other ++ [slot])
  end.

Definition filter_slots_by_preference (slots : list TimeSlot)
    (activity : Activity) : list TimeSlot :=
  let '(preferred, other) := partition_slots activity slots [] [] in
  preferred ++ other.

(** *** [Scheduler.analyze_scheduled_vs_required] *)

(** [a in b] on strings. *)
Definition is_substring (a b : string) : bool :=
  bool_decide (is_Some (String.index 0 a b)).

(** The truth value of an optional string. *)
Definition str_truthy (s : option string) : bool :=
  match s with
  | None | Some "" => false
  | Some _ => true
  end.

Fixpoint match_by_title (title : string) (acts : list Activity)
    (activity_id : option string) : option string :=
  match acts with
  | [] => activity_id
  | activity :: rest =>
      if is_substring (py_lower (a_name activity)) (py_lower title)
      then Some (a_id activity)
      else match_by_title title rest activity_id
  end.

Fixpoint count_events (config : LifeOSConfig) (week_start week_end : Z)
    (scheduled_events : list ScheduledEvent)
    (scheduled_counts scheduled_minutes : list (string * Z))
  : list (string * Z) * list (string * Z) :=
  match scheduled_events with
  | [] => (scheduled_counts, scheduled_minutes)
  | event :: rest =>
      if bool_decide (date_of (e_start event) < week_start)
         || bool_decide (week_end < date_of (e_start event))
      then count_events config week_start week_end rest
             scheduled_counts scheduled_minutes
      else
        let activity_id := e_activity_id event in
        let activity_id :=
          if str_truthy activity_id then activity_id
          else match_by_title (e_title event) (activities config) activity_id in
        if str_truthy activity_id then
          let k := default "" activity_id in
          count_events config week_start week_end rest
            (Py.dict_set k (default 0 (Py.dict_get k scheduled_counts) + 1)
               scheduled_counts)
            (Py.dict_set k
               (default 0 (Py.dict_get k scheduled_minutes)
                  + event_duration_minutes event)
               scheduled_minutes)
        else
          count_events config week_start week_end rest
            scheduled_counts scheduled_minutes
  end.

Fixpoint analysis_loop (scheduled_counts scheduled_minutes : list (string * Z))
    (items : list (string * Requirement)) (analysis : list (string * Analysis))
  : list (string * Analysis) :=
  match items with
  | [] => analysis
  | (activity_id, req) :: rest =>
      let scheduled := default 0 (Py.dict_get activity_id scheduled_counts) in
      let target := target_sessions req in
      let mins := default 0 (Py.dict_get activity_id scheduled_minutes) in
      analysis_loop scheduled_counts scheduled_minutes rest
        (Py.dict_set activity_id
           {| activity_name := a_name (r_activity req);
              an_target_sessions := target;
              scheduled_sessions := scheduled;
              gap_sessions := 0 `max` (target - scheduled);
              target_minutes := min_minutes req;
              scheduled_minutes := mins;
              an_priority := r_priority req;
              on_track := bool_decide (target ≤ scheduled) |}
           analysis)
  end.

Definition analyze_scheduled_vs_required (config : LifeOSConfig)
    (scheduled_events : list ScheduledEvent) (week_start : Z)
  : option (list (string * Analysis)) :=
  requirements ← calculate_weekly_requirements config;
  let week_end := week_start + 6 in
  let '(scheduled_counts, scheduled_minutes) :=
    count_events config week_start week_end scheduled_events [] [] in
  Some (analysis_loop scheduled_counts scheduled_minutes requirements []).

(** *** [Scheduler._split_slot] *)
Fixpoint _split_slot (slots : list TimeSlot) (original used : TimeSlot)
  : list TimeSlot :=
  match slots with
  | [] => []
  | slot :: rest =>
      (if bool_decide (start slot = start original)
          && bool_decide (end_ slot = end_ original)
       then
         (if decide (start slot < start used)
          then [{| start := start slot; end_ := start used; day := day slot |}]
          else [])
         ++ (if decide (end_ used < end_ slot)
             then [{| start := end_ used; end_ := end_ slot; day := day slot |}]
             else [])
       else [slot])
      ++ _split_slot rest original used
  end.

(** *** [Scheduler.propose_schedule] *)

Definition priority_index (p : Priority) : Z :=
  match p with CRITICAL => 0 | HIGH => 1 | MEDIUM => 2 | LOW => 3 end.

Definition sorted_activities (config : LifeOSConfig) : list Activity :=
  Py.sorted (λ a, priority_index (get_priority (priorities config) (a_id a)))
    Z.ltb (activities config).

(** The state the two nested loops work on. *)
Record FillState := {
  fs_available : list TimeSlot;
  fs_proposed : list ProposedEvent;
  fs_counts : list (string * Z);
}.

(** The loop over [preferred_slots] for one activity. *)
Fixpoint fill_slots (config : LifeOSConfig) (activity : Activity)
    (min_dur : Z) (preferred_slots : list TimeSlot) (needed : Z)
    (st : FillState) : FillState :=
  match preferred_slots with
  | [] => st
  | slot :: rest =>
      if decide (needed ≤ 0) then st
      else if decide (duration_minutes slot < min_dur)
      then fill_slots config activity min_dur rest needed st
      else
        let event_end := start slot + PyTime.minutes min_dur in
        if decide (end_ slot < event_end)
        then fill_slots config activity min_dur rest needed st
        else
          let proposed :=
            {| pe_activity := activity;
               pe_slot := {| start := start slot; end_ := event_end;
                             day := day slot |};
               pe_priority := get_priority (priorities config) (a_id activity);
               pe_notes := "" |} in
          fill_slots config activity min_dur rest (needed - 1)
            {| fs_available :=
                 _split_slot (fs_available st) slot (pe_slot proposed);
               fs_proposed := fs_proposed st ++ [proposed];
               fs_counts :=
                 Py.dict_set (a_id activity)
                   (default 0 (Py.dict_get (a_id activity) (fs_counts st)) + 1)
                   (fs_counts st) |}
  end.

(** The loop over [sorted_activities]. *)
Fixpoint fill_gaps (config : LifeOSConfig)
    (requirements : list (string * Requirement)) (acts : list Activity)
    (st : FillState) : option FillState :=
  match acts with
  | [] => Some st
  | activity :: rest =>
      req ← Py.dict_get (a_id activity) requirements;
      let current := default 0 (Py.dict_get (a_id activity) (fs_counts st)) in
      let needed := target_sessions req - current in
      if decide (needed ≤ 0) then fill_gaps config requirements rest st
      else
        let preferred_slots :=
          filter_slots_by_preference (fs_available st) activity in
        match preferred_slots with
        | [] => fill_gaps config requirements rest st
        | _ :: _ =>
            min_dur ← min_duration activity;
            fill_gaps config requirements rest
              (fill_slots config activity min_dur preferred_slots needed st)
        end
  end.

Definition final_coverage (requirements : list (string * Requirement))
    (scheduled_counts : list (string * Z)) : list (string * Coverage) :=
  foldl (λ cov '(activity_id, req),
           let scheduled := default 0 (Py.dict_get activity_id scheduled_counts) in
           Py.dict_set activity_id
             {| cov_scheduled := scheduled;
                cov_target := target_sessions req;
                cov_covered := bool_decide (target_sessions req ≤ scheduled) |}
             cov)
    [] requirements.

(** The result comes with the final content of the caller's list
    [existing_events]; [get_available_slots] works on a copy of it. *)
Definition propose_schedule (config : LifeOSConfig) (week_start : Z)
    (existing_events : list ScheduledEvent)
  : option (ScheduleProposal * list ScheduledEvent) :=
  requirements ← calculate_weekly_requirements config;
  let copy := existing_events in
  '(available, copy) ←
    get_available_slots config week_start copy default_slot_duration;
  analysis ← analyze_scheduled_vs_required config existing_events week_start;
  let scheduled_counts :=
    foldl (λ counts '(activity_id, info),
             Py.dict_set activity_id (scheduled_sessions info) counts)
      [] analysis in
  st ← fill_gaps config requirements (sorted_activities config)
         {| fs_available := available; fs_proposed := [];
            fs_counts := scheduled_counts |};
  Some ({| sp_week_start := week_start;
           proposed_events := fs_proposed st;
           conflicts := [];
           coverage := final_coverage requirements (fs_counts st) |},
        existing_events).

End WithBuiltins.
End Apps.

(** ** Further functions of [life-os-agent] *)

Module AgentMore.
Import Agent.

(** *** [config.py]: the lookups of [LifeOSConfig] *)

(** The loop of [get_activity_by_id] over [self.activities]. *)
Fixpoint first_with_id (acts : list Activity) (activity_id : string)
  : option Activity :=
  match acts with
  | [] => None
  | activity :: rest =>
      if decide (a_id activity = activity_id) then Some activity
      else first_with_id rest activity_id
  end.

Definition get_activity_by_id (config : LifeOSConfig) (activity_id : string)
  : option Activity :=
  first_with_id (activities config) activity_id.

(** [config.template.work], of which the scheduler reads the days and the
    two times. *)
Record WorkTemplate := {
  w_days : list string;
  w_start : string;
  w_end : string;
}.

(** [date.replace(hour=h, minute=m, second=0, microsecond=0)]; it raises
    outside the clock. *)
Definition replace_time (date : datetime) (h m : Z) : option datetime :=
  if bool_decide (0 ≤ h < 24) && bool_decide (0 ≤ m < 60)
  then Some (PyTime.at_midnight date + h * PyTime.us_per_hour
             + m * PyTime.us_per_minute)
  else None.

Section WithInt.
Variable py_int : string → option Z.

(** *** [Scheduler.parse_time_of_day] *)
Definition parse_time_of_day (time_str : string) : option (Z * Z) :=
  let parts := Py.split ":" time_str in
  h ← parts !! 0%nat ≫= py_int;
  m ← parts !! 1%nat ≫= py_int;
  Some (h, m).

(** *** [Scheduler.get_work_hours]

    The work template [self.config.template.work] is an argument.  The
    outer [None] is an exception, the inner one the result [None]. *)
Definition get_work_hours (work : WorkTemplate) (date : datetime)
  : option (option (datetime * datetime)) :=
  let day_name := PyTime.day_name date in
  if decide (day_name ∉ w_days work) then Some None
  else
    '(start_h, start_m) ← parse_time_of_day (w_start work);
    '(end_h, end_m) ← parse_time_of_day (w_end work);
    work_start ← replace_time date start_h start_m;
    work_end ← replace_time date end_h end_m;
    Some (Some (work_start, work_end)).

(** *** [Scheduler.find_slot_for_activity]

    The slots are values here: the function returns slots that
    [get_available_slots] has just made. *)
Definition find_slot_for_activity (now : datetime) (activity : Activity)
    (existing_events : list Event) (target_date : option datetime)
    (search_days : Z) : option (list TimeSlot) :=
  let target_date := default now target_date in
  let start := PyTime.at_midnight target_date in
  let end_ := start + PyTime.days search_days in
  available ←
    get_available_slots existing_events start end_ default_min_duration;
  '(min_dur, _) ← get_duration_range py_int activity;
  let suitable :=
    filter (λ s, min_dur ≤ duration_minutes s) available in
  let preferred :=
    filter_slots_by_preference id suitable (a_time_preference activity)
      (a_days_preference activity) in
  Some (match preferred with [] => suitable | _ => preferred end).

Definition default_search_days : Z := 7.
End WithInt.
End AgentMore.

(** ** Further functions of the [apps/life-os-agent] variant *)

Module AppsMore.
Import Apps.

(** *** [config.py]: the lookup by priority *)

(** [getattr(self.priorities, priority.value, [])]. *)
Definition tier (p : Priorities) (priority : Priority) : list string :=
  match priority with
  | CRITICAL => critical p
  | HIGH => high p
  | MEDIUM => medium p
  | LOW => low p
  end.

Definition get_activities_by_priority (config : LifeOSConfig)
    (priority : Priority) : list Activity :=
  filter (λ a, a_id a ∈ tier (priorities config) priority) (activities config).
End AppsMore.

(** * Vocabulary of the properties *)

(** [x] is not after [y] in the order of a sort by [key]: the key of [y] is
    not smaller than the key of [x]. *)
Definition key_le {A K : Type} (key : A → K) (lt : K → K → bool) (x y : A)
  : Prop := lt (key y) (key x) = false.

Module AgentSpec.
Import Agent.

(** The instant [t] lies in the half-open interval of [slot]. *)
Definition inside (slot : TimeSlot) (t : datetime) : Prop :=
  start slot ≤ t < end_ slot.

(** The instant lies in one of the slots. *)
Definition covered (slots : list TimeSlot) (t : datetime) : Prop :=
  Exists (λ slot, inside slot t) slots.

(** Every slot ends before the slots after it in the list start. *)
Definition chronological (slots : list TimeSlot) : Prop :=
  StronglySorted (λ a b, end_ a ≤ start b) slots.

(** No two slots at different positions overlap. *)
Definition pairwise_disjoint (slots : list TimeSlot) : Prop :=
  ∀ i j a b, i ≠ j → slots !! i = Some a → slots !! j = Some b →
             overlaps a b = false.

(** A busy interval contained in the range. *)
Definition within (start_date end_date : datetime) (b : TimeSlot) : Prop :=
  start_date ≤ start b ∧ start b ≤ end_ b ∧ end_ b ≤ end_date.

(** The free time of the range: the instants that no busy interval
    holds. *)
Definition free (busy : list TimeSlot) (start_date end_date : datetime)
    (t : datetime) : Prop :=
  start_date ≤ t < end_date ∧ ¬ covered busy t.

(** The interval from [s] to [e] is a gap of the free time, a maximal
    interval of it: it is not empty, all its instants are free, and
    neither the instant before it nor the instant at its end is free.
    Instants are whole microseconds, the resolution of a timestamp. *)
Definition free_gap (busy : list TimeSlot) (start_date end_date : datetime)
    (s e : datetime) : Prop :=
  s < e ∧
  (∀ t, s ≤ t < e → free busy start_date end_date t) ∧
  ¬ free busy start_date end_date (s - 1) ∧
  ¬ free busy start_date end_date e.
End AgentSpec.

Module FilterSpec.
Import Agent.

(** The list of preferences a time preference stands for. *)
Definition prefs_of (time_preference : option StrOrList) : list string :=
  match time_preference with
  | Some (OneStr s) => [s]
  | Some (StrList l) => l
  | None => []
  end.

(** The bands: morning 05:00 to 12:00, afternoon 12:00 to 17:00, evening
    17:00 to 22:00, each without its upper end. *)
Definition in_band (pref : string) (hour : Z) : Prop :=
  (pref = "morning" ∧ 5 ≤ hour < 12)
  ∨ (pref = "afternoon" ∧ 12 ≤ hour < 17)
  ∨ (pref = "evening" ∧ 17 ≤ hour < 22).

(** The condition of the specification, in its words: the day preference
    is absent or holds the day of the slot, and the time preference is
    absent, or includes flexible, or has a band that holds the start hour. *)
Definition retains_as_stated (time_preference : option StrOrList)
    (day_preference : option (list string)) (slot : TimeSlot) : Prop :=
  (day_preference = None
   ∨ PyTime.day_name (start slot) ∈ default [] day_preference)
  ∧ (time_preference = None
     ∨ "flexible" ∈ prefs_of time_preference
     ∨ ∃ pref, pref ∈ prefs_of time_preference
               ∧ in_band pref (PyTime.hour (start slot))).

(** The condition of the code: an empty day list and an empty time
    preference count as absent, and the preference any matches like
    flexible. *)
Definition retains (time_preference : option StrOrList)
    (day_preference : option (list string)) (slot : TimeSlot) : Prop :=
  (day_preference = None ∨ day_preference = Some []
   ∨ PyTime.day_name (start slot) ∈ default [] day_preference)
  ∧ (time_preference = None
     ∨ time_preference = Some (OneStr "")
     ∨ time_preference = Some (StrList [])
     ∨ "flexible" ∈ prefs_of time_preference
     ∨ "any" ∈ prefs_of time_preference
     ∨ ∃ pref, pref ∈ prefs_of time_preference
               ∧ in_band pref (PyTime.hour (start slot))).
End FilterSpec.

Module OrderSpec.
Import Agent.

(** The entry of the analysis that the loop of
    [analyze_scheduled_vs_required] builds for an entry of the
    requirements. *)
Definition analysis_item (events : list Event) (item : string * Requirement)
  : option (string * Analysis) :=
  '(sessions, mins) ← tally item.1 events 0 0;
  Some (item.1, analysis_entry item.2 sessions mins).

(** The rank of a priority tier: critical 0, high 1, medium 2, low 3. *)
Definition priority_rank (priority : string) : Z :=
  if decide (priority = "critical") then 0
  else if decide (priority = "high") then 1
  else if decide (priority = "medium") then 2
  else if decide (priority = "low") then 3
  else 2.

(** The rank and the deficit of an entry of the analysis. *)
Definition rank (config : LifeOSConfig) (x : string * Analysis) : Z :=
  priority_rank (get_activity_priority config (a_id (an_activity x.2))).

Definition deficit (x : string * Analysis) : Z := sessions_deficit x.2.

(** [x] may be processed before [y]: a smaller rank, or the same rank and
    a deficit at least as large. *)
Definition before (config : LifeOSConfig) (x y : string * Analysis) : Prop :=
  rank config x < rank config y
  ∨ (rank config x = rank config y ∧ deficit y ≤ deficit x).
End OrderSpec.

Module BookingSpec.
Import Agent.

(** The slot at [r] is long enough for a session of [min_dur] minutes. *)
Definition long_enough (store : list TimeSlot) (min_dur : Z) (r : nat) : Prop :=
  min_dur ≤ duration_minutes (deref store r).

#[global] Instance long_enough_dec store min_dur r :
  Decision (long_enough store min_dur r).
Proof. unfold long_enough. apply _. Defined.

(** The session booked in a slot: it starts at the start of the slot and
    lasts [min(min_dur, slot.duration_minutes)] minutes. *)
Definition session_in (activity : Activity) (data : Analysis) (min_dur : Z)
    (slot : TimeSlot) : ScheduleProposal :=
  {| p_activity := activity;
     p_start := start slot;
     p_end := start slot + PyTime.minutes (min_dur `min` duration_minutes slot);
     p_reasoning := reasoning_text data activity;
     p_conflicts_with := None;
     p_priority := an_priority data |}.

(** The slots booked by a walk over [walked] that needs [needed] sessions:
    the first [needed] slots that are long enough. *)
Definition booked (store : list TimeSlot) (min_dur : Z) (walked : list nat)
    (needed : Z) : list nat :=
  take (Z.to_nat needed) (filter (long_enough store min_dur) walked).
End BookingSpec.

Module RoundTripSpec.
Import Agent.

(** The number of proposals made for the activity id [activity_id]. *)
Definition proposals_for (activity_id : string)
    (proposals : list ScheduleProposal) : Z :=
  Z.of_nat
    (length (filter (λ p, a_id (p_activity p) = activity_id) proposals)).
End RoundTripSpec.

Module AppsSpec.
Import Apps.

(** What holds of a slot returned for the week that starts on
    [week_start], given the final content [events] of the list: it lies in
    one calendar day [d] of the week, starts at 06:00 or later and ends
    before midnight; it ends after 22:00 only where an event of the list
    starts. *)
Definition slot_in_day (week_start : Z) (events : list ScheduledEvent)
    (slot : TimeSlot) : Prop :=
  ∃ d, week_start ≤ d < week_start + 7 ∧
       day slot = Some (day_of_date d) ∧
       combine d t06 ≤ start slot ∧
       start slot < end_ slot ∧
       end_ slot < combine (d + 1) 0 ∧
       (combine d t22 < end_ slot →
        ∃ e, e ∈ events ∧ e_start e = end_ slot).

(** The window of the claim: the slot lies between 06:00 and 22:00 of one
    day. *)
Definition in_waking_window (slot : TimeSlot) : Prop :=
  ∃ d, combine d t06 ≤ start slot ∧ end_ slot ≤ combine d t22.
End AppsSpec.

(** ** Vocabulary of the further properties *)

Module ProposalSpec.
Import Agent.

(** Two proposals do not share an instant: one ends before the other
    starts. *)
Definition apart (p q : ScheduleProposal) : Prop :=
  p_end p ≤ p_start q ∨ p_end q ≤ p_start p.
End ProposalSpec.

Module BookedSpec.
Import Agent ProposalSpec.

(** A timed event does not end before it starts. *)
Definition ends_after_start (ev : Event) : Prop :=
  ∀ a b, ev_start ev = Some a → ev_end ev = Some b → a ≤ b.

(** A proposal shares no instant with a timed event. *)
Definition clear_of_event (ev : Event) (p : ScheduleProposal) : Prop :=
  ∀ s e, ev_start ev = Some s → ev_end ev = Some e →
         p_end p ≤ s ∨ e ≤ p_start p.

(** Every activity of the configuration whose duration parses has a
    positive minimum duration. *)
Definition positive_durations (py_int : string → option Z)
    (config : LifeOSConfig) : Prop :=
  Forall (λ a, ∀ lo hi, get_duration_range py_int a = Some (lo, hi) → 0 < lo)
    (activities config).

(** The store [store] is the store [store0] after some bookings: each
    slot has kept its end, and its start has moved forward, not past its
    end. *)
Definition shrunk (store0 store : list TimeSlot) : Prop :=
  Forall2 (λ s0 s, start s0 ≤ start s ∧ start s ≤ end_ s ∧ end_ s = end_ s0)
    store0 store.

(** The proposal lies in the part of a slot of [store0] that the
    bookings have consumed. *)
Definition taken_from (store0 store : list TimeSlot) (p : ScheduleProposal)
  : Prop :=
  ∃ i s0 s, store0 !! i = Some s0 ∧ store !! i = Some s ∧
            start s0 ≤ p_start p ∧ p_start p < p_end p ∧ p_end p ≤ start s.

Definition well_booked (store0 store : list TimeSlot)
    (proposals : list ScheduleProposal) : Prop :=
  shrunk store0 store ∧
  Forall (taken_from store0 store) proposals ∧
  StronglySorted apart proposals.

(** The week that [propose_schedule] plans: the week given, from its
    start, or else the week of [now]. *)
Definition planned_week (now : datetime) (week_start : option datetime)
  : datetime * datetime :=
  match week_start with
  | None => get_week_bounds now None
  | Some week_start => (week_start, week_start + PyTime.days 7)
  end.
End BookedSpec.

Module RangeSpec.
(** The text of a range of two numbers, as written in the configuration:
    [30-45]. *)
Definition range_text (lo hi : Z) : string :=
  Py.str_of_int lo +:+ "-" +:+ Py.str_of_int hi.

(** [int(str(n)) == n] for the number [n], which is not negative. *)
Definition reads_back (py_int : string → option Z) (n : Z) : Prop :=
  0 ≤ n ∧ py_int (Py.str_of_int n) = Some n.
End RangeSpec.

Module AppsFilterSpec.
Import Apps.

(** The activity has no preferred days, or the day of the slot is one of
    them. *)
Definition day_matches (activity : Activity) (slot : TimeSlot) : Prop :=
  a_days_preference activity = None ∨ a_days_preference activity = Some []
  ∨ day slot ∈ (Some <$> default [] (a_days_preference activity)).

(** The slot starts in the range of hours of the time preference of the
    activity, or the activity is flexible. *)
Definition in_preferred_time (activity : Activity) (slot : TimeSlot) : Prop :=
  (TIME_RANGES (a_time_preference activity)).1 ≤ time_of (start slot)
    < (TIME_RANGES (a_time_preference activity)).2
  ∨ a_time_preference activity = FLEXIBLE.

#[global] Instance day_matches_dec activity slot :
  Decision (day_matches activity slot).
Proof. unfold day_matches. apply _. Defined.

#[global] Instance in_preferred_time_dec activity slot :
  Decision (in_preferred_time activity slot).
Proof. unfold in_preferred_time. apply _. Defined.

(** The instant lies in the slot, and in one of the slots. *)
Definition inside (slot : TimeSlot) (t : datetime) : Prop :=
  start slot ≤ t < end_ slot.

Definition covered (slots : list TimeSlot) (t : datetime) : Prop :=
  Exists (λ slot, inside slot t) slots.

(** The slot has the start and the end of [original]. *)
Definition same_span (slot original : TimeSlot) : Prop :=
  start slot = start original ∧ end_ slot = end_ original.

(** The event starts in the week of [week_start], Monday to Sunday. *)
Definition starts_in_week (week_start : Z) (e : ScheduledEvent) : Prop :=
  week_start ≤ date_of (e_start e) ≤ week_start + 6.
End AppsFilterSpec.

Module CountSpec.
Import Agent.

(** The events tagged with the activity id. *)
Definition tagged (activity_id : string) (events : list Event) : list Event :=
  filter (λ ev, ev_activity_id ev = Some activity_id) events.

(** The length of a timed event in whole minutes, and the sum over a
    list of events. *)
Definition event_minutes (ev : Event) : Z :=
  PyTime.whole_minutes (default 0 (ev_end ev) - default 0 (ev_start ev)).

Definition total_minutes (events : list Event) : Z :=
  foldr (λ ev acc, event_minutes ev + acc) 0 events.
End CountSpec.

Module AppsSlotSpec.
Import Apps.

(** Every slot ends before the slots after it in the list start. *)
Definition chronological (slots : list TimeSlot) : Prop :=
  StronglySorted (λ a b, end_ a ≤ start b) slots.

(** The slot shares no instant with the event. *)
Definition clear_of_event (e : ScheduledEvent) (slot : TimeSlot) : Prop :=
  e_end e ≤ start slot ∨ end_ slot ≤ e_start e.

(** The event does not end before it starts. *)
Definition ends_after_start (e : ScheduledEvent) : Prop :=
  e_start e ≤ e_end e.

(** The slot [p] lies in the slot [g]. *)
Definition within (g p : TimeSlot) : Prop :=
  start g ≤ start p ∧ end_ p ≤ end_ g.

(** Two slots share no instant. *)
Definition apart (p q : TimeSlot) : Prop :=
  end_ p ≤ start q ∨ end_ q ≤ start p.

(** The slot is free time of the day [d]: it is not empty, it lies
    between 06:00 of the day and the midnight that ends it, and it shares
    no instant with an event of the list that starts on the day. *)
Definition free_on (d : Z) (events : list ScheduledEvent) (g : TimeSlot)
  : Prop :=
  combine d t06 ≤ start g ∧ start g < end_ g ∧ end_ g < combine (d + 1) 0 ∧
  ∀ e, e ∈ events → date_of (e_start e) = d → clear_of_event e g.
End AppsSlotSpec.

Module AppsBookedSpec.
Import Apps AppsSlotSpec AppsFilterSpec.

(** The slot is a part of a slot of [available0], with its day. *)
Definition part_of (available0 : list TimeSlot) (g : TimeSlot) : Prop :=
  ∃ g0, g0 ∈ available0 ∧ within g0 g ∧ day g = day g0.

(** The state of the two loops of [propose_schedule] after some
    bookings: the slots left are in chronological order, not empty and
    parts of the slots there were; every proposal is not empty, a part of
    such a slot, and apart from the slots left and from the other
    proposals. *)
Definition booked_well (available0 available : list TimeSlot)
    (proposed : list ProposedEvent) : Prop :=
  chronological available ∧
  Forall (λ g, start g < end_ g ∧ part_of available0 g) available ∧
  Forall (λ p, start (pe_slot p) < end_ (pe_slot p) ∧
               part_of available0 (pe_slot p) ∧
               Forall (apart (pe_slot p)) available) proposed ∧
  StronglySorted (λ p q, apart (pe_slot p) (pe_slot q)) proposed.

(** Every activity of the configuration whose duration parses has a
    positive minimum duration. *)
Definition positive_durations (py_int : string → option Z)
    (config : LifeOSConfig) : Prop :=
  Forall (λ a, ∀ d, min_duration py_int a = Some d → 0 < d)
    (activities config).
End AppsBookedSpec.

Module AppsCountSpec.
Import Apps.

(** The number of proposed events for the activity id. *)
Definition proposed_for (activity_id : string) (proposed : list ProposedEvent)
  : Z :=
  Z.of_nat (length (filter (λ p, a_id (pe_activity p) = activity_id) proposed)).

(** [counts.get(activity_id, 0)]. *)
Definition count_of (activity_id : string) (counts : list (string * Z)) : Z :=
  default 0 (Py.dict_get activity_id counts).
End AppsCountSpec.

(** * Example data *)

Module AgentExamples.
Import Agent.

Definition c1_events : list Event :=
  [ {| ev_id := Some "1"; ev_summary := Some "Meeting";
       ev_start := Some (PyTime.minutes 10); ev_end := Some (PyTime.minutes 60);
       ev_generated := None; ev_activity_id := None |} ].

Definition c1_busy : list TimeSlot :=
  [ {| start := PyTime.minutes 10; end_ := PyTime.minutes 60;
       is_available := false; event_id := Some "1";
       event_summary := Some "Meeting"; is_lifeos_event := false;
       activity_id := None |} ].

(** The day of the test of the repository: a meeting from 10:00 to 11:00
    and lunch from 12:00 to 13:00, in the range from 09:00 to 17:00. *)
Definition test_events : list Event :=
  [ {| ev_id := Some "1"; ev_summary := Some "Meeting";
       ev_start := Some (PyTime.mk_datetime 0 10 0);
       ev_end := Some (PyTime.mk_datetime 0 11 0);
       ev_generated := None; ev_activity_id := None |};
    {| ev_id := Some "2"; ev_summary := Some "Lunch";
       ev_start := Some (PyTime.mk_datetime 0 12 0);
       ev_end := Some (PyTime.mk_datetime 0 13 0);
       ev_generated := None; ev_activity_id := None |} ].

Definition test_busy : list TimeSlot :=
  [ {| start := PyTime.mk_datetime 0 10 0; end_ := PyTime.mk_datetime 0 11 0;
       is_available := false; event_id := Some "1";
       event_summary := Some "Meeting"; is_lifeos_event := false;
       activity_id := None |};
    {| start := PyTime.mk_datetime 0 12 0; end_ := PyTime.mk_datetime 0 13 0;
       is_available := false; event_id := Some "2";
       event_summary := Some "Lunch"; is_lifeos_event := false;
       activity_id := None |} ].

(** A free range of twenty minutes with an empty busy interval in its
    middle. *)
Definition empty_busy_events : list Event :=
  [ {| ev_id := Some "0"; ev_summary := Some "Reminder";
       ev_start := Some (PyTime.minutes 10); ev_end := Some (PyTime.minutes 10);
       ev_generated := None; ev_activity_id := None |} ].
End AgentExamples.

Module FilterExamples.
Import Agent.

(** A free slot from 03:00 to 04:00 on day 0. *)
Definition night_slot : TimeSlot :=
  gap_slot (PyTime.mk_datetime 0 3 0) (PyTime.mk_datetime 0 4 0).
End FilterExamples.

(** Decimal numerals, for the parameter [py_int] in the examples. *)
Definition dec_int (s : string) : option Z :=
  Z.of_int <$> NilZero.int_of_string s.

Module AppsExamples.
Import Apps.

Definition no_priorities : Priorities :=
  {| critical := []; high := []; medium := []; low := [] |}.

(** No template, no commitment, no activity. *)
Definition bare_config : LifeOSConfig :=
  {| template := None; commitments := []; activities := [];
     priorities := no_priorities |}.

(** Work on Mondays from 09:00 to 17:00. *)
Definition office_config : LifeOSConfig :=
  {| template :=
       Some {| work := Some {| w_days := [MONDAY]; w_start := "09:00";
                               w_end := "17:00" |} |};
     commitments := []; activities := []; priorities := no_priorities |}.

(** Work on Mondays from 22:30 to 23:30. *)
Definition night_config : LifeOSConfig :=
  {| template :=
       Some {| work := Some {| w_days := [MONDAY]; w_start := "22:30";
                               w_end := "23:30" |} |};
     commitments := []; activities := []; priorities := no_priorities |}.

(** An event on Monday, day 0, from 23:00 to 23:30. *)
Definition late_event : ScheduledEvent :=
  {| e_id := "late"; e_title := "Late call";
     e_start := PyTime.mk_datetime 0 23 0; e_end := PyTime.mk_datetime 0 23 30;
     e_activity_id := None; e_location := None; e_description := None |}.

(** One session of yoga a week, on Sundays only. *)
Definition yoga : Activity :=
  {| a_id := "yoga"; a_name := "Yoga"; a_category := HEALTH;
     a_frequency := PyInt 1; a_duration := PyInt 30;
     a_time_preference := FLEXIBLE; a_days_preference := Some [SUNDAY];
     a_location := None |}.

Definition yoga_config : LifeOSConfig :=
  {| template := None; commitments := []; activities := [yoga];
     priorities := no_priorities |}.

(** An event that fills Sunday, day 6, from 06:00 to 22:00. *)
Definition sunday_block : ScheduledEvent :=
  {| e_id := "trip"; e_title := "Day trip";
     e_start := PyTime.mk_datetime 6 6 0; e_end := PyTime.mk_datetime 6 22 0;
     e_activity_id := None; e_location := None; e_description := None |}.
End AppsExamples.

Module ScheduleExamples.
Import Agent.

Definition exercise : Activity :=
  {| a_id := "exercise"; a_name := "Exercise"; a_category := "health";
     a_frequency := PyInt 3; a_duration := PyInt 45; a_location := None;
     a_days_preference := None;
     a_time_preference := Some (OneStr "morning"); a_note := None |}.

Definition reading : Activity :=
  {| a_id := "reading"; a_name := "Reading"; a_category := "learning";
     a_frequency := PyInt 2; a_duration := PyStr "30-45"; a_location := None;
     a_days_preference := None; a_time_preference := None; a_note := None |}.

Definition chess : Activity :=
  {| a_id := "chess"; a_name := "Chess"; a_category := "learning";
     a_frequency := PyInt 2; a_duration := PyInt 30; a_location := None;
     a_days_preference := None; a_time_preference := None; a_note := None |}.

(** Exercise is critical; reading and chess are in no tier. *)
Definition week_config : LifeOSConfig :=
  {| activities := [reading; exercise; chess];
     priorities := {| critical := ["exercise"]; high := []; medium := [];
                      low := [] |};
     event_format := {| prefix := ""; include_category := false |} |}.

(** The analysis of the empty week that starts on day 0. *)
Definition week_analysis : list (string * Analysis) :=
  Eval vm_compute in
    default []
      (analyze_scheduled_vs_required dec_int week_config [] 0
         (0 + PyTime.days 7)).

(** The proposals for that week. *)
Definition week_proposals : list ScheduleProposal :=
  Eval vm_compute in
    default [] (propose_schedule dec_int week_config 0 [] (Some 0)).

(** The entry of the analysis for exercise, three sessions short. *)
Definition exercise_item : string * Analysis :=
  ("exercise",
   analysis_entry
     {| r_activity := exercise; min_sessions := 3; max_sessions := 3;
        min_duration := 45; max_duration := 45;
        total_min_minutes := 135; total_max_minutes := 135;
        r_priority := "critical" |} 0 0).

(** Two slots in the morning of day 0: 44 minutes from 10:00 and 45
    minutes from 09:00. *)
Definition morning_slots : list TimeSlot :=
  [gap_slot (PyTime.mk_datetime 0 10 0) (PyTime.mk_datetime 0 10 44);
   gap_slot (PyTime.mk_datetime 0 9 0) (PyTime.mk_datetime 0 9 45)].

(** Two slots in the afternoon of day 0: an hour from 14:00 and half an
    hour from 15:30. *)
Definition afternoon_slots : list TimeSlot :=
  [gap_slot (PyTime.mk_datetime 0 14 0) (PyTime.mk_datetime 0 15 0);
   gap_slot (PyTime.mk_datetime 0 15 30) (PyTime.mk_datetime 0 16 0)].
End ScheduleExamples.

(** ** Further example data *)

Module MoreExamples.
Import Agent.

Definition timed (s e : datetime) : Event :=
  {| ev_id := None; ev_summary := None; ev_start := Some s; ev_end := Some e;
     ev_generated := None; ev_activity_id := None |}.

Definition busy_from (s e : datetime) : TimeSlot :=
  {| start := s; end_ := e; is_available := false; event_id := None;
     event_summary := None; is_lifeos_event := false; activity_id := None |}.

(** An all-day event: no [dateTime] under [start]. *)
Definition all_day : Event :=
  {| ev_id := None; ev_summary := Some "Holiday"; ev_start := None;
     ev_end := None; ev_generated := None; ev_activity_id := None |}.

(** Two meetings that overlap, 09:00 to 11:00 and 10:00 to 12:00 on day 0,
    the later one listed first. *)
Definition overlapping_events : list Event :=
  [timed (PyTime.mk_datetime 0 10 0) (PyTime.mk_datetime 0 12 0);
   timed (PyTime.mk_datetime 0 9 0) (PyTime.mk_datetime 0 11 0)].

Definition overlapping_busy : list TimeSlot :=
  [busy_from (PyTime.mk_datetime 0 10 0) (PyTime.mk_datetime 0 12 0);
   busy_from (PyTime.mk_datetime 0 9 0) (PyTime.mk_datetime 0 11 0)].

(** A week with a meeting on day 0 from 09:00 to 10:00, a holiday, and a
    session of exercise already booked on day 1 from 07:00 to 07:45. *)
Definition busy_week : list Event :=
  [timed (PyTime.mk_datetime 0 9 0) (PyTime.mk_datetime 0 10 0);
   all_day;
   {| ev_id := Some "e1"; ev_summary := Some "Exercise";
      ev_start := Some (PyTime.mk_datetime 1 7 0);
      ev_end := Some (PyTime.mk_datetime 1 7 45);
      ev_generated := Some "true"; ev_activity_id := Some "exercise" |}].

Definition busy_week_analysis : list (string * Analysis) :=
  Eval vm_compute in
    default []
      (analyze_scheduled_vs_required dec_int ScheduleExamples.week_config
         busy_week 0 (0 + PyTime.days 7)).

Definition busy_week_proposals : list ScheduleProposal :=
  Eval vm_compute in
    default []
      (propose_schedule dec_int ScheduleExamples.week_config 0 busy_week
         (Some 0)).

(** A week taken up to ten minutes before its end, and an event at the
    end of the day after. *)
Definition overrun_week : list Event :=
  [timed 0 (PyTime.mk_datetime 6 23 50);
   timed (PyTime.mk_datetime 7 23 0) (PyTime.mk_datetime 8 0 0)].

(** Studio time, three or four times a week for an hour and a half to
    three hours. *)
Definition studio : Activity :=
  {| a_id := "studio"; a_name := "Studio"; a_category := "creative";
     a_frequency := PyStr "3-4"; a_duration := PyStr "90-180";
     a_location := None; a_days_preference := None;
     a_time_preference := None; a_note := None |}.

(** A second activity under the id of chess. *)
Definition blitz : Activity :=
  {| a_id := "chess"; a_name := "Blitz"; a_category := "learning";
     a_frequency := PyInt 5; a_duration := PyInt 15; a_location := None;
     a_days_preference := None; a_time_preference := None; a_note := None |}.

Definition twin_config : LifeOSConfig :=
  {| activities := [ScheduleExamples.chess; blitz];
     priorities := {| critical := []; high := []; medium := []; low := [] |};
     event_format := {| prefix := ""; include_category := false |} |}.

Definition exercise_slots : list TimeSlot :=
  Eval vm_compute in
    default []
      (AgentMore.find_slot_for_activity dec_int 0 ScheduleExamples.exercise
         busy_week None AgentMore.default_search_days).

(** Work from 22:00 to 06:00 on Mondays. *)
Definition night_shift : AgentMore.WorkTemplate :=
  {| AgentMore.w_days := ["monday"]; AgentMore.w_start := "22:00";
     AgentMore.w_end := "06:00" |}.
End MoreExamples.

Module MoreAppsExamples.
Import Apps.

(** Studio time, three or four times a week for an hour and a half to
    three hours, in the afternoon. *)
Definition studio : Activity :=
  {| a_id := "studio"; a_name := "Studio"; a_category := CREATIVE;
     a_frequency := PyStr "3-4"; a_duration := PyStr "90-180";
     a_time_preference := AFTERNOON; a_days_preference := None;
     a_location := None |}.

(** Dates written as day numbers, for the parameter [str_of_date]. *)
Definition date_text (d : Z) : string := Py.str_of_int d.

(** Work on Mondays from 09:00 to 17:00, choir on Tuesdays from 19:00 to
    21:00, and two activities: studio time and yoga on Sundays. *)
Definition studio_config : LifeOSConfig :=
  {| template :=
       Some {| work := Some {| w_days := [MONDAY]; w_start := "09:00";
                               w_end := "17:00" |} |};
     commitments := [{| c_name := "Choir"; c_day := TUESDAY;
                        c_start := "19:00"; c_end := "21:00" |}];
     activities := [studio; AppsExamples.yoga];
     priorities := AppsExamples.no_priorities |}.

Definition studio_week_events : list ScheduledEvent :=
  [AppsExamples.late_event].

Definition studio_week_slots : list TimeSlot :=
  Eval vm_compute in
    default []
      (fst <$> get_available_slots dec_int date_text studio_config 0
                 studio_week_events default_slot_duration).

Definition studio_week_all_events : list ScheduledEvent :=
  Eval vm_compute in
    default []
      (snd <$> get_available_slots dec_int date_text studio_config 0
                 studio_week_events default_slot_duration).

Definition studio_week_proposal : ScheduleProposal :=
  Eval vm_compute in
    default {| sp_week_start := 0; proposed_events := []; conflicts := [];
               coverage := [] |}
      (fst <$> propose_schedule dec_int id date_text studio_config 0
                 studio_week_events).

Definition studio_week_analysis : list (string * Analysis) :=
  Eval vm_compute in
    default []
      (analyze_scheduled_vs_required dec_int id studio_config
         studio_week_events 0).

(** A walk once a week for half an hour, at any time of any day. *)
Definition walk : Activity :=
  {| a_id := "walk"; a_name := "Walk"; a_category := HEALTH;
     a_frequency := PyInt 1; a_duration := PyInt 30;
     a_time_preference := FLEXIBLE; a_days_preference := None;
     a_location := None |}.

(** The walk listed before the studio time, both in no tier. *)
Definition walk_config : LifeOSConfig :=
  {| template := None; commitments := []; activities := [walk; studio];
     priorities := AppsExamples.no_priorities |}.

(** Work on Mondays from 22:00 to 06:00. *)
Definition night_work_config : LifeOSConfig :=
  {| template :=
       Some {| work := Some {| w_days := [MONDAY]; w_start := "22:00";
                               w_end := "06:00" |} |};
     commitments := []; activities := [];
     priorities := AppsExamples.no_priorities |}.

(** An event from 23:00 on Monday, day 0, to 08:00 on Tuesday. *)
Definition overnight_event : ScheduledEvent :=
  {| e_id := "night"; e_title := "Night train";
     e_start := PyTime.mk_datetime 0 23 0; e_end := PyTime.mk_datetime 1 8 0;
     e_activity_id := None; e_location := None; e_description := None |}.
End MoreAppsExamples.

(** * Properties *)

(** ** The stable sort *)

Lemma StronglySorted_weaken_in {A : Type} (R R' : A → A → Prop) (l : list A) :
  (∀ x y, x ∈ l → y ∈ l → R x y → R' x y) →
  StronglySorted R l → StronglySorted R' l.
Proof.
  intros HR Hl. induction Hl as [|x l Hl IH Hx]; constructor.
  - apply IH. intros y z Hy Hz. apply HR; by right.
  - rewrite Forall_forall in *. intros y Hy. apply HR; [left|by right|auto].
Qed.

Lemma StronglySorted_weaken {A : Type} (R R' : A → A → Prop) (l : list A) :
  (∀ x y, R x y → R' x y) → StronglySorted R l → StronglySorted R' l.
Proof. intros HR. apply StronglySorted_weaken_in. auto. Qed.

Section sorted_facts.
Context {A K : Type} (key : A → K) (lt : K → K → bool).
Implicit Types (x y : A) (l : list A).

Lemma insert_perm x l : Py.insert key lt x l ≡ₚ x :: l.
Proof.
  induction l as [|y l IH]; simpl; [done|].
  destruct (lt (key y) (key x)); [|done].
  rewrite IH. apply Permutation_swap.
Qed.

Lemma sorted_perm l : Py.sorted key lt l ≡ₚ l.
Proof.
  induction l as [|x l IH]; simpl; [done|].
  rewrite insert_perm. by f_equiv.
Qed.

Section order.
Hypothesis lt_asym : ∀ a b, lt a b = true → lt b a = false.
Hypothesis le_trans :
  ∀ a b c, lt b a = false → lt c b = false → lt c a = false.

Lemma insert_sorted x l :
  StronglySorted (key_le key lt) l → StronglySorted (key_le key lt) (Py.insert key lt x l).
Proof.
  induction 1 as [|y l Hl IH Hy]; simpl.
  - repeat constructor.
  - destruct (lt (key y) (key x)) eqn:Hlt.
    + constructor; [done|].
      rewrite insert_perm. constructor; [|done].
      by apply lt_asym.
    + constructor; [by constructor|].
      constructor; [done|].
      eapply Forall_impl; [exact Hy|].
      intros z Hz. unfold key_le in *. by eapply le_trans.
Qed.

Lemma sorted_sorted l : StronglySorted (key_le key lt) (Py.sorted key lt l).
Proof.
  induction l; simpl; [constructor|by apply insert_sorted].
Qed.
End order.

Section stable.
Context `{!EqDecision K}.
Hypothesis lt_irrefl : ∀ a, lt a a = false.

Lemma insert_stable k x l :
  filter (λ y, key y = k) (Py.insert key lt x l)
  = filter (λ y, key y = k) (x :: l).
Proof.
  induction l as [|y l IH]; simpl; [done|].
  destruct (lt (key y) (key x)) eqn:Hlt; [|done].
  rewrite !filter_cons in *.
  destruct (decide (key y = k)) as [Hy|Hy], (decide (key x = k)) as [Hx|Hx];
    try (rewrite IH; done).
  - rewrite Hy, Hx, lt_irrefl in Hlt. done.
Qed.

Lemma sorted_stable k l :
  filter (λ y, key y = k) (Py.sorted key lt l) = filter (λ y, key y = k) l.
Proof.
  induction l as [|x l IH]; simpl; [done|].
  rewrite insert_stable, !filter_cons, IH. done.
Qed.
End stable.

(** The sort is determined by being sorted and stable: whatever algorithm
    Python runs, a stable sort on these keys returns the list that
    [Py.sorted] returns. *)
Section unique.
Context `{!EqDecision K}.
Hypothesis lt_asym : ∀ a b, lt a b = true → lt b a = false.
Hypothesis le_trans :
  ∀ a b c, lt b a = false → lt c b = false → lt c a = false.
Hypothesis lt_irrefl : ∀ a, lt a a = false.
Hypothesis le_antisym : ∀ a b, lt a b = false → lt b a = false → a = b.

Lemma sorted_stable_unique l1 l2 :
  StronglySorted (key_le key lt) l1 →
  StronglySorted (key_le key lt) l2 →
  (∀ k, filter (λ y, key y = k) l1 = filter (λ y, key y = k) l2) →
  l1 = l2.
Proof.
  intros H1. revert l2.
  induction H1 as [|x l1 H1 IH Hx]; intros l2 H2 Hf.
  - destruct l2 as [|y l2]; [done|].
    specialize (Hf (key y)). by rewrite filter_cons_True in Hf.
  - destruct H2 as [|y l2 H2 Hy].
    { specialize (Hf (key x)). by rewrite filter_cons_True in Hf. }
    assert (Hle : ∀ a b l, Forall (key_le key lt a) l → b ∈ a :: l →
                           lt (key b) (key a) = false).
    { intros a b l Ha [->|Hb]%elem_of_cons; [apply lt_irrefl|].
      rewrite Forall_forall in Ha. by apply Ha. }
    assert (Hkey : key x = key y).
    { symmetry. apply le_antisym.
      - apply (Hle x y l1 Hx).
        assert (Hin : y ∈ filter (λ z, key z = key y) (x :: l1)).
        { rewrite Hf. apply list_elem_of_filter. split; [done|left]. }
        by apply list_elem_of_filter in Hin as [_ Hin].
      - apply (Hle y x l2 Hy).
        assert (Hin : x ∈ filter (λ z, key z = key x) (y :: l2)).
        { rewrite <- Hf. apply list_elem_of_filter. split; [done|left]. }
        by apply list_elem_of_filter in Hin as [_ Hin]. }
    assert (Hxy : x = y).
    { specialize (Hf (key x)).
      rewrite filter_cons_True in Hf by done.
      rewrite (filter_cons_True _ y) in Hf by done. congruence. }
    subst y. f_equal. apply IH; [done|].
    intros k. specialize (Hf k). rewrite !filter_cons in Hf.
    case_decide; congruence.
Qed.

Lemma stable_sort_unique l l' :
  StronglySorted (key_le key lt) l' →
  (∀ k, filter (λ y, key y = k) l' = filter (λ y, key y = k) l) →
  l' = Py.sorted key lt l.
Proof.
  intros Hs Hf. apply sorted_stable_unique; [done|by apply sorted_sorted|].
  intros k. by rewrite Hf, sorted_stable.
Qed.
End unique.
End sorted_facts.

(** ** The availability calculator of [life-os-agent] *)

Section find_gaps_facts.
Import Agent AgentSpec.
Implicit Types (busy slots : list TimeSlot) (c e t m : Z).

Lemma Zltb_asym a b : Z.ltb a b = true → Z.ltb b a = false.
Proof. rewrite Z.ltb_lt, Z.ltb_ge. lia. Qed.

Lemma Zltb_le_trans a b c :
  Z.ltb b a = false → Z.ltb c b = false → Z.ltb c a = false.
Proof. rewrite !Z.ltb_ge. lia. Qed.

Lemma sort_by_start_sorted busy :
  StronglySorted (λ a b, start a ≤ start b) (Py.sorted start Z.ltb busy).
Proof.
  eapply StronglySorted_weaken;
    [|exact (sorted_sorted start Z.ltb Zltb_asym Zltb_le_trans busy)].
  intros a b. unfold key_le. rewrite Z.ltb_ge. done.
Qed.

Lemma whole_minutes_nonneg d : 0 ≤ d → 0 ≤ PyTime.whole_minutes d.
Proof. intros. apply Z.quot_pos; [done|]. by compute. Qed.

Lemma gap_duration_nonneg c s : c < s → 0 ≤ duration_minutes (gap_slot c s).
Proof. intros. apply whole_minutes_nonneg. simpl. lia. Qed.

Lemma chronological_disjoint slots : chronological slots → pairwise_disjoint slots.
Proof.
  unfold chronological, pairwise_disjoint.
  induction 1 as [|x l Hl IH Hx]; intros i j a b Hij Hi Hj.
  - by rewrite lookup_nil in Hi.
  - rewrite Forall_forall in Hx. unfold overlaps.
    destruct i as [|i], j as [|j]; simpl in *; simplify_eq.
    + apply list_elem_of_lookup_2 in Hj. apply Hx in Hj.
      rewrite andb_false_iff, !bool_decide_eq_false. lia.
    + apply list_elem_of_lookup_2 in Hi. apply Hx in Hi.
      rewrite andb_false_iff, !bool_decide_eq_false. lia.
    + eapply (IH i j); eauto.
Qed.

Lemma find_gaps_start m busy c e :
  Forall (λ g, c ≤ start g) (find_gaps m busy c e).
Proof.
  revert c. induction busy as [|b busy IH]; intros c; simpl.
  - repeat case_decide; repeat constructor; simpl; lia.
  - apply Forall_app. split.
    + repeat case_decide; repeat constructor; simpl; lia.
    + eapply Forall_impl; [apply IH|]. simpl. lia.
Qed.

Lemma find_gaps_bounds m busy c e :
  Forall (λ b, start b ≤ e) busy →
  Forall (λ g, start g < end_ g ∧ end_ g ≤ e ∧ m ≤ duration_minutes g)
    (find_gaps m busy c e).
Proof.
  intros Hb. revert c. induction Hb as [|b busy Hbe Hb IH]; intros c; simpl.
  - repeat case_decide; repeat constructor; simpl; try lia; try done.
  - apply Forall_app. split; [|apply IH].
    repeat case_decide; repeat constructor; simpl; try lia; try done.
Qed.

Lemma find_gaps_min m busy c e :
  Forall (λ g, m ≤ duration_minutes g) (find_gaps m busy c e).
Proof.
  revert c. induction busy as [|b busy IH]; intros c; simpl.
  - repeat case_decide; repeat constructor; done.
  - apply Forall_app. split; [|apply IH].
    repeat case_decide; repeat constructor; done.
Qed.

Lemma filter_all {A} (P : A → Prop) `{!∀ x, Decision (P x)} (l : list A) :
  Forall P l → filter P l = l.
Proof.
  induction 1 as [|x l Hx Hl IH]; [done|].
  by rewrite filter_cons_True, IH.
Qed.

Lemma find_gaps_chronological m busy c e :
  Forall (λ b, start b ≤ end_ b) busy →
  chronological (find_gaps m busy c e).
Proof.
  unfold chronological.
  intros Hb. revert c. induction Hb as [|b busy Hbe Hb IH]; intros c; simpl.
  - repeat case_decide; repeat constructor.
  - pose proof (find_gaps_start m busy (c `max` end_ b) e) as Hs.
    repeat case_decide; simpl; try apply IH.
    constructor; [apply IH|].
    eapply Forall_impl; [exact Hs|]. simpl. lia.
Qed.

Lemma find_gaps_avoid m busy c e :
  StronglySorted (λ a b, start a ≤ start b) busy →
  Forall (λ g, Forall (λ b, overlaps g b = false) busy) (find_gaps m busy c e).
Proof.
  intros Hs. revert c. induction Hs as [|b busy Hs IH Hb]; intros c; simpl.
  - repeat case_decide; repeat constructor.
  - apply Forall_app. split.
    + repeat case_decide; repeat constructor; simpl.
      * unfold overlaps. simpl.
        rewrite andb_false_iff, !bool_decide_eq_false. lia.
      * eapply Forall_impl; [exact Hb|]. intros b' Hb'. simpl in Hb'.
        unfold overlaps. simpl.
        rewrite andb_false_iff, !bool_decide_eq_false. lia.
    + pose proof (find_gaps_start m busy (c `max` end_ b) e) as Hst.
      specialize (IH (c `max` end_ b)).
      rewrite Forall_forall in *. intros g Hg. constructor; [|by apply IH].
      apply Hst in Hg. unfold overlaps.
      rewrite andb_false_iff, !bool_decide_eq_false. lia.
Qed.

(** With no minimum the gaps are exactly the free time after [c]. *)
Lemma find_gaps_covered m busy c e t :
  m ≤ 0 →
  StronglySorted (λ a b, start a ≤ start b) busy →
  Forall (λ b, start b ≤ e) busy →
  covered (find_gaps m busy c e) t ↔ c ≤ t < e ∧ ¬ covered busy t.
Proof.
  intros Hm Hs. revert c.
  induction Hs as [|b busy Hs IH Hb]; intros c He; simpl.
  - unfold covered. rewrite Exists_nil.
    destruct (decide (c < e)) as [Hce|Hce].
    + pose proof (gap_duration_nonneg c e Hce).
      rewrite decide_True by lia.
      rewrite Exists_cons, Exists_nil. unfold inside. simpl. tauto.
    + rewrite Exists_nil. lia.
  - apply Forall_cons in He as [Hbe He].
    unfold covered in *. rewrite Exists_app, Exists_cons, (IH _ He).
    assert (Hlater : t < start b → ¬ Exists (λ slot, inside slot t) busy).
    { intros Ht. rewrite Exists_exists. intros (b' & Hin & Hb').
      rewrite Forall_forall in Hb. apply Hb in Hin. unfold inside in Hb'. lia. }
    destruct (decide (c < start b)) as [Hcs|Hcs].
    + pose proof (gap_duration_nonneg c (start b) Hcs).
      rewrite decide_True by lia.
      rewrite Exists_cons, Exists_nil. unfold inside at 1 3. simpl.
      destruct (decide (t < start b)) as [Ht|Ht];
        [specialize (Hlater Ht)|clear Hlater]; intuition lia.
    + rewrite Exists_nil. unfold inside at 2.
      destruct (decide (t < start b)) as [Ht|Ht];
        [specialize (Hlater Ht)|clear Hlater]; intuition lia.
Qed.

(** A positive minimum only drops gaps. *)
Lemma find_gaps_filter m busy c e :
  find_gaps m busy c e
  = filter (λ g, m ≤ duration_minutes g) (find_gaps 0 busy c e).
Proof.
  revert c. induction busy as [|b busy IH]; intros c; simpl.
  - destruct (decide (c < e)) as [Hce|]; [|done].
    pose proof (gap_duration_nonneg c e Hce).
    rewrite (decide_True (P := 0 ≤ _)) by done.
    rewrite filter_cons, filter_nil. done.
  - rewrite filter_app, <- IH. f_equal.
    destruct (decide (c < start b)) as [Hcs|]; [|done].
    pose proof (gap_duration_nonneg c (start b) Hcs).
    rewrite (decide_True (P := 0 ≤ _)) by done.
    rewrite filter_cons, filter_nil. done.
Qed.
End find_gaps_facts.

Section available_slots.
Import Agent AgentSpec AgentExamples.

(** The slots found for any minimum are the gaps found without a minimum
    that are long enough; the gaps are chronological, avoid every busy
    interval and hold exactly the free time of the range.  Overlapping
    busy intervals are allowed here. *)
Lemma available_slots_sweep events busy start_date end_date min_duration :
  busy_slots_of events = Some busy →
  Forall (λ b, start b ≤ end_ b ∧ start b ≤ end_date) busy →
  ∃ gaps,
    get_available_slots events start_date end_date 0 = Some gaps ∧
    get_available_slots events start_date end_date min_duration
      = Some (filter (λ g, min_duration ≤ duration_minutes g) gaps) ∧
    chronological gaps ∧
    Forall (λ g, start_date ≤ start g ∧ start g < end_ g ∧ end_ g ≤ end_date)
      gaps ∧
    (∀ g b, g ∈ gaps → b ∈ busy → overlaps g b = false) ∧
    (∀ t, covered gaps t ↔ free busy start_date end_date t).
Proof.
  intros Hbusy Hb. unfold get_available_slots. rewrite Hbusy. simpl.
  set (sorted := Py.sorted start Z.ltb busy).
  assert (Hperm : sorted ≡ₚ busy) by apply sorted_perm.
  assert (Hsorted : StronglySorted (λ a b, start a ≤ start b) sorted)
    by apply sort_by_start_sorted.
  rewrite <- Hperm in Hb.
  eexists. split; [done|]. split; [by rewrite find_gaps_filter|].
  split; [|split; [|split]].
  - apply find_gaps_chronological. eapply Forall_impl; [exact Hb|]. simpl. tauto.
  - pose proof (find_gaps_start 0 sorted start_date end_date) as Hs.
    assert (Hbd : Forall (λ g, start g < end_ g ∧ end_ g ≤ end_date
                               ∧ 0 ≤ duration_minutes g)
                    (find_gaps 0 sorted start_date end_date)).
    { apply find_gaps_bounds. eapply Forall_impl; [exact Hb|]. simpl. tauto. }
    rewrite Forall_forall in Hs, Hbd. apply Forall_forall. intros g Hg.
    specialize (Hs g Hg). destruct (Hbd g Hg) as (? & ? & _). done.
  - intros g b Hg Hin. rewrite <- Hperm in Hin.
    pose proof (find_gaps_avoid 0 sorted start_date end_date Hsorted) as Ha.
    rewrite Forall_forall in Ha. specialize (Ha g Hg).
    rewrite Forall_forall in Ha. by apply Ha.
  - intros t. unfold free, covered at 2. rewrite <- Hperm.
    apply find_gaps_covered; [done|done|].
    eapply Forall_impl; [exact Hb|]. simpl. tauto.
Qed.

Lemma chronological_filter (P : TimeSlot → Prop) `{!∀ g, Decision (P g)} slots :
  chronological slots → chronological (filter P slots).
Proof.
  unfold chronological. induction 1 as [|g l Hl IH Hg]; [constructor|].
  rewrite filter_cons. case_decide; [|done].
  constructor; [done|].
  rewrite Forall_forall in *. intros x Hx.
  apply list_elem_of_filter in Hx as [_ Hx]. auto.
Qed.

(** Where the gaps of the sweep start and end: at the start of the
    range or the end of a busy interval, and at the end of the range or
    the start of a busy interval. *)
Lemma find_gaps_ends m busy c e :
  Forall (λ g, g = gap_slot (start g) (end_ g) ∧
               (start g = c ∨ ∃ b, b ∈ busy ∧ end_ b = start g) ∧
               (end_ g = e ∨ ∃ b, b ∈ busy ∧ start b = end_ g))
    (find_gaps m busy c e).
Proof.
  revert c. induction busy as [|b busy IH]; intros c; simpl.
  - repeat case_decide; try apply Forall_nil_2.
    apply Forall_singleton. simpl. split_and!; [done|by left|by left].
  - apply Forall_app. split.
    + repeat case_decide; try apply Forall_nil_2.
      apply Forall_singleton. simpl. split_and!; [done|by left|].
      right. exists b. split; [left|done].
    + eapply Forall_impl; [apply IH|]. simpl.
      intros g (Hg & Hs & He). split_and!; [done| |].
      * destruct Hs as [Hs|(b' & Hb' & Hs)].
        -- destruct (Z.max_spec c (end_ b)) as [[_ Hmax]|[_ Hmax]];
             rewrite Hmax in Hs; [|by left].
           right. exists b. split; [left|done].
        -- right. exists b'. split; [by right|done].
      * destruct He as [He|(b' & Hb' & He)]; [by left|].
        right. exists b'. split; [by right|done].
Qed.

(** The gaps of the sweep are the gaps of the free time, when no busy
    interval is empty. *)
Lemma sweep_free_gaps events busy start_date end_date gaps :
  busy_slots_of events = Some busy →
  Forall (λ b, start b < end_ b ∧ start b ≤ end_date) busy →
  get_available_slots events start_date end_date 0 = Some gaps →
  ∀ g, g ∈ gaps ↔
       ∃ s e, g = gap_slot s e ∧ free_gap busy start_date end_date s e.
Proof.
  intros Hbusy Hb Hgaps.
  destruct (available_slots_sweep events busy start_date end_date 0 Hbusy)
    as (gaps' & Hgaps' & _ & Hchrono & Hrange & Havoid & Hfree).
  { eapply Forall_impl; [exact Hb|]. simpl. lia. }
  rewrite Hgaps in Hgaps'. injection Hgaps' as <-.
  unfold get_available_slots in Hgaps. rewrite Hbusy in Hgaps.
  simpl in Hgaps. injection Hgaps as Hgaps.
  assert (Hmax : ∀ g, g ∈ gaps →
                      g = gap_slot (start g) (end_ g) ∧
                      free_gap busy start_date end_date (start g) (end_ g)).
  { intros g Hg.
    pose proof (find_gaps_ends 0 (Py.sorted start Z.ltb busy) start_date
                  end_date) as Hends.
    rewrite Hgaps, Forall_forall in Hends.
    destruct (Hends g Hg) as (Hshape & Hs & He).
    rewrite Forall_forall in Hrange. destruct (Hrange g Hg) as (H1 & H2 & H3).
    rewrite Forall_forall in Hb.
    split; [done|]. unfold free_gap. split_and!.
    - done.
    - intros t Ht. apply Hfree. unfold covered. apply Exists_exists.
      exists g. split; [done|exact Ht].
    - destruct Hs as [Hs|(b & Hin & Hs)]; [unfold free; lia|].
      rewrite (sorted_perm start Z.ltb busy) in Hin.
      destruct (Hb b Hin) as [Hne _].
      intros [_ Hfr]. apply Hfr. unfold covered. apply Exists_exists.
      exists b. split; [done|]. unfold inside. lia.
    - destruct He as [He|(b & Hin & He)]; [unfold free; lia|].
      rewrite (sorted_perm start Z.ltb busy) in Hin.
      destruct (Hb b Hin) as [Hne _].
      intros [_ Hfr]. apply Hfr. unfold covered. apply Exists_exists.
      exists b. split; [done|]. unfold inside. lia. }
  intros g. split.
  - intros Hg. destruct (Hmax g Hg) as [Hshape Hfg]. by eexists _, _.
  - intros (s & e & -> & Hs & Hall & Hbefore & Hafter).
    assert (Hcov : covered gaps s) by (apply Hfree, Hall; lia).
    unfold covered in Hcov. apply Exists_exists in Hcov as (g & Hg & Hin).
    unfold inside in Hin.
    destruct (Hmax g Hg) as (Hshape & _ & Hgall & Hgbefore & Hgafter).
    assert (start g = s).
    { destruct (decide (start g = s)) as [|Hne]; [done|].
      exfalso. apply Hbefore, Hgall. lia. }
    assert (end_ g = e).
    { destruct (Z.lt_trichotomy (end_ g) e) as [Hlt|[Heq|Hgt]]; [|done|].
      - exfalso. apply Hgafter, Hall. lia.
      - exfalso. apply Hafter, Hgall. lia. }
    rewrite Hshape in Hg. by subst.
Qed.

(** C1, as amended.  For busy intervals that lie in the range and are
    not empty, the slots returned are exactly the gaps of the free time of
    the range, its maximal free intervals, that last at least
    [min_duration] whole minutes, in chronological order: no two of them
    share an instant, none shares an instant with a busy interval, every
    instant of a slot is free, and with no minimum the slots hold all the
    free time.  The busy intervals may overlap; being contained in the
    range, their times compare with its bounds. *)
Theorem available_slots_partition events busy start_date end_date min_duration :
  busy_slots_of events = Some busy →
  Forall (within start_date end_date) busy →
  Forall (λ b, start b < end_ b) busy →
  ∃ slots,
    get_available_slots events start_date end_date min_duration = Some slots ∧
    (∀ g, g ∈ slots ↔
          ∃ s e, g = gap_slot s e ∧ free_gap busy start_date end_date s e
                 ∧ min_duration ≤ PyTime.whole_minutes (e - s)) ∧
    chronological slots ∧
    pairwise_disjoint slots ∧
    (∀ g b, g ∈ slots → b ∈ busy → overlaps g b = false) ∧
    (∀ t, covered slots t → free busy start_date end_date t) ∧
    (min_duration ≤ 0 → ∀ t, covered slots t ↔ free busy start_date end_date t).
Proof.
  intros Hbusy Hwithin Hne.
  assert (Hb : Forall (λ b, start b < end_ b ∧ start b ≤ end_date) busy).
  { rewrite Forall_forall in *. intros b Hin.
    specialize (Hwithin b Hin). specialize (Hne b Hin).
    unfold within in Hwithin. lia. }
  destruct (available_slots_sweep events busy start_date end_date min_duration
              Hbusy)
    as (gaps & Hgaps & Hslots & Hchrono & Hrange & Havoid & Hfree).
  { eapply Forall_impl; [exact Hb|]. simpl. lia. }
  pose proof (sweep_free_gaps events busy start_date end_date gaps Hbusy Hb
                Hgaps) as Hmax.
  exists (filter (λ g, min_duration ≤ duration_minutes g) gaps).
  assert (Hsub : ∀ g, g ∈ filter (λ g, min_duration ≤ duration_minutes g) gaps
                      → g ∈ gaps).
  { intros g Hg. by apply list_elem_of_filter in Hg as [_ Hg]. }
  split_and!; try done.
  - intros g. rewrite list_elem_of_filter, Hmax. split.
    + intros (Hmin & s & e & -> & Hfg). by exists s, e.
    + intros (s & e & -> & Hfg & Hmin). split; [done|]. by exists s, e.
  - by apply chronological_filter.
  - by apply chronological_disjoint, chronological_filter.
  - intros g b Hg. apply Havoid. by apply Hsub.
  - intros t Ht. apply Hfree. unfold covered in *.
    rewrite Exists_exists in *. destruct Ht as (g & Hg & Ht). eauto.
  - intros Hm t. rewrite <- Hfree.
    unfold get_available_slots in Hgaps. rewrite Hbusy in Hgaps.
    simpl in Hgaps. injection Hgaps as <-.
    rewrite filter_all; [done|].
    eapply Forall_impl; [apply find_gaps_min|]. simpl. lia.
Qed.

Lemma available_slots_partition_witness :
  let start_date := PyTime.mk_datetime 0 9 0 in
  let end_date := PyTime.mk_datetime 0 17 0 in
  busy_slots_of test_events = Some test_busy ∧
  Forall (within start_date end_date) test_busy ∧
  Forall (λ b, start b < end_ b) test_busy ∧
  ∃ slots,
    get_available_slots test_events start_date end_date 15 = Some slots ∧
    (∀ g, g ∈ slots ↔
          ∃ s e, g = gap_slot s e ∧ free_gap test_busy start_date end_date s e
                 ∧ 15 ≤ PyTime.whole_minutes (e - s)) ∧
    chronological slots ∧
    pairwise_disjoint slots ∧
    (∀ g b, g ∈ slots → b ∈ test_busy → overlaps g b = false) ∧
    (∀ t, covered slots t → free test_busy start_date end_date t) ∧
    (15 ≤ 0 → ∀ t, covered slots t ↔ free test_busy start_date end_date t).
Proof.
  assert (H1 : busy_slots_of test_events = Some test_busy) by reflexivity.
  assert (H2 : Forall (within (PyTime.mk_datetime 0 9 0)
                         (PyTime.mk_datetime 0 17 0)) test_busy).
  { repeat constructor; cbv; discriminate. }
  assert (H3 : Forall (λ b, start b < end_ b) test_busy).
  { repeat constructor. }
  exact (conj H1 (conj H2 (conj H3
           (available_slots_partition test_events test_busy
              (PyTime.mk_datetime 0 9 0) (PyTime.mk_datetime 0 17 0) 15
              H1 H2 H3)))).
Defined.

(** The slots of the test day: before the meeting, between the meeting
    and lunch, and after lunch. *)
Example test_day_slots :
  (λ g, (start g, end_ g))
    <$> default [] (get_available_slots test_events (PyTime.mk_datetime 0 9 0)
                      (PyTime.mk_datetime 0 17 0) 15)
  = [(PyTime.mk_datetime 0 9 0, PyTime.mk_datetime 0 10 0);
     (PyTime.mk_datetime 0 11 0, PyTime.mk_datetime 0 12 0);
     (PyTime.mk_datetime 0 13 0, PyTime.mk_datetime 0 17 0)].
Proof. vm_compute. reflexivity. Qed.

(** An empty busy interval cuts the free time in two: the twenty free
    minutes around it are returned as two gaps of ten minutes, and with
    the minimum of fifteen minutes as none. *)
Example empty_busy_interval_cuts :
  (λ g, (start g, end_ g))
    <$> default [] (get_available_slots empty_busy_events 0 (PyTime.minutes 20) 0)
  = [(0, PyTime.minutes 10); (PyTime.minutes 10, PyTime.minutes 20)] ∧
  get_available_slots empty_busy_events 0 (PyTime.minutes 20) 15 = Some [].
Proof. split; vm_compute; reflexivity. Qed.

(** C1, as stated, fails: with the default minimum of 15 minutes the free
    gap of 10 minutes in front of the meeting is not returned, so the
    union of the slots is not the free time. *)
Lemma available_slots_drop_short_gaps :
  busy_slots_of c1_events = Some c1_busy ∧
  Forall (within 0 (PyTime.minutes 60)) c1_busy ∧
  pairwise_disjoint c1_busy ∧
  ∃ slots,
    get_available_slots c1_events 0 (PyTime.minutes 60) default_min_duration
      = Some slots ∧
    ¬ (∀ t, covered slots t ↔ free c1_busy 0 (PyTime.minutes 60) t).
Proof.
  split_and!; [reflexivity|repeat constructor; cbv; discriminate| |].
  { intros [|i] [|j] a b Hij Hi Hj; simpl in *; try done;
      by rewrite lookup_nil in *. }
  exists []. split; [reflexivity|].
  intros H. specialize (H 0). destruct H as [_ H].
  assert (Hc : covered [] 0); [apply H|by apply Exists_nil in Hc].
  split; [cbv; split; [discriminate|done]|].
  unfold covered, c1_busy, inside. rewrite Exists_cons, Exists_nil. simpl.
  cbv. intros [[H1 _]|[]]. by apply H1.
Qed.

(** The first loop builds the busy slots exactly when every event with a
    start time has an end time. *)
Lemma busy_slots_of_total events :
  is_Some (busy_slots_of events) ↔
  Forall (λ ev, is_Some (ev_start ev) → is_Some (ev_end ev)) events.
Proof.
  induction events as [|ev events IH]; simpl.
  - split; [constructor|by eexists].
  - rewrite Forall_cons, <- IH. clear IH.
    destruct (ev_start ev), (ev_end ev), (busy_slots_of events); simpl;
      rewrite !is_Some_alt; tauto.
Qed.

(** *** Two runs on the same list *)

(** The first loop reads the list and leaves it as it is; from index [i]
    it builds the busy slots of the events from that index on. *)
Lemma busy_loop_reads events :
  ∀ fuel i busy_slots,
    (i ≤ length events < fuel + i)%nat →
    busy_loop fuel i busy_slots events
    = (app busy_slots <$> busy_slots_of (drop i events), events).
Proof.
  induction fuel as [|fuel IH]; intros i busy_slots Hfuel; [lia|].
  simpl. unfold run_bind, item_at.
  destruct (events !! i) as [event|] eqn:Hi.
  - pose proof (lookup_lt_Some _ _ _ Hi).
    rewrite (drop_S _ _ _ Hi). simpl.
    unfold busy_slots_of_event.
    destruct (ev_start event) as [event_start|]; simpl.
    + destruct (ev_end event) as [event_end|]; simpl; [|done].
      rewrite IH by lia.
      destruct (busy_slots_of (drop (S i) events)) as [busy|]; simpl;
        [|done].
      by rewrite <- (assoc_L (++)).
    + rewrite IH by lia. by rewrite app_nil_r.
  - apply lookup_ge_None in Hi. rewrite drop_ge by lia. simpl.
    by rewrite app_nil_r.
Qed.

Lemma run_get_available_slots_reads fuel events start_date end_date
    min_duration :
  (length events < fuel)%nat →
  run_get_available_slots fuel start_date end_date min_duration events
  = (get_available_slots events start_date end_date min_duration, events).
Proof.
  intros Hfuel. unfold run_get_available_slots, run_bind.
  rewrite busy_loop_reads by lia. rewrite drop_0.
  unfold get_available_slots.
  destruct (busy_slots_of events) as [busy|]; done.
Qed.

(** C7, as amended.  A run of [get_available_slots] of [life-os-agent],
    given turns enough for its loop, leaves the list of events as it found
    it, and a second run right after the first, on the same list with the
    same range and minimum, returns what the first returned, the same
    slots or the same failure: the method is a function of the content of
    the list, the range and the minimum. *)
Theorem get_available_slots_deterministic fuel events start_date end_date
    min_duration :
  (length events < fuel)%nat →
  let '(first, events1) :=
    run_get_available_slots fuel start_date end_date min_duration events in
  let '(second, events2) :=
    run_get_available_slots fuel start_date end_date min_duration events1 in
  first = second ∧ events1 = events ∧ events2 = events ∧
  first = get_available_slots events start_date end_date min_duration.
Proof.
  intros Hfuel. rewrite run_get_available_slots_reads by done.
  rewrite run_get_available_slots_reads by done. done.
Qed.

Lemma get_available_slots_deterministic_witness :
  (length test_events < 3)%nat ∧
  let '(first, events1) :=
    run_get_available_slots 3 (PyTime.mk_datetime 0 9 0)
      (PyTime.mk_datetime 0 17 0) 15 test_events in
  let '(second, events2) :=
    run_get_available_slots 3 (PyTime.mk_datetime 0 9 0)
      (PyTime.mk_datetime 0 17 0) 15 events1 in
  first = second ∧ events1 = test_events ∧ events2 = test_events ∧
  first = get_available_slots test_events (PyTime.mk_datetime 0 9 0)
            (PyTime.mk_datetime 0 17 0) 15.
Proof.
  assert (H : (length test_events < 3)%nat) by (simpl; lia).
  exact (conj H
           (get_available_slots_deterministic 3 test_events
              (PyTime.mk_datetime 0 9 0) (PyTime.mk_datetime 0 17 0) 15 H)).
Defined.

(** ** Week bounds *)

(** C9, as amended.  For a Wednesday, [get_week_bounds] of
    [life-os-agent] returns the midnight that opens the Monday two days
    before, and the instant seven days after it. *)
Theorem get_week_bounds_wednesday now start_date :
  let t := default now start_date in
  PyTime.weekday t = 2 →
  let '(week_start, week_end) := get_week_bounds now start_date in
  PyTime.weekday week_start = 0 ∧
  week_start `mod` PyTime.us_per_day = 0 ∧
  week_start = PyTime.at_midnight t - PyTime.days 2 ∧
  week_end = week_start + PyTime.days 7 ∧
  week_start ≤ t < week_end.
Proof.
  intros t. unfold get_week_bounds. fold t. generalize t. clear. intros t.
  unfold PyTime.weekday, PyTime.at_midnight, PyTime.days, PyTime.us_per_day.
  intros Hw. rewrite Hw.
  split_and!; try lia; Z.div_mod_to_equations; lia.
Qed.

Lemma get_week_bounds_wednesday_witness :
  let t := default 0 (Some (PyTime.mk_datetime 2 14 30)) in
  PyTime.weekday t = 2 ∧
  let '(week_start, week_end) :=
    get_week_bounds 0 (Some (PyTime.mk_datetime 2 14 30)) in
  PyTime.weekday week_start = 0 ∧
  week_start `mod` PyTime.us_per_day = 0 ∧
  week_start = PyTime.at_midnight t - PyTime.days 2 ∧
  week_end = week_start + PyTime.days 7 ∧
  week_start ≤ t < week_end.
Proof.
  assert (H : PyTime.weekday (default 0 (Some (PyTime.mk_datetime 2 14 30))) = 2)
    by reflexivity.
  exact (conj H (get_week_bounds_wednesday 0 (Some (PyTime.mk_datetime 2 14 30)) H)).
Defined.
End available_slots.

(** ** The preference filter of [life-os-agent] *)

Section filter_facts.
Import Agent FilterSpec FilterExamples.
Context {R : Type} (deref : R → TimeSlot).

Lemma match_prefs_true prefs hour acc :
  match_prefs prefs hour acc = true ↔
  acc = true ∨ ∃ pref, pref ∈ prefs
                       ∧ (in_band pref hour ∨ pref = "flexible" ∨ pref = "any").
Proof.
  revert acc. induction prefs as [|pref prefs IH]; intros acc; simpl.
  - split; [auto|]. intros [|(? & []%elem_of_nil & _)]. done.
  - rewrite IH. clear IH.
    match goal with |- ?f = true ∨ _ ↔ _ =>
      assert (Hf : f = true ↔
                   acc = true ∨ in_band pref hour ∨ pref = "flexible"
                   ∨ pref = "any")
    end.
    { unfold in_band. repeat case_bool_decide; simpl;
        rewrite ?elem_of_cons, ?elem_of_nil in *;
        intuition (subst; try lia; try congruence). }
    rewrite Hf. clear Hf. split.
    + intros [[Hacc|Hp]|(p & Hin & Hp)]; [by left|right..].
      * exists pref. split; [left|done].
      * exists p. split; [by right|done].
    + intros [Hacc|(p & Hin & Hp)]; [by left; left|].
      apply elem_of_cons in Hin as [->|Hin]; [by left; right|].
      right. by exists p.
Qed.

Lemma keeps_slot_retains time_preference day_preference r :
  keeps_slot deref time_preference day_preference r = true ↔
  retains time_preference day_preference (deref r).
Proof.
  unfold keeps_slot, retains.
  assert (Hday :
    day_preference_truthy day_preference
      && negb (bool_decide (PyTime.day_name (start (deref r))
                              ∈ default [] day_preference)) = false
    ↔ day_preference = None ∨ day_preference = Some []
      ∨ PyTime.day_name (start (deref r)) ∈ default [] day_preference).
  { destruct day_preference as [[|d dl]|]; simpl.
    - split; auto.
    - case_bool_decide; simpl; intuition congruence.
    - split; auto. }
  destruct (_ && negb _).
  { split; [done|]. intros [Hd _]. apply Hday in Hd. done. }
  assert (Htime :
    (if time_preference_truthy time_preference
     then match_prefs (prefs_of time_preference)
            (PyTime.hour (start (deref r))) false
     else true) = true
    ↔ time_preference = None
      ∨ time_preference = Some (OneStr "")
      ∨ time_preference = Some (StrList [])
      ∨ "flexible" ∈ prefs_of time_preference
      ∨ "any" ∈ prefs_of time_preference
      ∨ ∃ pref, pref ∈ prefs_of time_preference
                ∧ in_band pref (PyTime.hour (start (deref r)))).
  { destruct (time_preference_truthy time_preference) eqn:Ht.
    - rewrite match_prefs_true. split.
      + intros [|(pref & Hin & [Hb|[->| ->]])]; [done|..]; eauto 10.
      + intros H. right.
        destruct H as [->|[->|[->|[H|[H|(pref & Hin & Hb)]]]]]; try done; eauto.
    - split; [intros _|done].
      destruct time_preference as [[[|]|[|]]|]; simpl in Ht; try done; auto. }
  unfold prefs_of in Htime. rewrite Htime.
  split; [intros H; split; [by apply Hday|done]|by intros [_ H]].
Qed.

Lemma filter_sublist (f : R → bool) (l : list R) : sublist (List.filter f l) l.
Proof.
  induction l as [|x l IH]; simpl; [constructor|].
  destruct (f x); by constructor.
Qed.

Lemma filter_slots_by_preference_sublist slots time_preference day_preference :
  sublist (filter_slots_by_preference deref slots time_preference day_preference)
    slots.
Proof.
  unfold filter_slots_by_preference.
  destruct time_preference, day_preference; try apply filter_sublist; done.
Qed.

(** C6, as amended.  The filter of [life-os-agent] retains a slot if and
    only if (the day preference is absent or empty or holds the day of the
    slot) and (the time preference is absent or empty, or includes
    flexible or any, or has a band that holds the start hour of the slot),
    with the bands morning 05:00 to 12:00, afternoon 12:00 to 17:00 and
    evening 17:00 to 22:00; the slots retained keep their order. *)
Theorem filter_slots_by_preference_retains slots time_preference day_preference :
  (∀ r, r ∈ filter_slots_by_preference deref slots time_preference day_preference
        ↔ r ∈ slots ∧ retains time_preference day_preference (deref r))
  ∧ sublist (filter_slots_by_preference deref slots time_preference day_preference)
      slots.
Proof.
  split; [|apply filter_slots_by_preference_sublist].
  intros r. unfold filter_slots_by_preference.
  destruct time_preference as [tp|], day_preference as [dp|];
    rewrite ?list_elem_of_In, ?filter_In, <- ?list_elem_of_In,
      ?keeps_slot_retains; try done.
  unfold retains. intuition.
Qed.
End filter_facts.

Section filter_counterexample.
Import Agent FilterSpec FilterExamples.

(** C6, as stated, fails: a slot that starts at 03:00 is retained for the
    time preference any, which is neither flexible nor a band. *)
Lemma filter_retains_any :
  night_slot ∈ filter_slots_by_preference id [night_slot] (Some (OneStr "any")) None
  ∧ ¬ retains_as_stated (Some (OneStr "any")) None night_slot.
Proof.
  split; [by left|].
  intros [_ [H|[H|(pref & Hin & Hb)]]]; [done|..].
  - simpl in H. apply list_elem_of_singleton in H. done.
  - simpl in Hin. apply list_elem_of_singleton in Hin. subst.
    unfold in_band in Hb. intuition congruence.
Qed.
End filter_counterexample.

(** ** The analysis and the order of the activities *)

Section dict_facts.
Context {V : Type}.
Implicit Types (d : list (string * V)).

Lemma dict_set_fresh k v d : k ∉ d.*1 → Py.dict_set k v d = d ++ [(k, v)].
Proof.
  induction d as [|[k' v'] d IH]; simpl; [done|].
  rewrite not_elem_of_cons. intros [Hne Hk].
  rewrite decide_False by done. by rewrite IH.
Qed.

Lemma dict_get_app_fresh k d d' :
  k ∉ d.*1 → Py.dict_get k (d ++ d') = Py.dict_get k d'.
Proof.
  induction d as [|[k' v'] d IH]; simpl; [done|].
  rewrite not_elem_of_cons. intros [Hne Hk].
  rewrite decide_False by done. by apply IH.
Qed.

Lemma dict_set_keys k v d :
  (Py.dict_set k v d).*1 = if decide (k ∈ d.*1) then d.*1 else d.*1 ++ [k].
Proof.
  induction d as [|[k' v'] d IH]; simpl; [done|].
  destruct (decide (k' = k)) as [->|Hne].
  - rewrite decide_True by left. done.
  - rewrite fmap_cons, IH. simpl.
    destruct (decide (k ∈ d.*1)) as [Hin|Hin].
    + rewrite decide_True by (by right). done.
    + rewrite decide_False; [done|].
      rewrite not_elem_of_cons. split; [congruence|done].
Qed.

Lemma dict_set_NoDup k v d : NoDup d.*1 → NoDup (Py.dict_set k v d).*1.
Proof.
  intros Hnd. rewrite dict_set_keys. case_decide; [done|].
  apply NoDup_app. split_and!; [done| |apply NoDup_singleton].
  intros x Hx ->%list_elem_of_singleton. done.
Qed.
End dict_facts.

Section analysis_facts.
Import Agent OrderSpec.
Variable py_int : string → option Z.
Implicit Types (config : LifeOSConfig) (events : list Event).

Lemma requirements_loop_spec config acts acc reqs :
  NoDup (acc.*1 ++ (a_id <$> acts)) →
  requirements_loop py_int config acts acc = Some reqs →
  ∃ more,
    reqs = acc ++ more ∧ more.*1 = a_id <$> acts ∧
    (r_activity ∘ snd) <$> more = acts ∧
    Forall (λ x, x.1 = a_id (r_activity x.2)
                 ∧ r_priority x.2 = get_activity_priority config x.1
                 ∧ get_duration_range py_int (r_activity x.2)
                   = Some (min_duration x.2, max_duration x.2)) more.
Proof.
  revert acc. induction acts as [|a acts IH]; intros acc Hnd Hloop.
  - exists []. simpl in Hloop. simplify_eq. by rewrite app_nil_r.
  - simpl in Hloop. rewrite fmap_cons in Hnd.
    destruct (get_frequency_range py_int a) as [[min_freq max_freq]|] eqn:Hf;
      [simpl in Hloop|done].
    destruct (get_duration_range py_int a) as [[min_dur max_dur]|] eqn:Hd;
      [simpl in Hloop|done].
    rewrite dict_set_fresh in Hloop.
    2:{ apply NoDup_app in Hnd as (_ & Hnd & _). intros Hin.
        apply (Hnd _ Hin). left. }
    match type of Hloop with requirements_loop _ _ _ ?acc' = _ =>
      assert (Hnd' : NoDup (acc'.*1 ++ (a_id <$> acts)))
    end.
    { rewrite fmap_app, <- (assoc_L (++)). exact Hnd. }
    destruct (IH _ Hnd' Hloop) as (more & Heq & Hkeys & Hacts & Hall).
    subst reqs. eexists (_ :: more). split_and!.
    + by rewrite <- (assoc_L (++)).
    + by rewrite fmap_cons, Hkeys.
    + by rewrite fmap_cons, Hacts.
    + constructor; [|done]. simpl. by rewrite Hd.
Qed.

Lemma requirements_loop_NoDup config acts acc reqs :
  NoDup acc.*1 →
  requirements_loop py_int config acts acc = Some reqs → NoDup reqs.*1.
Proof.
  revert acc. induction acts as [|a acts IH]; intros acc Hnd Hloop.
  - simpl in Hloop. by simplify_eq.
  - simpl in Hloop.
    destruct (get_frequency_range py_int a) as [[min_freq max_freq]|];
      [simpl in Hloop|done].
    destruct (get_duration_range py_int a) as [[min_dur max_dur]|];
      [simpl in Hloop|done].
    eapply IH; [|exact Hloop]. by apply dict_set_NoDup.
Qed.

(** The entry of the analysis for an entry of the requirements. *)
Lemma analysis_loop_mapM events items acc :
  NoDup (acc.*1 ++ items.*1) →
  analysis_loop events items acc
  = (more ← mapM (analysis_item events) items; Some (acc ++ more)).
Proof.
  revert acc. induction items as [|[k req] items IH]; intros acc Hnd.
  - simpl. by rewrite app_nil_r.
  - simpl.
    assert (Hitem : analysis_item events (k, req)
                    = '(sessions, mins) ← tally k events 0 0;
                      Some (k, analysis_entry req sessions mins)) by done.
    rewrite Hitem. clear Hitem.
    destruct (tally k events 0 0) as [[sessions mins]|]; [simpl|done].
    rewrite fmap_cons in Hnd. simpl in Hnd.
    rewrite dict_set_fresh.
    2:{ apply NoDup_app in Hnd as (_ & Hnd & _). intros Hin.
        apply (Hnd _ Hin). left. }
    rewrite IH.
    2:{ rewrite fmap_app, <- (assoc_L (++)). exact Hnd. }
    destruct (mapM (analysis_item events) items); simpl; [|done].
    by rewrite <- (assoc_L (++)).
Qed.

Lemma analyze_mapM config events week_start week_end :
  analyze_scheduled_vs_required py_int config events week_start week_end
  = (requirements ← calculate_weekly_requirements py_int config;
     mapM (analysis_item events) requirements).
Proof.
  unfold analyze_scheduled_vs_required.
  destruct (calculate_weekly_requirements py_int config) as [reqs|] eqn:Hr;
    [simpl|done].
  rewrite analysis_loop_mapM.
  - by destruct (mapM _ reqs).
  - simpl. eapply requirements_loop_NoDup; [|exact Hr]. constructor.
Qed.
End analysis_facts.

Section order_facts.
Import Agent OrderSpec.
Variable py_int : string → option Z.
Implicit Types (config : LifeOSConfig) (events : list Event).

Lemma pair_lt_asym a b : Py.pair_lt a b = true → Py.pair_lt b a = false.
Proof.
  unfold Py.pair_lt. rewrite bool_decide_eq_true, bool_decide_eq_false. lia.
Qed.

Lemma pair_lt_le_trans a b c :
  Py.pair_lt b a = false → Py.pair_lt c b = false → Py.pair_lt c a = false.
Proof. unfold Py.pair_lt. rewrite !bool_decide_eq_false. lia. Qed.

Lemma pair_lt_irrefl a : Py.pair_lt a a = false.
Proof. unfold Py.pair_lt. rewrite bool_decide_eq_false. lia. Qed.

Lemma priority_order_rank priority :
  default 2 (Py.dict_get priority priority_order) = priority_rank priority.
Proof.
  unfold priority_rank, priority_order. simpl.
  repeat (case_decide; simplify_eq; try done).
Qed.

Lemma filter_ext_in {A} (P Q : A → Prop) `{!∀ x, Decision (P x)}
    `{!∀ x, Decision (Q x)} (l : list A) :
  (∀ x, x ∈ l → P x ↔ Q x) → filter P l = filter Q l.
Proof.
  induction l as [|x l IH]; intros Hext; [done|].
  rewrite !filter_cons.
  rewrite IH by (intros y Hy; apply Hext; by right).
  pose proof (Hext x ltac:(left)).
  repeat case_decide; tauto.
Qed.

(** The analysis lists the activities of the configuration in their
    order, each with the priority of its tier and a deficit that is not
    negative. *)
Lemma analysis_of_config config events week_start week_end analysis :
  NoDup (a_id <$> activities config) →
  analyze_scheduled_vs_required py_int config events week_start week_end
    = Some analysis →
  (an_activity ∘ snd) <$> analysis = activities config ∧
  Forall (λ x, x.1 = a_id (an_activity x.2)
               ∧ an_priority x.2 = get_activity_priority config x.1
               ∧ 0 ≤ sessions_deficit x.2) analysis.
Proof.
  intros Hnd. rewrite analyze_mapM.
  destruct (calculate_weekly_requirements py_int config) as [reqs|] eqn:Hr;
    [simpl|done].
  apply requirements_loop_spec in Hr as (more & -> & _ & Hacts & Hall);
    [|done].
  simpl. rewrite <- Hacts. clear Hacts Hnd.
  rewrite mapM_Some. intros H2.
  induction H2 as [|[k req] x reqs analysis Hx H2 IH]; [done|].
  apply Forall_cons in Hall as [(Hk & Hp & _) Hall].
  unfold analysis_item in Hx. simpl in *.
  destruct (tally k events 0 0) as [[sessions mins]|]; simplify_eq/=.
  destruct (IH Hall) as [IH1 IH2]. split.
  - by rewrite IH1.
  - constructor; [|done]. simpl. split_and!; [done|done|lia].
Qed.

(** C3, as amended.  [propose_schedule] of [life-os-agent] runs its loop
    over exactly the entries of the analysis with a non-zero deficit,
    ordered by priority rank ascending and then deficit descending;
    entries of equal rank and deficit keep the order of the analysis,
    which is the order of the activities in the configuration. *)
Theorem propose_schedule_order config events week_start analysis :
  NoDup (a_id <$> activities config) →
  analyze_scheduled_vs_required py_int config events week_start
    (week_start + PyTime.days 7) = Some analysis →
  let todo := activities_to_schedule analysis in
  (an_activity ∘ snd) <$> analysis = activities config ∧
  (∀ now,
     propose_schedule py_int config now events (Some week_start)
     = (available ←
          get_available_slots events week_start (week_start + PyTime.days 7)
            default_min_duration;
        '(proposals, _) ←
          schedule_loop py_int (seq 0 (length available)) available todo;
        Some proposals)) ∧
  todo ≡ₚ filter (λ x, deficit x ≠ 0) analysis ∧
  StronglySorted (before config) todo ∧
  (∀ r d,
     filter (λ x, rank config x = r ∧ deficit x = d) todo
     = filter (λ x, rank config x = r ∧ deficit x = d)
         (filter (λ x, deficit x ≠ 0) analysis)).
Proof.
  intros Hnd Han todo.
  destruct (analysis_of_config _ _ _ _ _ Hnd Han) as [Hacts Hall].
  assert (Hfilter : filter (λ x, 0 < sessions_deficit x.2) analysis
                    = filter (λ x, deficit x ≠ 0) analysis).
  { apply filter_ext_in. intros x Hx. rewrite Forall_forall in Hall.
    apply Hall in Hx. unfold deficit. lia. }
  assert (Hperm : todo ≡ₚ filter (λ x, deficit x ≠ 0) analysis).
  { unfold todo, activities_to_schedule. by rewrite sorted_perm, Hfilter. }
  assert (Hkey : ∀ x, x ∈ todo →
                      schedule_key x = (rank config x, - deficit x)).
  { intros x Hx. rewrite Hperm in Hx. apply list_elem_of_filter in Hx as [_ Hx].
    rewrite Forall_forall in Hall. apply Hall in Hx as (Hid & Hp & _).
    unfold schedule_key, rank, deficit.
    by rewrite priority_order_rank, Hp, Hid. }
  split_and!; [done| |done| |].
  - intros now. unfold propose_schedule. rewrite Han. simpl.
    by destruct (get_available_slots _ _ _ _).
  - eapply StronglySorted_weaken_in;
      [|exact (sorted_sorted schedule_key Py.pair_lt pair_lt_asym
                 pair_lt_le_trans _)].
    intros x y Hx Hy. unfold key_le, before.
    rewrite (Hkey x Hx), (Hkey y Hy).
    unfold Py.pair_lt. rewrite bool_decide_eq_false. simpl. lia.
  - intros r d.
    rewrite (filter_ext_in _ (λ x, schedule_key x = (r, - d)) todo).
    2:{ intros x Hx. rewrite (Hkey x Hx). split; [by intros [-> ->]|].
        intros [= <- Hd]. split; [done|lia]. }
    unfold todo, activities_to_schedule.
    rewrite (sorted_stable schedule_key Py.pair_lt pair_lt_irrefl), Hfilter.
    symmetry. apply filter_ext_in. intros x Hx.
    rewrite <- Hperm in Hx. rewrite (Hkey x Hx).
    split; [by intros [-> ->]|]. intros [= <- Hd]. split; [done|lia].
Qed.
End order_facts.

(** ** The walk over the slots of an activity *)

Section booking_facts.
Import Agent BookingSpec.
Variable py_int : string → option Z.
Implicit Types (store : list TimeSlot) (refs : list nat).

Lemma deref_alter_ne store f r r' :
  r ≠ r' → deref (alter f r store) r' = deref store r'.
Proof. intros. unfold deref. by rewrite list_lookup_alter_ne. Qed.

Lemma book_sessions_booked activity data min_dur store refs needed :
  NoDup refs →
  (book_sessions activity data min_dur store refs needed).1
  = session_in activity data min_dur ∘ deref store
      <$> booked store min_dur refs needed.
Proof.
  unfold booked. intros Hnd. revert store needed.
  induction Hnd as [|r refs Hr Hnd IH]; intros store needed;
    [by rewrite filter_nil, take_nil|].
  simpl. destruct (decide (needed ≤ 0)) as [Hn|Hn].
  { replace (Z.to_nat needed) with 0%nat by lia. done. }
  rewrite filter_cons. unfold long_enough at 1.
  destruct (decide (min_dur ≤ duration_minutes (deref store r))) as [Hd|Hd];
    [|apply IH].
  replace (Z.to_nat needed) with (S (Z.to_nat (needed - 1))) by lia.
  match goal with |- context [book_sessions _ _ _ ?s _ _] =>
    specialize (IH s (needed - 1)); set (store' := s) in * end.
  destruct (book_sessions activity data min_dur store' refs (needed - 1))
    as [proposals store''].
  simpl in *. rewrite IH. f_equal.
  assert (Hsame : ∀ r', r' ∈ refs → deref store' r' = deref store r').
  { intros r' Hr'. apply deref_alter_ne. by intros ->. }
  rewrite (filter_ext_in (long_enough store' min_dur) (long_enough store min_dur)).
  2:{ intros r' Hr'. unfold long_enough. by rewrite Hsame. }
  apply list_fmap_ext. intros i r' Hi. simpl. rewrite Hsame; [done|].
  apply list_elem_of_lookup_2 in Hi. apply elem_of_take in Hi as (j & Hj & _).
  apply list_elem_of_lookup_2 in Hj.
  by apply list_elem_of_filter in Hj as [_ Hj].
Qed.



Lemma slots_to_walk_NoDup store available activity :
  NoDup available → NoDup (slots_to_walk store available activity).
Proof.
  intros Hnd. unfold slots_to_walk.
  pose proof (filter_slots_by_preference_sublist (deref store) available
                (a_time_preference activity) (a_days_preference activity))
    as Hsub.
  destruct (filter_slots_by_preference _ _ _ _) eqn:Hf; [done|].
  by eapply sublist_NoDup.
Qed.

Lemma schedule_activity_booked available store item min_dur max_dur :
  NoDup available →
  get_duration_range py_int (an_activity item.2) = Some (min_dur, max_dur) →
  ∃ store',
    schedule_activity py_int available store item
    = Some (session_in (an_activity item.2) item.2 min_dur ∘ deref store
              <$> booked store min_dur
                    (slots_to_walk store available (an_activity item.2))
                    (sessions_deficit item.2),
            store').
Proof.
  intros Hnd Hd. unfold schedule_activity. rewrite Hd. simpl.
  pose proof (book_sessions_booked (an_activity item.2) item.2 min_dur store
                _ (sessions_deficit item.2)
                (slots_to_walk_NoDup store available (an_activity item.2) Hnd))
    as Hb.
  destruct (book_sessions _ _ _ _ _ _) as [proposals store'].
  simpl in Hb. subst proposals. by exists store'.
Qed.



(** C5, as amended.  In [life-os-agent], when the preference filter
    returns no slot for an activity with a positive deficit, the walk is
    over all the available slots, and the activity gets as many sessions
    as it needs or as there are available slots long enough, whichever is
    smaller. *)
Theorem propose_falls_back available store item min_dur max_dur :
  NoDup available →
  0 < sessions_deficit item.2 →
  get_duration_range py_int (an_activity item.2) = Some (min_dur, max_dur) →
  filter_slots_by_preference (deref store) available
    (a_time_preference (an_activity item.2))
    (a_days_preference (an_activity item.2)) = [] →
  let activity := an_activity item.2 in
  let needed := sessions_deficit item.2 in
  let fitting := filter (long_enough store min_dur) available in
  slots_to_walk store available activity = available ∧
  ∃ proposals store',
    schedule_activity py_int available store item = Some (proposals, store') ∧
    proposals = session_in activity item.2 min_dur ∘ deref store
                  <$> take (Z.to_nat needed) fitting ∧
    length proposals = (Z.to_nat needed `min` length fitting)%nat ∧
    (fitting ≠ [] → proposals ≠ []) ∧
    (needed ≤ Z.of_nat (length fitting) →
     Z.of_nat (length proposals) = needed).
Proof.
  intros Hnd Hpos Hd Hf activity needed fitting.
  assert (Hwalk : slots_to_walk store available activity = available).
  { unfold slots_to_walk, activity. by rewrite Hf. }
  split; [done|].
  destruct (schedule_activity_booked available store item min_dur max_dur Hnd Hd)
    as [store' Hs].
  fold activity in Hs. rewrite Hwalk in Hs.
  eexists _, store'. split; [exact Hs|]. unfold booked. fold needed fitting.
  assert (Hlen : length (session_in activity item.2 min_dur ∘ deref store
                           <$> take (Z.to_nat needed) fitting)
                 = (Z.to_nat needed `min` length fitting)%nat).
  { by rewrite length_fmap, length_take. }
  split_and!; [done|done| |lia].
  intros Hne Hnil. rewrite Hnil in Hlen. simpl in Hlen.
  destruct fitting; [done|]. simpl in Hlen. subst needed. lia.
Qed.
End booking_facts.

(** ** Proposals fed back into the analysis *)

Section round_trip.
Import Agent OrderSpec RoundTripSpec.
Variable py_int : string → option Z.
Implicit Types (config : LifeOSConfig) (events : list Event).

Lemma tally_booked config new_id activity_id proposals s m :
  ∃ m',
    tally activity_id ((λ p, booked_event config (new_id p) p) <$> proposals) s m
    = Some (s + proposals_for activity_id proposals, m').
Proof.
  unfold proposals_for. revert s m.
  induction proposals as [|p ps IH]; intros s m.
  - exists m. simpl. f_equal. f_equal. lia.
  - rewrite fmap_cons, filter_cons. simpl.
    destruct (decide (Some (a_id (p_activity p)) = Some activity_id)) as [He|He].
    + rewrite decide_True by congruence.
      destruct (IH (s + 1) (m + PyTime.whole_minutes (p_end p - p_start p)))
        as [m' ->].
      exists m'. f_equal. f_equal. simpl. lia.
    + rewrite decide_False by congruence. apply IH.
Qed.

Lemma tally_app_booked config new_id activity_id events proposals s m s' m' :
  tally activity_id events s m = Some (s', m') →
  ∃ m'',
    tally activity_id
      (events ++ ((λ p, booked_event config (new_id p) p) <$> proposals)) s m
    = Some (s' + proposals_for activity_id proposals, m'').
Proof.
  revert s m. induction events as [|event events IH]; intros s m Ht.
  - simpl in *. simplify_eq. apply tally_booked.
  - simpl in *. case_decide; [|by apply IH].
    destruct (ev_start event); [simpl in *|done].
    destruct (ev_end event); [simpl in *|done].
    by apply IH.
Qed.
End round_trip.

(** ** The [apps/life-os-agent] variant: slots and the list of events *)

Lemma date_of_bounds (dt d : Z) :
  Apps.date_of dt = d ↔ Apps.combine d 0 ≤ dt < Apps.combine (d + 1) 0.
Proof.
  unfold Apps.date_of, Apps.combine, PyTime.us_per_day.
  split; intros H; Z.div_mod_to_equations; lia.
Qed.

Lemma date_of_combine (d t : Z) :
  0 ≤ t < PyTime.us_per_day → Apps.date_of (Apps.combine d t) = d.
Proof.
  intros H. apply date_of_bounds. revert H.
  unfold Apps.combine, PyTime.us_per_day. lia.
Qed.

Section apps_facts.
Import Apps AppsSpec AppsExamples.
Variable py_int : string → option Z.
Variable py_lower : string → string.
Variable str_of_date : Z → string.

(** C10 fails on the code: an event that starts at 23:00 closes a gap that
    began at 06:00, and the slot returned for that day ends at 23:00, after
    the end of the window at 22:00. *)
Lemma late_event_slot_ends_after_22 :
  ∃ slots events',
    get_available_slots py_int str_of_date bare_config 0 [late_event]
      default_slot_duration = Some (slots, events') ∧
    slots !! 0%nat = Some {| start := PyTime.mk_datetime 0 6 0;
                             end_ := PyTime.mk_datetime 0 23 0;
                             day := Some MONDAY |} ∧
    ¬ Forall in_waking_window slots.
Proof.
  eexists _, _. split; [vm_compute; reflexivity|]. split; [reflexivity|].
  intros H. apply Forall_cons in H as [(d & H1 & H2) _].
  revert H1 H2. unfold combine, t06, t22. simpl.
  unfold PyTime.us_per_day, PyTime.us_per_hour. lia.
Qed.

(** The same with no event at all, from the configuration alone: work
    from 22:30 closes the gap of Monday at 22:30. *)
Lemma late_work_slot_ends_after_22 :
  ∃ slots events',
    get_available_slots dec_int str_of_date night_config 0 []
      default_slot_duration = Some (slots, events') ∧
    slots !! 0%nat = Some {| start := PyTime.mk_datetime 0 6 0;
                             end_ := PyTime.mk_datetime 0 22 30;
                             day := Some MONDAY |}.
Proof. eexists _, _. split; [vm_compute; reflexivity|reflexivity]. Qed.

(** C8 fails on the code: called with the caller's list,
    [get_available_slots] appends the work block of Monday to it. *)
Lemma get_available_slots_appends_work :
  ∃ slots,
    get_available_slots dec_int str_of_date office_config 0 []
      default_slot_duration
    = Some (slots,
            [synthetic_event ("work_" +:+ str_of_date 0) "Work"
               (PyTime.mk_datetime 0 9 0) (PyTime.mk_datetime 0 17 0)]).
Proof. eexists. vm_compute. reflexivity. Qed.

(** What [get_available_slots] does to the list it is given: it appends
    blocks, and leaves the events that were there in place. *)
Lemma add_work_extends config current_date day events events' :
  add_work py_int str_of_date config current_date day events = Some events' →
  ∃ added, events' = events ++ added.
Proof.
  unfold add_work. intros H.
  destruct (template config ≫= work) as [w|]; [|exists []; simplify_eq;
                                                by rewrite app_nil_r].
  case_decide; [|exists []; simplify_eq; by rewrite app_nil_r].
  destruct (parse_time py_int (w_start w)); [simpl in H|done].
  destruct (parse_time py_int (w_end w)); [simpl in H|done].
  simplify_eq. by eexists.
Qed.

Lemma add_commitments_extends current_date day cs events events' :
  add_commitments py_int str_of_date current_date day cs events = Some events' →
  ∃ added, events' = events ++ added.
Proof.
  revert events. induction cs as [|c cs IH]; intros events H; simpl in H.
  - exists []. simplify_eq. by rewrite app_nil_r.
  - case_decide; [|by apply IH].
    destruct (parse_time py_int (c_start c)); [simpl in H|done].
    destruct (parse_time py_int (c_end c)); [simpl in H|done].
    apply IH in H as [added ->]. rewrite <- (assoc_L (++)). by eexists.
Qed.

Lemma day_slots_extends config week_start slot_duration events day_offset
    gaps events' :
  day_slots py_int str_of_date config week_start slot_duration events day_offset
    = Some (gaps, events') →
  ∃ added, events' = events ++ added.
Proof.
  unfold day_slots. intros H.
  destruct (add_work _ _ _ _ _ _) as [events1|] eqn:H1; [simpl in H|done].
  destruct (add_commitments _ _ _ _ _ _) as [events2|] eqn:H2; [simpl in H|done].
  apply add_work_extends in H1 as [a1 ->].
  apply add_commitments_extends in H2 as [a2 ->].
  simplify_eq. rewrite <- (assoc_L (++)). by eexists.
Qed.

Lemma days_loop_extends config week_start slot_duration offsets available
    events slots events' :
  days_loop py_int str_of_date config week_start slot_duration offsets
    available events = Some (slots, events') →
  ∃ added, events' = events ++ added.
Proof.
  revert available events.
  induction offsets as [|o offsets IH]; intros available events H; simpl in H.
  - exists []. simplify_eq. by rewrite app_nil_r.
  - destruct (day_slots _ _ _ _ _ _ _) as [[gaps events1]|] eqn:H1;
      [simpl in H|done].
    apply day_slots_extends in H1 as [a1 ->].
    apply IH in H as [a2 ->]. rewrite <- (assoc_L (++)). by eexists.
Qed.

Lemma get_available_slots_extends config week_start events slot_duration
    slots events' :
  get_available_slots py_int str_of_date config week_start events slot_duration
    = Some (slots, events') →
  ∃ added, events' = events ++ added.
Proof. apply days_loop_extends. Qed.

(** [propose_schedule] hands a copy of the list to [get_available_slots]:
    the caller's list is as it was. *)
Lemma propose_schedule_keeps_events config week_start events proposal events' :
  propose_schedule py_int py_lower str_of_date config week_start events
    = Some (proposal, events') →
  events' = events.
Proof.
  unfold propose_schedule. intros H.
  destruct (calculate_weekly_requirements _ _); [simpl in H|done].
  destruct (get_available_slots _ _ _ _ _ _) as [[? ?]|]; [simpl in H|done].
  destruct (analyze_scheduled_vs_required _ _ _ _ _); [simpl in H|done].
  destruct (fill_gaps _ _ _ _ _); [simpl in H|done].
  by simplify_eq.
Qed.

(** What does hold of the slots: each lies in one day of the week, from
    06:00 on. *)
Lemma apps_find_gaps_shape slot_duration d evs c day_end :
  Forall (λ g, c ≤ start g ∧ start g < end_ g ∧ day g = Some d
               ∧ (end_ g = day_end ∨ ∃ e, e ∈ evs ∧ e_start e = end_ g))
    (find_gaps slot_duration d evs c day_end).
Proof.
  revert c. induction evs as [|e evs IH]; intros c; simpl.
  - repeat case_decide; try apply Forall_nil_2.
    apply Forall_singleton. simpl. split_and!; [lia|lia|done|by left].
  - apply Forall_app. split.
    + repeat case_decide; try apply Forall_nil_2.
      apply Forall_singleton. simpl. split_and!; [lia|lia|done|].
      right. exists e. split; [left|done].
    + eapply Forall_impl; [apply IH|]. simpl.
      intros g (H1 & H2 & H3 & [H4|(e' & He' & H4)]);
        (split_and!; [lia|done|done|]); [by left|].
      right. exists e'. split; [by right|done].
Qed.

Lemma slot_in_day_mono week_start events added slot :
  slot_in_day week_start events slot →
  slot_in_day week_start (events ++ added) slot.
Proof.
  intros (d & ? & ? & ? & ? & ? & Hlate). exists d.
  do 5 (split; [done|]). intros H22. destruct (Hlate H22) as (e & He & Hs).
  exists e. split; [|done]. apply elem_of_app. by left.
Qed.

Lemma day_slots_in_day config week_start slot_duration events day_offset
    gaps events' :
  0 ≤ day_offset < 7 →
  day_slots py_int str_of_date config week_start slot_duration events day_offset
    = Some (gaps, events') →
  Forall (slot_in_day week_start events') gaps.
Proof.
  unfold day_slots. intros Ho H.
  destruct (add_work _ _ _ _ _ _) as [events1|]; [simpl in H|done].
  destruct (add_commitments _ _ _ _ _ _) as [events2|]; [simpl in H|done].
  injection H as <- <-.
  eapply Forall_impl; [apply apps_find_gaps_shape|]. simpl.
  intros g (H1 & H2 & H3 & H4). exists (week_start + day_offset).
  assert (Hdate : date_of (end_ g) = week_start + day_offset).
  { destruct H4 as [->|(e & He & <-)].
    - apply date_of_combine. by compute.
    - rewrite sorted_perm in He.
      by apply list_elem_of_filter in He as [He _]. }
  split; [lia|]. do 3 (split; [done|]). split.
  - apply date_of_bounds in Hdate. lia.
  - intros H22. destruct H4 as [Heq|(e & He & <-)];
      [rewrite Heq in H22; lia|].
    exists e. split; [|done]. rewrite sorted_perm in He.
    by apply list_elem_of_filter in He as [_ He].
Qed.

Lemma days_loop_in_day config week_start slot_duration offsets available
    events slots events' :
  Forall (λ o, 0 ≤ o < 7) offsets →
  Forall (slot_in_day week_start events) available →
  days_loop py_int str_of_date config week_start slot_duration offsets
    available events = Some (slots, events') →
  Forall (slot_in_day week_start events') slots.
Proof.
  intros Ho. revert available events.
  induction Ho as [|o offsets Ho Hos IH]; intros available events Ha H;
    simpl in H.
  - by simplify_eq.
  - destruct (day_slots _ _ _ _ _ _ _) as [[gaps events1]|] eqn:H1;
      [simpl in H|done].
    eapply IH; [|exact H]. apply Forall_app. split.
    + destruct (day_slots_extends _ _ _ _ _ _ _ H1) as [added ->].
      eapply Forall_impl; [exact Ha|]. intros g. apply slot_in_day_mono.
    + by eapply day_slots_in_day.
Qed.

Lemma get_available_slots_in_day config week_start events slot_duration
    slots events' :
  get_available_slots py_int str_of_date config week_start events slot_duration
    = Some (slots, events') →
  Forall (slot_in_day week_start events') slots.
Proof.
  apply days_loop_in_day; [|constructor].
  apply Forall_forall. intros o Ho. apply elem_of_seqZ in Ho. lia.
Qed.

(** ** Where the variant departs from [life-os-agent]

    The week ends six days after its Monday. *)
Lemma apps_week_bounds today reference_date :
  let '(monday, sunday) := get_week_bounds today reference_date in
  monday `mod` 7 = 0 ∧ sunday = monday + 6 ∧
  monday ≤ default today reference_date ≤ sunday.
Proof.
  unfold get_week_bounds. generalize (default today reference_date).
  clear. intros d. split_and!; try lia; Z.div_mod_to_equations; lia.
Qed.
End apps_facts.

(** ** The properties at concrete inputs *)

Section witnesses.
Import Agent OrderSpec BookingSpec RoundTripSpec ScheduleExamples.

Lemma propose_schedule_order_witness :
  NoDup (a_id <$> activities week_config) ∧
  analyze_scheduled_vs_required dec_int week_config [] 0 (0 + PyTime.days 7)
    = Some week_analysis ∧
  let todo := activities_to_schedule week_analysis in
  (an_activity ∘ snd) <$> week_analysis = activities week_config ∧
  (∀ now,
     propose_schedule dec_int week_config now [] (Some 0)
     = (available ←
          get_available_slots [] 0 (0 + PyTime.days 7) default_min_duration;
        '(proposals, _) ←
          schedule_loop dec_int (seq 0 (length available)) available todo;
        Some proposals)) ∧
  todo ≡ₚ filter (λ x, deficit x ≠ 0) week_analysis ∧
  StronglySorted (before week_config) todo ∧
  (∀ r d,
     filter (λ x, rank week_config x = r ∧ deficit x = d) todo
     = filter (λ x, rank week_config x = r ∧ deficit x = d)
         (filter (λ x, deficit x ≠ 0) week_analysis)).
Proof.
  assert (H1 : NoDup (a_id <$> activities week_config)).
  { apply (bool_decide_unpack _). vm_compute. exact I. }
  assert (H2 : analyze_scheduled_vs_required dec_int week_config [] 0
                 (0 + PyTime.days 7) = Some week_analysis)
    by (vm_compute; reflexivity).
  exact (conj H1 (conj H2
           (propose_schedule_order dec_int week_config [] 0 week_analysis
              H1 H2))).
Defined.

(** The order found for the example: exercise first, then reading and
    chess in the order of the configuration. *)
Example week_processing_order :
  fst <$> activities_to_schedule week_analysis = ["exercise"; "reading"; "chess"].
Proof. vm_compute. reflexivity. Qed.


(** The scenario of the specification: with a minimum of 45 minutes the
    slot of 44 minutes is passed over and the slot of exactly 45 minutes
    is booked, from 09:00 to 09:45. *)
Example slot_of_45_minutes_qualifies :
  booked morning_slots 45 [0%nat; 1%nat] 3 = [1%nat] ∧
  (λ p, (p_start p, p_end p))
    <$> (book_sessions exercise exercise_item.2 45 morning_slots
           [0%nat; 1%nat] 3).1
  = [(PyTime.mk_datetime 0 9 0, PyTime.mk_datetime 0 9 45)].
Proof. split; vm_compute; reflexivity. Qed.

Lemma propose_falls_back_witness :
  NoDup [0%nat; 1%nat] ∧
  0 < sessions_deficit exercise_item.2 ∧
  get_duration_range dec_int (an_activity exercise_item.2) = Some (45, 45) ∧
  filter_slots_by_preference (deref afternoon_slots) [0%nat; 1%nat]
    (a_time_preference (an_activity exercise_item.2))
    (a_days_preference (an_activity exercise_item.2)) = [] ∧
  let activity := an_activity exercise_item.2 in
  let needed := sessions_deficit exercise_item.2 in
  let fitting := filter (long_enough afternoon_slots 45) [0%nat; 1%nat] in
  slots_to_walk afternoon_slots [0%nat; 1%nat] activity = [0%nat; 1%nat] ∧
  ∃ proposals store',
    schedule_activity dec_int [0%nat; 1%nat] afternoon_slots exercise_item
      = Some (proposals, store') ∧
    proposals = session_in activity exercise_item.2 45 ∘ deref afternoon_slots
                  <$> take (Z.to_nat needed) fitting ∧
    length proposals = (Z.to_nat needed `min` length fitting)%nat ∧
    (fitting ≠ [] → proposals ≠ []) ∧
    (needed ≤ Z.of_nat (length fitting) →
     Z.of_nat (length proposals) = needed).
Proof.
  assert (H1 : NoDup [0%nat; 1%nat]).
  { apply (bool_decide_unpack _). vm_compute. exact I. }
  assert (H2 : 0 < sessions_deficit exercise_item.2) by (vm_compute; reflexivity).
  assert (H3 : get_duration_range dec_int (an_activity exercise_item.2)
               = Some (45, 45)) by reflexivity.
  assert (H4 : filter_slots_by_preference (deref afternoon_slots) [0%nat; 1%nat]
                 (a_time_preference (an_activity exercise_item.2))
                 (a_days_preference (an_activity exercise_item.2)) = [])
    by (vm_compute; reflexivity).
  exact (conj H1 (conj H2 (conj H3 (conj H4
           (propose_falls_back dec_int [0%nat; 1%nat] afternoon_slots
              exercise_item 45 45 H1 H2 H3 H4))))).
Defined.
End witnesses.

(** * Further properties of [life-os-agent] *)

(** ** Slots *)

Section slot_facts.
Import Agent AgentSpec.

(** X1.  [overlaps] is symmetric, and two slots that are not empty
    overlap exactly when some instant lies in both. *)
Theorem overlaps_common_instant (a b : TimeSlot) :
  start a < end_ a → start b < end_ b →
  overlaps a b = overlaps b a ∧
  (overlaps a b = true ↔ ∃ t, contains a t = true ∧ contains b t = true).
Proof.
  intros Ha Hb. unfold overlaps, contains. split.
  - apply andb_comm.
  - rewrite andb_true_iff, !bool_decide_eq_true. split.
    + intros [H1 H2]. exists (start a `max` start b).
      rewrite !andb_true_iff, !bool_decide_eq_true. lia.
    + intros (t & H1 & H2). revert H1 H2.
      rewrite !andb_true_iff, !bool_decide_eq_true. lia.
Qed.

Lemma overlaps_common_instant_witness :
  let a := gap_slot 0 10 in
  let b := gap_slot 5 20 in
  start a < end_ a ∧ start b < end_ b ∧
  overlaps a b = overlaps b a ∧
  (overlaps a b = true ↔ ∃ t, contains a t = true ∧ contains b t = true).
Proof.
  assert (H1 : start (gap_slot 0 10) < end_ (gap_slot 0 10)) by (simpl; lia).
  assert (H2 : start (gap_slot 5 20) < end_ (gap_slot 5 20)) by (simpl; lia).
  exact (conj H1 (conj H2 (overlaps_common_instant _ _ H1 H2))).
Defined.

(** X2.  For every timestamp, on whatever day of the week, the week
    returned starts at the midnight that opens a Monday, holds the
    timestamp, and lasts seven days. *)
Theorem get_week_bounds_any_day now start_date :
  let t := default now start_date in
  let '(week_start, week_end) := get_week_bounds now start_date in
  PyTime.weekday week_start = 0 ∧
  week_start `mod` PyTime.us_per_day = 0 ∧
  week_start = PyTime.at_midnight t - PyTime.days (PyTime.weekday t) ∧
  week_end = week_start + PyTime.days 7 ∧
  week_start ≤ t < week_end.
Proof.
  intros t. unfold get_week_bounds. fold t. generalize t. clear. intros t.
  unfold PyTime.weekday, PyTime.at_midnight, PyTime.days, PyTime.us_per_day.
  split_and!; try lia; Z.div_mod_to_equations; lia.
Qed.
End slot_facts.

(** ** The availability calculator, beyond disjoint events *)

Section sweep_more.
Import Agent AgentSpec MoreExamples.
Implicit Types (busy : list TimeSlot) (events : list Event).

(** X3.  The sweep needs no merging: for events that overlap, contain one
    another or begin before the range, as long as none ends before it
    starts or starts after the range, the slots returned are chronological,
    lie in the range, avoid every busy interval and hold free time only;
    without a minimum they hold all the free time. *)
Theorem available_slots_overlapping_busy events busy start_date end_date
    min_duration :
  busy_slots_of events = Some busy →
  Forall (λ b, start b ≤ end_ b ∧ start b ≤ end_date) busy →
  ∃ slots,
    get_available_slots events start_date end_date min_duration = Some slots ∧
    chronological slots ∧
    Forall (λ g, start_date ≤ start g ∧ start g < end_ g ∧ end_ g ≤ end_date
                 ∧ min_duration ≤ duration_minutes g) slots ∧
    (∀ g b, g ∈ slots → b ∈ busy → overlaps g b = false) ∧
    (∀ t, covered slots t → free busy start_date end_date t) ∧
    (min_duration ≤ 0 →
     ∀ t, covered slots t ↔ free busy start_date end_date t).
Proof.
  intros Hbusy Hb.
  destruct (available_slots_sweep events busy start_date end_date min_duration
              Hbusy Hb)
    as (gaps & Hgaps & Hslots & Hchrono & Hrange & Havoid & Hfree).
  eexists. split; [exact Hslots|].
  assert (Hsub : ∀ g, g ∈ filter (λ g, min_duration ≤ duration_minutes g) gaps
                      → g ∈ gaps).
  { intros g Hg. by apply list_elem_of_filter in Hg as [_ Hg]. }
  split_and!.
  - by apply chronological_filter.
  - rewrite Forall_forall in *. intros g Hg.
    apply list_elem_of_filter in Hg as [Hmin Hg].
    destruct (Hrange g Hg) as (? & ? & ?). done.
  - intros g b Hg. apply Havoid. by apply Hsub.
  - intros t Ht. apply Hfree. unfold covered in *.
    rewrite Exists_exists in *. destruct Ht as (g & Hg & Ht). eauto.
  - intros Hm t. rewrite <- Hfree. rewrite filter_all; [done|].
    unfold get_available_slots in Hgaps. rewrite Hbusy in Hgaps.
    simpl in Hgaps. injection Hgaps as <-.
    eapply Forall_impl; [apply find_gaps_min|]. simpl. lia.
Qed.

Lemma available_slots_overlapping_busy_witness :
  busy_slots_of overlapping_events = Some overlapping_busy ∧
  Forall (λ b, start b ≤ end_ b ∧ start b ≤ PyTime.days 1) overlapping_busy ∧
  ∃ slots,
    get_available_slots overlapping_events 0 (PyTime.days 1) 15 = Some slots ∧
    chronological slots ∧
    Forall (λ g, 0 ≤ start g ∧ start g < end_ g ∧ end_ g ≤ PyTime.days 1
                 ∧ 15 ≤ duration_minutes g) slots ∧
    (∀ g b, g ∈ slots → b ∈ overlapping_busy → overlaps g b = false) ∧
    (∀ t, covered slots t → free overlapping_busy 0 (PyTime.days 1) t) ∧
    (15 ≤ 0 →
     ∀ t, covered slots t ↔ free overlapping_busy 0 (PyTime.days 1) t).
Proof.
  assert (H1 : busy_slots_of overlapping_events = Some overlapping_busy)
    by reflexivity.
  assert (H2 : Forall (λ b, start b ≤ end_ b ∧ start b ≤ PyTime.days 1)
                 overlapping_busy).
  { repeat constructor; cbv; discriminate. }
  exact (conj H1 (conj H2
           (available_slots_overlapping_busy overlapping_events
              overlapping_busy 0 (PyTime.days 1) 15 H1 H2))).
Defined.

(** The two overlapping meetings leave the day free before 09:00 and
    after 12:00. *)
Example overlapping_meetings_gaps :
  (λ g, (start g, end_ g))
    <$> default [] (get_available_slots overlapping_events 0 (PyTime.days 1) 15)
  = [(0, PyTime.mk_datetime 0 9 0); (PyTime.mk_datetime 0 12 0, PyTime.days 1)].
Proof. vm_compute. reflexivity. Qed.

(** *** Events without a start time *)

Lemma busy_slots_of_timed events :
  busy_slots_of (filter (λ ev, is_Some (ev_start ev)) events)
  = busy_slots_of events.
Proof.
  induction events as [|ev events IH]; [done|].
  rewrite filter_cons. simpl.
  destruct (ev_start ev) as [s|] eqn:Hs.
  - rewrite decide_True by by eexists. simpl. by rewrite Hs, IH.
  - rewrite decide_False by by intros [? ?]. done.
Qed.

(** X4.  All-day events never block time: an event without a start
    [dateTime] is skipped, wherever it stands in the list, so that the
    result is the one for the timed events alone. *)
Theorem get_available_slots_skips_all_day events start_date end_date
    min_duration :
  get_available_slots (filter (λ ev, is_Some (ev_start ev)) events)
    start_date end_date min_duration
  = get_available_slots events start_date end_date min_duration.
Proof. unfold get_available_slots. by rewrite busy_slots_of_timed. Qed.

(** *** The order of the events *)

Lemma find_gaps_swap m b1 b2 busy c e :
  start b1 = start b2 → start b1 ≤ end_ b1 → start b2 ≤ end_ b2 →
  find_gaps m (b1 :: b2 :: busy) c e = find_gaps m (b2 :: b1 :: busy) c e.
Proof.
  intros Hs H1 H2. simpl. rewrite Hs.
  replace ((c `max` end_ b1) `max` end_ b2)
    with ((c `max` end_ b2) `max` end_ b1)
    by lia.
  destruct (decide (c < start b2)) as [Hc|Hc].
  - rewrite (decide_False (P := c `max` end_ b1 < start b2)) by lia.
    rewrite (decide_False (P := c `max` end_ b2 < start b2)) by lia.
    done.
  - rewrite (decide_False (P := c `max` end_ b1 < start b2)) by lia.
    rewrite (decide_False (P := c `max` end_ b2 < start b2)) by lia.
    done.
Qed.

Lemma find_gaps_bubble m x l1 l2 c e :
  Forall (λ y, start y = start x ∧ start y ≤ end_ y) l1 → start x ≤ end_ x →
  find_gaps m (l1 ++ x :: l2) c e = find_gaps m (x :: l1 ++ l2) c e.
Proof.
  intros Hl Hx. revert c. induction Hl as [|y l1 [Hy1 Hy2] Hl IH]; intros c.
  - done.
  - rewrite <- !app_comm_cons.
    rewrite (find_gaps_swap m x y) by (done || lia).
    simpl. f_equal. rewrite IH. done.
Qed.

Lemma find_gaps_perm m l1 l2 c e :
  StronglySorted (λ a b, start a ≤ start b) l1 →
  StronglySorted (λ a b, start a ≤ start b) l2 →
  Forall (λ b, start b ≤ end_ b) l1 →
  l1 ≡ₚ l2 →
  find_gaps m l1 c e = find_gaps m l2 c e.
Proof.
  intros H1. revert l2 c.
  induction H1 as [|x l1 H1 IH Hx]; intros l2 c H2 Hwf Hp.
  - apply Permutation_nil_l in Hp. by subst.
  - assert (Hin : x ∈ l2) by (rewrite <- Hp; left).
    apply list_elem_of_split in Hin as (l2a & l2b & ->).
    apply Permutation_cons_app_inv in Hp as Hp'.
    apply StronglySorted_app in H2 as (Hcross & H2a & H2b).
    apply StronglySorted_cons in H2b as [Hxb H2b].
    apply Forall_cons in Hwf as [Hwx Hwf].
    assert (Hwf2 : Forall (λ b, start b ≤ end_ b) (l2a ++ l2b))
      by by rewrite <- Hp'.
    assert (Hsame : Forall (λ y, start y = start x ∧ start y ≤ end_ y) l2a).
    { apply Forall_forall. intros y Hy.
      assert (start y ≤ start x) by (apply (Hcross y x); [done|left]).
      assert (Hy' : y ∈ l1) by (rewrite Hp'; apply elem_of_app; by left).
      rewrite Forall_forall in Hx, Hwf2.
      split; [pose proof (Hx y Hy'); lia|].
      apply Hwf2, elem_of_app. by left. }
    rewrite find_gaps_bubble by done. simpl. f_equal.
    apply IH; [|done|done].
    apply StronglySorted_app. split_and!; [|done|done].
    intros y z Hy Hz. apply (Hcross y z); [done|by right].
Qed.

Lemma busy_slots_of_perm events1 events2 :
  events1 ≡ₚ events2 →
  match busy_slots_of events1, busy_slots_of events2 with
  | Some b1, Some b2 => b1 ≡ₚ b2
  | None, None => True
  | _, _ => False
  end.
Proof.
  induction 1 as [|ev l1 l2 Hp IH|ev1 ev2 l|l1 l2 l3 Hp1 IH1 Hp2 IH2]; simpl.
  - done.
  - destruct (ev_start ev), (ev_end ev), (busy_slots_of l1),
      (busy_slots_of l2); simpl; try done. by f_equiv.
  - destruct (ev_start ev1), (ev_end ev1), (ev_start ev2), (ev_end ev2),
      (busy_slots_of l); simpl; try done. apply Permutation_swap.
  - destruct (busy_slots_of l1), (busy_slots_of l2), (busy_slots_of l3);
      try done. by etrans.
Qed.

Lemma busy_slots_of_well_formed events busy :
  Forall (λ ev, ∀ a b, ev_start ev = Some a → ev_end ev = Some b → a ≤ b)
    events →
  busy_slots_of events = Some busy →
  Forall (λ b, start b ≤ end_ b) busy.
Proof.
  intros Hwf. revert busy.
  induction Hwf as [|ev events Hev Hwf IH]; intros busy Hb; simpl in Hb.
  - by simplify_eq.
  - destruct (ev_start ev) as [a|] eqn:Ha; [|by apply IH].
    destruct (ev_end ev) as [b|] eqn:Hb'; [simpl in Hb|done].
    destruct (busy_slots_of events) as [busy'|]; [simpl in Hb|done].
    simplify_eq. constructor; [by apply Hev|by apply IH].
Qed.

(** X5.  The result does not depend on the order in which the calendar
    lists the events, provided no event ends before it starts. *)
Theorem get_available_slots_order_independent events1 events2 start_date
    end_date min_duration :
  events1 ≡ₚ events2 →
  Forall (λ ev, ∀ a b, ev_start ev = Some a → ev_end ev = Some b → a ≤ b)
    events1 →
  get_available_slots events1 start_date end_date min_duration
  = get_available_slots events2 start_date end_date min_duration.
Proof.
  intros Hp Hwf. unfold get_available_slots.
  pose proof (busy_slots_of_perm _ _ Hp) as Hb.
  pose proof (busy_slots_of_well_formed events1) as Hwf1.
  destruct (busy_slots_of events1) as [b1|], (busy_slots_of events2) as [b2|];
    try done.
  simpl. f_equal. apply find_gaps_perm.
  - apply sort_by_start_sorted.
  - apply sort_by_start_sorted.
  - rewrite sorted_perm. by apply Hwf1.
  - by rewrite !sorted_perm.
Qed.

Lemma get_available_slots_order_independent_witness :
  overlapping_events ≡ₚ reverse overlapping_events ∧
  Forall (λ ev, ∀ a b, ev_start ev = Some a → ev_end ev = Some b → a ≤ b)
    overlapping_events ∧
  get_available_slots overlapping_events 0 (PyTime.days 1) 15
  = get_available_slots (reverse overlapping_events) 0 (PyTime.days 1) 15.
Proof.
  assert (H1 : overlapping_events ≡ₚ reverse overlapping_events)
    by (symmetry; apply reverse_Permutation).
  assert (H2 : Forall (λ ev, ∀ a b, ev_start ev = Some a → ev_end ev = Some b
                                    → a ≤ b) overlapping_events).
  { repeat constructor; simpl; intros a b [= <-] [= <-]; cbv; discriminate. }
  exact (conj H1 (conj H2
           (get_available_slots_order_independent overlapping_events
              (reverse overlapping_events) 0 (PyTime.days 1) 15 H1 H2))).
Defined.
End sweep_more.

(** ** Proposals *)

Section proposal_facts.
Import Agent AgentSpec BookingSpec ProposalSpec BookedSpec RoundTripSpec.
Variable py_int : string → option Z.

Lemma session_fits md s e :
  0 < md → md ≤ PyTime.whole_minutes (e - s) →
  s < s + PyTime.minutes md ∧ s + PyTime.minutes md ≤ e.
Proof.
  unfold PyTime.whole_minutes, PyTime.minutes, PyTime.us_per_minute.
  intros Hmd Hq. Z.quot_rem_to_equations. lia.
Qed.

Lemma chronological_lookup slots i j a b :
  chronological slots → (i < j)%nat →
  slots !! i = Some a → slots !! j = Some b → end_ a ≤ start b.
Proof.
  unfold chronological. intros Hs. revert i j.
  induction Hs as [|x l Hl IH Hx]; intros i j Hij Hi Hj.
  - by rewrite lookup_nil in Hi.
  - destruct j as [|j]; [lia|]. destruct i as [|i]; simpl in *.
    + simplify_eq. rewrite Forall_forall in Hx. apply Hx.
      by eapply list_elem_of_lookup_2.
    + apply (IH i j); [lia|done|done].
Qed.

Lemma shrunk_refl store :
  Forall (λ g, start g < end_ g) store → shrunk store store.
Proof.
  intros H. apply Forall_Forall2_diag. eapply Forall_impl; [exact H|].
  simpl. lia.
Qed.

Lemma book_step store0 store acc activity data md r :
  chronological store0 → well_booked store0 store acc →
  0 < md → md ≤ duration_minutes (deref store r) →
  let slot := deref store r in
  let end_time := start slot + PyTime.minutes (md `min` duration_minutes slot) in
  well_booked store0 (alter (set_start end_time) r store)
    (acc ++ [{| p_activity := activity; p_start := start slot;
                p_end := end_time;
                p_reasoning := reasoning_text data activity;
                p_conflicts_with := None;
                p_priority := an_priority data |}]).
Proof.
  intros Hchr (Hsh & Htk & Hap) Hmd Hlong slot end_time.
  assert (Hr : store !! r = Some slot).
  { subst slot. unfold deref in *. destruct (store !! r) eqn:Hr; [done|].
    simpl in Hlong. unfold duration_minutes in Hlong. simpl in Hlong.
    replace (0 - 0) with 0 in Hlong by lia. 
    unfold PyTime.whole_minutes in Hlong. simpl in Hlong. 
    rewrite Z.quot_0_l in Hlong by done. lia. }
  destruct (Forall2_lookup_r _ _ _ _ _ Hsh Hr) as (slot0 & Hr0 & H0s & Hse & Hee).
  assert (Hend : end_time = start slot + PyTime.minutes md).
  { subst end_time. f_equal. f_equal. fold slot in Hlong. lia. }
  destruct (session_fits md (start slot) (end_ slot) Hmd Hlong) as [Hf1 Hf2].
  rewrite <- Hend in Hf1, Hf2.
  split_and!.
  - unfold shrunk. apply Forall2_same_length_lookup. split.
    { rewrite length_alter. by eapply Forall2_length. }
    intros i x y Hx Hy.
    destruct (decide (r = i)) as [<-|Hne].
    + rewrite list_lookup_alter_eq, Hr in Hy. simpl in Hy. simplify_eq. simpl.
      lia.
    + rewrite list_lookup_alter_ne in Hy by done.
      by apply (Forall2_lookup_lr _ _ _ _ _ _ Hsh Hx Hy).
  - apply Forall_app. split.
    + eapply Forall_impl; [exact Htk|].
      intros p (i & s0 & s & Hi0 & Hi & Hp1 & Hp2 & Hp3).
      destruct (decide (r = i)) as [<-|Hne].
      * exists r, s0, (set_start end_time s). simplify_eq.
        rewrite list_lookup_alter_eq, Hr. simpl. split_and!; try done; lia.
      * exists i, s0, s. rewrite list_lookup_alter_ne by done. done.
    + apply Forall_singleton.
      exists r, slot0, (set_start end_time slot).
      rewrite list_lookup_alter_eq, Hr. simpl. split_and!; try done; lia.
  - apply StronglySorted_app. split_and!; [|done|repeat constructor].
    intros p q Hp ->%list_elem_of_singleton.
    rewrite Forall_forall in Htk.
    destruct (Htk p Hp) as (i & s0 & s & Hi0 & Hi & Hp1 & Hp2 & Hp3).
    unfold apart. simpl.
    destruct (lt_eq_lt_dec i r) as [[Hlt| ->]|Hgt].
    + pose proof (chronological_lookup _ _ _ _ _ Hchr Hlt Hi0 Hr0).
      destruct (Forall2_lookup_lr _ _ _ _ _ _ Hsh Hi0 Hi) as (? & ? & ?). lia.
    + simplify_eq. lia.
    + pose proof (chronological_lookup _ _ _ _ _ Hchr Hgt Hr0 Hi0).
      lia.
Qed.

Lemma book_sessions_well_booked store0 activity data md refs :
  chronological store0 → 0 < md →
  ∀ store acc needed,
    well_booked store0 store acc →
    well_booked store0 (book_sessions activity data md store refs needed).2
      (acc ++ (book_sessions activity data md store refs needed).1).
Proof.
  intros Hchr Hmd.
  induction refs as [|r refs IH]; intros store acc needed Hwb; simpl.
  - by rewrite app_nil_r.
  - destruct (decide (needed ≤ 0)); [by rewrite app_nil_r|].
    destruct (decide (md ≤ duration_minutes (deref store r))) as [Hd|Hd];
      [|by apply IH].
    pose proof (book_step store0 store acc activity data md r Hchr Hwb Hmd Hd)
      as Hstep. simpl in Hstep.
    specialize (IH _ _ (needed - 1) Hstep).
    destruct (book_sessions activity data md _ refs (needed - 1))
      as [proposals store'] eqn:Hbook.
    simpl in *. by rewrite <- app_assoc in IH.
Qed.

Lemma schedule_loop_well_booked store0 available items :
  chronological store0 →
  Forall (λ x, ∀ lo hi, get_duration_range py_int (an_activity x.2)
                        = Some (lo, hi) → 0 < lo) items →
  ∀ store acc proposals store',
    well_booked store0 store acc →
    schedule_loop py_int available store items = Some (proposals, store') →
    well_booked store0 store' (acc ++ proposals).
Proof.
  intros Hchr Hitems.
  induction Hitems as [|item items Hitem Hitems IH];
    intros store acc proposals store' Hwb Hloop; simpl in Hloop.
  - simplify_eq. by rewrite app_nil_r.
  - unfold schedule_activity in Hloop.
    destruct (get_duration_range py_int (an_activity item.2))
      as [[lo hi]|] eqn:Hd; [simpl in Hloop|done].
    pose proof (book_sessions_well_booked store0 (an_activity item.2) item.2 lo
                  (slots_to_walk store available (an_activity item.2))
                  Hchr (Hitem _ _ eq_refl) store acc (sessions_deficit item.2)
                  Hwb) as Hstep.
    destruct (book_sessions _ _ _ _ _ _) as [ps store1]. simpl in *.
    destruct (schedule_loop py_int available store1 items)
      as [[more store2]|] eqn:Hrest; [simpl in Hloop|done].
    simplify_eq. rewrite app_assoc. by eapply IH.
Qed.

(** *** The entries of the analysis *)

Lemma dict_set_Forall {V} (P : string * V → Prop) k v (d : list (string * V)) :
  Forall P d → P (k, v) → Forall P (Py.dict_set k v d).
Proof.
  intros Hd Hkv. induction Hd as [|[k' v'] d Hx Hd IH]; simpl.
  - by constructor.
  - case_decide; by constructor.
Qed.

Lemma requirements_loop_Forall (P : string * Requirement → Prop) config acts :
  (∀ a lo hi, a ∈ acts → P (a_id a, {| r_activity := a;
                                        min_sessions := lo.1;
                                        max_sessions := lo.2;
                                        min_duration := hi.1;
                                        max_duration := hi.2;
                                        total_min_minutes := lo.1 * hi.1;
                                        total_max_minutes := lo.2 * hi.2;
                                        r_priority :=
                                          get_activity_priority config (a_id a) |})) →
  ∀ acc reqs,
    Forall P acc →
    requirements_loop py_int config acts acc = Some reqs → Forall P reqs.
Proof.
  induction acts as [|a acts IH]; intros HP acc reqs Hacc Hloop;
    simpl in Hloop.
  - by simplify_eq.
  - destruct (get_frequency_range py_int a) as [[min_freq max_freq]|];
      [simpl in Hloop|done].
    destruct (get_duration_range py_int a) as [[min_dur max_dur]|];
      [simpl in Hloop|done].
    eapply IH; [|
      |exact Hloop].
    + intros a' lo hi Ha'. apply HP. by right.
    + apply dict_set_Forall; [done|].
      apply (HP a (min_freq, max_freq) (min_dur, max_dur)). left.
Qed.

Lemma analysis_entries config events week_start week_end analysis :
  analyze_scheduled_vs_required py_int config events week_start week_end
    = Some analysis →
  NoDup analysis.*1 ∧
  Forall (λ x, x.1 = a_id (an_activity x.2)
               ∧ an_activity x.2 ∈ activities config
               ∧ 0 ≤ sessions_deficit x.2) analysis.
Proof.
  rewrite analyze_mapM.
  destruct (calculate_weekly_requirements py_int config) as [reqs|] eqn:Hr;
    [simpl|done].
  intros Hm. apply mapM_Some in Hm.
  assert (Hnd : NoDup reqs.*1).
  { eapply requirements_loop_NoDup; [|exact Hr]. constructor. }
  assert (Hall : Forall (λ x, x.1 = a_id (r_activity x.2)
                              ∧ r_activity x.2 ∈ activities config) reqs).
  { eapply requirements_loop_Forall; [|constructor|exact Hr].
    intros a lo hi Ha. done. }
  clear Hr. induction Hm as [|[k req] y reqs analysis Hy Hm IH].
  - split; constructor.
  - unfold OrderSpec.analysis_item in Hy. simpl in Hy.
    destruct (tally k events 0 0) as [[sessions mins]|]; simplify_eq/=.
    apply NoDup_cons in Hnd as [Hk Hnd].
    apply Forall_cons in Hall as [[Hk1 Hk2] Hall].
    destruct (IH Hnd Hall) as [IH1 IH2].
    assert (Hkeys : analysis.*1 = reqs.*1).
    { clear -Hm. induction Hm as [|[k req] y reqs analysis Hy Hm IH]; [done|].
      unfold OrderSpec.analysis_item in Hy. simpl in Hy.
      destruct (tally k events 0 0) as [[sessions mins]|]; simplify_eq/=.
      by rewrite IH. }
    split.
    + simpl. constructor; [by rewrite Hkeys|done].
    + constructor; [|done]. simpl in *. split_and!; [done|done|lia].
Qed.

Lemma activities_to_schedule_entries analysis :
  activities_to_schedule analysis
  ≡ₚ filter (λ x, 0 < sessions_deficit x.2) analysis.
Proof. apply sorted_perm. Qed.

(** *** The slots behind the proposals *)

(** The week that [propose_schedule] plans. *)
Lemma propose_schedule_slots config now events week_start proposals :
  positive_durations py_int config →
  Forall ends_after_start events →
  propose_schedule py_int config now events week_start = Some proposals →
  ∃ available,
    get_available_slots events (planned_week now week_start).1
      (planned_week now week_start).2 default_min_duration = Some available ∧
    StronglySorted apart proposals ∧
    Forall (λ p, p_start p < p_end p ∧
                 ∃ g, g ∈ available ∧ start g ≤ p_start p ∧ p_end p ≤ end_ g)
      proposals.
Proof.
  intros Hpos Hwf Hprop. unfold propose_schedule in Hprop.
  fold (planned_week now week_start) in Hprop.
  destruct (planned_week now week_start) as [ws we]. simpl.
  destruct (analyze_scheduled_vs_required py_int config events ws we)
    as [analysis|] eqn:Han; [simpl in Hprop|done].
  destruct (get_available_slots events ws we default_min_duration)
    as [available|] eqn:Hav; [simpl in Hprop|done].
  destruct (schedule_loop py_int (seq 0 (length available)) available
              (activities_to_schedule analysis))
    as [[ps store']|] eqn:Hloop; [simpl in Hprop|done].
  injection Hprop as <-. exists available. split; [done|].
  unfold get_available_slots in Hav.
  destruct (busy_slots_of events) as [busy|] eqn:Hbusy; [simpl in Hav|done].
  simplify_eq.
  set (available := find_gaps default_min_duration
                      (Py.sorted start Z.ltb busy) ws we) in *.
  assert (Hchr : chronological available).
  { apply find_gaps_chronological.
    rewrite (sorted_perm start Z.ltb busy).
    by eapply busy_slots_of_well_formed. }
  assert (Hne : Forall (λ g, start g < end_ g) available).
  { clear. subst available. generalize (Py.sorted start Z.ltb busy), ws.
    intros l. induction l as [|b l IH]; intros c; simpl.
    - repeat case_decide; repeat constructor; simpl; lia.
    - apply Forall_app. split; [|apply IH].
      repeat case_decide; repeat constructor; simpl; lia. }
  apply analysis_entries in Han as [_ Han].
  assert (Hitems : Forall (λ x, ∀ lo hi,
                             get_duration_range py_int (an_activity x.2)
                             = Some (lo, hi) → 0 < lo)
                     (activities_to_schedule analysis)).
  { rewrite activities_to_schedule_entries.
    apply Forall_forall. intros x [_ Hx]%list_elem_of_filter.
    rewrite Forall_forall in Han. destruct (Han x Hx) as (_ & Hin & _).
    unfold positive_durations in Hpos. rewrite Forall_forall in Hpos.
    by apply Hpos. }
  pose proof (schedule_loop_well_booked available (seq 0 (length available))
                _ Hchr Hitems available []
                ps store') as Hwb.
  destruct Hwb as (Hsh & Htk & Hap); [|exact Hloop|].
  { split_and!; [by apply shrunk_refl|constructor|constructor]. }
  simpl in *. split; [done|].
  eapply Forall_impl; [exact Htk|].
  intros p (i & s0 & s & Hi0 & Hi & Hp1 & Hp2 & Hp3).
  split; [done|]. exists s0. split; [by eapply list_elem_of_lookup_2|].
  destruct (Forall2_lookup_lr _ _ _ _ _ _ Hsh Hi0 Hi) as (? & ? & ?). lia.
Qed.
End proposal_facts.

(** ** What [propose_schedule] guarantees *)

Section proposal_guarantees.
Import Agent AgentSpec BookingSpec ProposalSpec BookedSpec RoundTripSpec.
Variable py_int : string → option Z.

Lemma busy_slots_of_event events busy ev s e :
  busy_slots_of events = Some busy → ev ∈ events →
  ev_start ev = Some s → ev_end ev = Some e →
  ∃ b, b ∈ busy ∧ start b = s ∧ end_ b = e.
Proof.
  revert busy. induction events as [|ev' events IH]; intros busy Hb Hin Hs He.
  - by apply elem_of_nil in Hin.
  - simpl in Hb. apply elem_of_cons in Hin as [<-|Hin].
    + rewrite Hs, He in Hb. simpl in Hb.
      destruct (busy_slots_of events) as [busy'|]; simplify_eq/=.
      eexists. split; [left|done].
    + destruct (ev_start ev') as [s'|].
      * destruct (ev_end ev') as [e'|]; [simpl in Hb|done].
        destruct (busy_slots_of events) as [busy'|]; simplify_eq/=.
        destruct (IH _ eq_refl Hin Hs He) as (b & Hb & ?).
        exists b. split; [by right|done].
      * by apply IH.
Qed.

Lemma apart_lookup proposals i j p q :
  StronglySorted apart proposals → i ≠ j →
  proposals !! i = Some p → proposals !! j = Some q → apart p q.
Proof.
  intros Hs. revert i j.
  induction Hs as [|x l Hl IH Hx]; intros i j Hij Hi Hj.
  - by rewrite lookup_nil in Hi.
  - rewrite Forall_forall in Hx.
    destruct i as [|i], j as [|j]; simpl in *; simplify_eq.
    + apply Hx. by eapply list_elem_of_lookup_2.
    + apply list_elem_of_lookup_2 in Hi. apply Hx in Hi.
      unfold apart in *. tauto.
    + apply (IH i j); [congruence|done|done].
Qed.

(** X6.  When every minimum duration is positive and no event ends
    before it starts, no two proposals share an instant, every proposal
    has a positive length, and no proposal shares an instant with a timed
    event of the calendar. *)
Theorem propose_schedule_no_double_booking config now events week_start
    proposals :
  positive_durations py_int config →
  Forall ends_after_start events →
  propose_schedule py_int config now events week_start = Some proposals →
  (∀ i j p q, i ≠ j → proposals !! i = Some p → proposals !! j = Some q →
              apart p q) ∧
  Forall (λ p, p_start p < p_end p ∧
               ∀ ev, ev ∈ events → clear_of_event ev p) proposals.
Proof.
  intros Hpos Hwf Hprop.
  destruct (propose_schedule_slots py_int config now events week_start
              proposals Hpos Hwf Hprop) as (available & Hav & Hap & Hin).
  split; [intros i j p q; by apply apart_lookup|].
  eapply Forall_impl; [exact Hin|].
  intros p (Hlen & g & Hg & Hg1 & Hg2). split; [done|].
  intros ev Hev s e Hs He.
  unfold get_available_slots in Hav.
  destruct (busy_slots_of events) as [busy|] eqn:Hbusy; simplify_eq/=.
  destruct (busy_slots_of_event _ _ _ _ _ Hbusy Hev Hs He) as (b & Hb & <- & <-).
  pose proof (find_gaps_avoid default_min_duration _
                (planned_week now week_start).1
                (planned_week now week_start).2
                (sort_by_start_sorted busy)) as Ha.
  rewrite Forall_forall in Ha. specialize (Ha g Hg).
  rewrite Forall_forall in Ha.
  rewrite <- (sorted_perm start Z.ltb busy) in Hb. specialize (Ha b Hb).
  unfold overlaps in Ha.
  rewrite andb_false_iff, !bool_decide_eq_false in Ha. lia.
Qed.

(** X7.  When, besides, no timed event starts after the end of the
    planned week, every proposal lies in the planned week. *)
Theorem propose_schedule_within_week config now events week_start proposals :
  positive_durations py_int config →
  Forall ends_after_start events →
  Forall (λ ev, ∀ s, ev_start ev = Some s →
                     s ≤ (planned_week now week_start).2) events →
  propose_schedule py_int config now events week_start = Some proposals →
  Forall (λ p, (planned_week now week_start).1 ≤ p_start p ∧
               p_end p ≤ (planned_week now week_start).2) proposals.
Proof.
  intros Hpos Hwf Hin Hprop.
  destruct (propose_schedule_slots py_int config now events week_start
              proposals Hpos Hwf Hprop) as (available & Hav & _ & Hall).
  eapply Forall_impl; [exact Hall|].
  intros p (_ & g & Hg & Hg1 & Hg2).
  unfold get_available_slots in Hav.
  destruct (busy_slots_of events) as [busy|] eqn:Hbusy; simplify_eq/=.
  pose proof (find_gaps_start default_min_duration
                (Py.sorted start Z.ltb busy) (planned_week now week_start).1
                (planned_week now week_start).2) as H1.
  assert (H2 : Forall (λ b, start b ≤ (planned_week now week_start).2)
                 (Py.sorted start Z.ltb busy)).
  { rewrite (sorted_perm start Z.ltb busy).
    clear -Hin Hbusy. revert busy Hbusy.
    induction Hin as [|ev events Hev Hin IH]; intros busy Hb; simpl in Hb.
    - by simplify_eq.
    - destruct (ev_start ev) as [a|] eqn:Ha; [|by apply IH].
      destruct (ev_end ev) as [b|]; [simpl in Hb|done].
      destruct (busy_slots_of events) as [busy'|]; [simpl in Hb|done].
      simplify_eq. constructor; [by apply Hev|by apply IH]. }
  apply (find_gaps_bounds default_min_duration) with
    (c := (planned_week now week_start).1) in H2.
  rewrite Forall_forall in H1, H2.
  specialize (H1 g Hg). destruct (H2 g Hg) as (_ & ? & _). simpl in *. lia.
Qed.

(** *** The number of proposals *)

Lemma book_sessions_count activity data md refs :
  ∀ store needed,
    let ps := (book_sessions activity data md store refs needed).1 in
    Forall (λ p, p_activity p = activity) ps ∧
    Z.of_nat (length ps) ≤ 0 `max` needed.
Proof.
  induction refs as [|r refs IH]; intros store needed; simpl.
  - split; [constructor|simpl; lia].
  - destruct (decide (needed ≤ 0)); [split; [constructor|simpl; lia]|].
    destruct (decide (md ≤ duration_minutes (deref store r))); [|apply IH].
    match goal with
    | |- context [book_sessions activity data md ?st refs ?n] =>
        destruct (IH st n) as [IH1 IH2];
        destruct (book_sessions activity data md st refs n) as [ps store']
    end.
    simpl in *. split; [by constructor|lia].
Qed.

Lemma proposals_for_app id (ps qs : list ScheduleProposal) :
  proposals_for id (ps ++ qs) = proposals_for id ps + proposals_for id qs.
Proof. unfold proposals_for. rewrite filter_app, length_app. lia. Qed.

Lemma proposals_for_other id activity ps :
  Forall (λ p, p_activity p = activity) ps → a_id activity ≠ id →
  proposals_for id ps = 0.
Proof.
  intros Hall Hne. unfold proposals_for.
  induction Hall as [|p ps Hp Hall IH]; [done|].
  rewrite filter_cons, decide_False by congruence. done.
Qed.

Lemma proposals_for_le id ps : proposals_for id ps ≤ Z.of_nat (length ps).
Proof.
  unfold proposals_for.
  pose proof (length_filter (λ p, a_id (p_activity p) = id) ps). lia.
Qed.

Lemma NoDup_keys_eq {V} (d : list (string * V)) x y :
  NoDup d.*1 → x ∈ d → y ∈ d → x.1 = y.1 → x = y.
Proof.
  induction d as [|z d IH]; intros Hnd Hx Hy Heq.
  - by apply elem_of_nil in Hx.
  - rewrite fmap_cons in Hnd. apply NoDup_cons in Hnd as [Hz Hnd].
    apply elem_of_cons in Hx as [->|Hx]; apply elem_of_cons in Hy as [->|Hy].
    + done.
    + exfalso. apply Hz. rewrite Heq. apply list_elem_of_fmap. by exists y.
    + exfalso. apply Hz. rewrite <- Heq. apply list_elem_of_fmap. by exists x.
    + by apply IH.
Qed.

Lemma schedule_loop_count available items :
  NoDup items.*1 →
  Forall (λ x, x.1 = a_id (an_activity x.2)) items →
  ∀ store proposals store',
    schedule_loop py_int available store items = Some (proposals, store') →
    Forall (λ p, ∃ x, x ∈ items ∧ p_activity p = an_activity x.2) proposals ∧
    ∀ id, (id ∉ items.*1 → proposals_for id proposals = 0) ∧
          (∀ x, x ∈ items → x.1 = id →
                proposals_for id proposals ≤ 0 `max` sessions_deficit x.2).
Proof.
  intros Hnd Hkeys. revert Hnd.
  induction Hkeys as [|item items Hitem Hkeys IH];
    intros Hnd store proposals store' Hloop; simpl in Hloop.
  - simplify_eq. split; [constructor|]. intros id. split; [done|].
    intros x Hx. by apply elem_of_nil in Hx.
  - rewrite fmap_cons in Hnd. apply NoDup_cons in Hnd as [Hfresh Hnd].
    unfold schedule_activity in Hloop.
    destruct (get_duration_range py_int (an_activity item.2))
      as [[lo hi]|]; [simpl in Hloop|done].
    destruct (book_sessions_count (an_activity item.2) item.2 lo
                (slots_to_walk store available (an_activity item.2)) store
                (sessions_deficit item.2)) as [Hact Hlen].
    destruct (book_sessions _ _ _ _ _ _) as [ps store1]. simpl in *.
    destruct (schedule_loop py_int available store1 items)
      as [[more store2]|] eqn:Hrest; [simpl in Hloop|done].
    injection Hloop as <- <-.
    destruct (IH Hnd _ _ _ Hrest) as [IH1 IH2].
    split.
    + apply Forall_app. split.
      * eapply Forall_impl; [exact Hact|]. intros p Hp.
        exists item. split; [left|done].
      * eapply Forall_impl; [exact IH1|]. intros p (x & Hx & Hp).
        exists x. split; [by right|done].
    + intros id. rewrite proposals_for_app. split.
      * rewrite ?fmap_cons, not_elem_of_cons. intros [Hne Hid].
        rewrite (proposals_for_other id _ ps Hact) by congruence.
        destruct (IH2 id) as [-> _]; done.
      * intros x [->|Hx]%elem_of_cons Hid.
        -- destruct (IH2 id) as [H0 _]. rewrite H0 by (subst id; exact Hfresh).
           pose proof (proposals_for_le id ps). lia.
        -- rewrite (proposals_for_other id _ ps Hact).
           ++ destruct (IH2 id) as [_ H2]. specialize (H2 x Hx Hid). lia.
           ++ intros Heq. apply Hfresh. rewrite Hitem, Heq, <- Hid.
              apply list_elem_of_fmap. by exists x.
Qed.

(** The proposals counted by activity id. *)
Lemma propose_schedule_counts config now events week_start
    proposals analysis :
  propose_schedule py_int config now events week_start = Some proposals →
  analyze_scheduled_vs_required py_int config events
    (planned_week now week_start).1 (planned_week now week_start).2
    = Some analysis →
  Forall (λ x, proposals_for x.1 proposals ≤ sessions_deficit x.2) analysis ∧
  Forall (λ p, ∃ x, x ∈ analysis ∧ p_activity p = an_activity x.2
                    ∧ 0 < sessions_deficit x.2) proposals.
Proof.
  intros Hprop Han. unfold propose_schedule in Hprop.
  fold (planned_week now week_start) in Hprop.
  destruct (planned_week now week_start) as [ws we]. simpl in Han.
  rewrite Han in Hprop. simpl in Hprop.
  destruct (get_available_slots events ws we default_min_duration)
    as [available|]; [simpl in Hprop|done].
  destruct (schedule_loop py_int (seq 0 (length available)) available
              (activities_to_schedule analysis))
    as [[ps store']|] eqn:Hloop; [simpl in Hprop|done].
  injection Hprop as <-.
  apply analysis_entries in Han as [Hnd Hall].
  pose proof (activities_to_schedule_entries analysis) as Hperm.
  apply schedule_loop_count in Hloop as [H1 H2].
  - split.
    + apply Forall_forall. intros x Hx.
      rewrite Forall_forall in Hall. destruct (Hall x Hx) as (_ & _ & Hd).
      destruct (decide (0 < sessions_deficit x.2)) as [Hpos|Hzero].
      * destruct (H2 x.1) as [_ H]. 
        assert (Hx' : x ∈ activities_to_schedule analysis).
        { rewrite Hperm. by apply list_elem_of_filter. }
        specialize (H x Hx' eq_refl). lia.
      * destruct (H2 x.1) as [H _]. rewrite H; [lia|].
        rewrite Hperm. intros (y & Hy1 & [Hy2 Hy3]%list_elem_of_filter)%list_elem_of_fmap.
        assert (x = y); [|subst; done].
        symmetry in Hy1. by apply (NoDup_keys_eq analysis).
    + eapply Forall_impl; [exact H1|]. intros p (x & Hx & Hp).
      rewrite Hperm in Hx. apply list_elem_of_filter in Hx as [Hx1 Hx2].
      by exists x.
  - rewrite Hperm. apply (sublist_NoDup _ analysis.*1); [exact Hnd|].
    apply fmap_sublist, sublist_filter.
  - rewrite Hperm. apply Forall_forall.
    intros x [_ Hx]%list_elem_of_filter.
    rewrite Forall_forall in Hall. by destruct (Hall x Hx).
Qed.

(** X8.  [propose_schedule] never proposes more sessions for an activity
    than the analysis of the week finds missing, and it proposes sessions
    only for activities with a deficit. *)
Theorem propose_schedule_never_overbooks config now events week_start
    proposals analysis :
  propose_schedule py_int config now events week_start = Some proposals →
  analyze_scheduled_vs_required py_int config events
    (planned_week now week_start).1 (planned_week now week_start).2
    = Some analysis →
  Forall (λ x, proposals_for x.1 proposals ≤ sessions_deficit x.2) analysis ∧
  Forall (λ p, ∃ x, x ∈ analysis ∧ p_activity p = an_activity x.2
                    ∧ 0 < sessions_deficit x.2) proposals.
Proof. apply propose_schedule_counts. Qed.
End proposal_guarantees.

Section proposal_witnesses.
Import Agent ProposalSpec BookedSpec RoundTripSpec ScheduleExamples
  MoreExamples.

Lemma week_config_positive : positive_durations dec_int week_config.
Proof.
  repeat constructor; intros lo hi H; vm_compute in H;
    injection H as <- _; reflexivity.
Qed.

Lemma busy_week_ends_after_start : Forall ends_after_start busy_week.
Proof.
  repeat constructor; intros a b Ha Hb; simpl in *; simplify_eq;
    vm_compute; discriminate.
Qed.

Lemma propose_schedule_no_double_booking_witness :
  positive_durations dec_int week_config ∧
  Forall ends_after_start busy_week ∧
  propose_schedule dec_int week_config 0 busy_week (Some 0)
    = Some busy_week_proposals ∧
  (∀ i j p q, i ≠ j → busy_week_proposals !! i = Some p →
              busy_week_proposals !! j = Some q → apart p q) ∧
  Forall (λ p, p_start p < p_end p ∧
               ∀ ev, ev ∈ busy_week → clear_of_event ev p) busy_week_proposals.
Proof.
  assert (H1 : positive_durations dec_int week_config)
    by exact week_config_positive.
  assert (H2 : Forall ends_after_start busy_week)
    by exact busy_week_ends_after_start.
  assert (H3 : propose_schedule dec_int week_config 0 busy_week (Some 0)
               = Some busy_week_proposals) by (vm_compute; reflexivity).
  exact (conj H1 (conj H2 (conj H3
           (propose_schedule_no_double_booking dec_int week_config 0 busy_week
              (Some 0) busy_week_proposals H1 H2 H3)))).
Defined.

Lemma propose_schedule_within_week_witness :
  positive_durations dec_int week_config ∧
  Forall ends_after_start busy_week ∧
  Forall (λ ev, ∀ s, ev_start ev = Some s → s ≤ (planned_week 0 (Some 0)).2)
    busy_week ∧
  propose_schedule dec_int week_config 0 busy_week (Some 0)
    = Some busy_week_proposals ∧
  Forall (λ p, (planned_week 0 (Some 0)).1 ≤ p_start p ∧
               p_end p ≤ (planned_week 0 (Some 0)).2) busy_week_proposals.
Proof.
  assert (H1 : positive_durations dec_int week_config)
    by exact week_config_positive.
  assert (H2 : Forall ends_after_start busy_week)
    by exact busy_week_ends_after_start.
  assert (H3 : Forall (λ ev, ∀ s, ev_start ev = Some s
                             → s ≤ (planned_week 0 (Some 0)).2) busy_week).
  { repeat constructor; intros s Hs; simpl in *; simplify_eq;
      vm_compute; discriminate. }
  assert (H4 : propose_schedule dec_int week_config 0 busy_week (Some 0)
               = Some busy_week_proposals) by (vm_compute; reflexivity).
  exact (conj H1 (conj H2 (conj H3 (conj H4
           (propose_schedule_within_week dec_int week_config 0 busy_week
              (Some 0) busy_week_proposals H1 H2 H3 H4))))).
Defined.

(** Where an event starts after the week, the free time before it runs
    past the end of the week, and so can a proposal: here exercise is
    proposed from 23:50 on the last day to 00:35 on the day after. *)
Example proposal_past_the_week :
  (λ p, (a_id (p_activity p), p_start p, p_end p))
    <$> take 1 (default []
                  (propose_schedule dec_int week_config 0 overrun_week (Some 0)))
  = [("exercise", PyTime.mk_datetime 6 23 50, PyTime.mk_datetime 7 0 35)].
Proof. vm_compute. reflexivity. Qed.

Lemma propose_schedule_never_overbooks_witness :
  propose_schedule dec_int week_config 0 busy_week (Some 0)
    = Some busy_week_proposals ∧
  analyze_scheduled_vs_required dec_int week_config busy_week
    (planned_week 0 (Some 0)).1 (planned_week 0 (Some 0)).2
    = Some busy_week_analysis ∧
  Forall (λ x, proposals_for x.1 busy_week_proposals ≤ sessions_deficit x.2)
    busy_week_analysis ∧
  Forall (λ p, ∃ x, x ∈ busy_week_analysis ∧ p_activity p = an_activity x.2
                    ∧ 0 < sessions_deficit x.2) busy_week_proposals.
Proof.
  assert (H1 : propose_schedule dec_int week_config 0 busy_week (Some 0)
               = Some busy_week_proposals) by (vm_compute; reflexivity).
  assert (H2 : analyze_scheduled_vs_required dec_int week_config busy_week
                 (planned_week 0 (Some 0)).1 (planned_week 0 (Some 0)).2
               = Some busy_week_analysis) by (vm_compute; reflexivity).
  exact (conj H1 (conj H2
           (propose_schedule_never_overbooks dec_int week_config 0 busy_week
              (Some 0) busy_week_proposals busy_week_analysis H1 H2))).
Defined.
End proposal_witnesses.

(** ** When the analysis and the proposal raise *)

Section defined_facts.
Import Agent OrderSpec BookedSpec.
Variable py_int : string → option Z.

Lemma tally_defined activity_id events s m :
  is_Some (tally activity_id events s m) ↔
  Forall (λ ev, ev_activity_id ev = Some activity_id →
                is_Some (ev_start ev) ∧ is_Some (ev_end ev)) events.
Proof.
  revert s m. induction events as [|ev events IH]; intros s m; simpl.
  - split; [constructor|by eexists].
  - rewrite Forall_cons. case_decide as Hid.
    + destruct (ev_start ev) as [a|]; simpl.
      * destruct (ev_end ev) as [b|]; simpl.
        -- rewrite IH. split; [|tauto].
           intros H. split; [|done]. intros _. split; by eexists.
        -- split; [by intros [? ?]|]. intros [H _].
           destruct (H Hid) as [_ [? ?]]. done.
      * split; [by intros [? ?]|]. intros [H _].
        destruct (H Hid) as [[? ?] _]. done.
    + rewrite IH. tauto.
Qed.

Lemma requirements_loop_defined config acts acc :
  is_Some (requirements_loop py_int config acts acc) ↔
  Forall (λ a, is_Some (get_frequency_range py_int a)
               ∧ is_Some (get_duration_range py_int a)) acts.
Proof.
  revert acc. induction acts as [|a acts IH]; intros acc; simpl.
  - split; [constructor|by eexists].
  - rewrite Forall_cons.
    destruct (get_frequency_range py_int a) as [[min_freq max_freq]|]; simpl.
    + destruct (get_duration_range py_int a) as [[min_dur max_dur]|]; simpl.
      * rewrite IH. split; [|tauto]. intros H. split; [|done].
        split; by eexists.
      * split; [by intros [? ?]|]. by intros [[_ [? ?]] _].
    + split; [by intros [? ?]|]. by intros [[[? ?] _] _].
Qed.

Lemma requirements_loop_keys config acts acc reqs k :
  requirements_loop py_int config acts acc = Some reqs →
  k ∈ reqs.*1 ↔ k ∈ acc.*1 ∨ k ∈ a_id <$> acts.
Proof.
  revert acc. induction acts as [|a acts IH]; intros acc Hloop;
    simpl in Hloop.
  - simplify_eq. rewrite fmap_nil, elem_of_nil. tauto.
  - destruct (get_frequency_range py_int a) as [[min_freq max_freq]|];
      [simpl in Hloop|done].
    destruct (get_duration_range py_int a) as [[min_dur max_dur]|];
      [simpl in Hloop|done].
    rewrite (IH _ Hloop), dict_set_keys, fmap_cons, elem_of_cons.
    case_decide as Hin.
    + split; [tauto|]. intros [H|[->|H]]; tauto.
    + rewrite elem_of_app, list_elem_of_singleton. tauto.
Qed.

Lemma analysis_is_Some config events week_start week_end :
  is_Some (analyze_scheduled_vs_required py_int config events week_start
             week_end) ↔
  Forall (λ a, is_Some (get_frequency_range py_int a)
               ∧ is_Some (get_duration_range py_int a)) (activities config) ∧
  Forall (λ ev, ∀ a, a ∈ activities config →
                     ev_activity_id ev = Some (a_id a) →
                     is_Some (ev_start ev) ∧ is_Some (ev_end ev)) events.
Proof.
  rewrite analyze_mapM. unfold calculate_weekly_requirements.
  rewrite <- (requirements_loop_defined config (activities config) []).
  destruct (requirements_loop py_int config (activities config) [])
    as [reqs|] eqn:Hr; simpl.
  - rewrite mapM_is_Some.
    assert (Hkeys : ∀ k, k ∈ reqs.*1 ↔ k ∈ a_id <$> activities config).
    { intros k. rewrite (requirements_loop_keys _ _ _ _ k Hr).
      rewrite fmap_nil, elem_of_nil. tauto. }
    rewrite !Forall_forall. split.
    + intros H. split; [by eexists|]. intros ev Hev a Ha Htag.
      assert (Hk : a_id a ∈ reqs.*1).
      { apply Hkeys, list_elem_of_fmap. by exists a. }
      apply list_elem_of_fmap in Hk as ([k req] & Hk & Hin). simpl in Hk.
      specialize (H _ Hin). unfold compose, analysis_item in H. simpl in H.
      assert (Ht : is_Some (tally k events 0 0)).
      { destruct (tally k events 0 0); [by eexists|]. by destruct H. }
      rewrite tally_defined, Forall_forall in Ht.
      apply (Ht ev Hev). by rewrite <- Hk.
    + intros [_ H] [k req] Hin. unfold compose, analysis_item. simpl.
      assert (Ht : is_Some (tally k events 0 0)).
      { rewrite tally_defined, Forall_forall. intros ev Hev Htag.
        assert (Hk : k ∈ a_id <$> activities config).
        { apply Hkeys, list_elem_of_fmap. by exists (k, req). }
        apply list_elem_of_fmap in Hk as (a & -> & Ha).
        by apply (H ev Hev a). }
      destruct Ht as [[s m] ->]. by eexists.
  - split; [by intros [? ?]|]. by intros [[? ?] _].
Qed.

(** X9.  The analysis of the week is computed exactly when the frequency
    and the duration of every activity parse and every event tagged with
    the id of an activity of the configuration has a start and an end
    time; else it raises. *)
Theorem analysis_defined config events week_start week_end :
  is_Some (analyze_scheduled_vs_required py_int config events week_start
             week_end) ↔
  Forall (λ a, is_Some (get_frequency_range py_int a)
               ∧ is_Some (get_duration_range py_int a)) (activities config) ∧
  Forall (λ ev, ∀ a, a ∈ activities config →
                     ev_activity_id ev = Some (a_id a) →
                     is_Some (ev_start ev) ∧ is_Some (ev_end ev)) events.
Proof. apply analysis_is_Some. Qed.

Lemma schedule_loop_defined available items :
  Forall (λ x, is_Some (get_duration_range py_int (an_activity x.2))) items →
  ∀ store, is_Some (schedule_loop py_int available store items).
Proof.
  induction 1 as [|item items [[lo hi] Hd] Hitems IH]; intros store; simpl.
  - by eexists.
  - unfold schedule_activity. rewrite Hd. simpl.
    destruct (book_sessions _ _ _ _ _ _) as [ps store1]. simpl.
    destruct (IH store1) as [[more store2] ->]. by eexists.
Qed.

(** X10.  When [propose_schedule] returns proposals, the frequency and
    the duration of every activity parse, every event with a start time
    has an end time, and every event tagged with the id of an activity of
    the configuration has both; the proposals are those of the walk over
    the free slots of the planned week, for the analysis of the events. *)
Theorem propose_schedule_result_requires config now events week_start
    proposals :
  propose_schedule py_int config now events week_start = Some proposals →
  Forall (λ a, is_Some (get_frequency_range py_int a)
               ∧ is_Some (get_duration_range py_int a)) (activities config) ∧
  Forall (λ ev, (is_Some (ev_start ev) → is_Some (ev_end ev)) ∧
                ∀ a, a ∈ activities config →
                     ev_activity_id ev = Some (a_id a) →
                     is_Some (ev_start ev) ∧ is_Some (ev_end ev)) events ∧
  ∃ analysis available store,
    analyze_scheduled_vs_required py_int config events
      (planned_week now week_start).1 (planned_week now week_start).2
      = Some analysis ∧
    get_available_slots events (planned_week now week_start).1
      (planned_week now week_start).2 default_min_duration = Some available ∧
    schedule_loop py_int (seq 0 (length available)) available
      (activities_to_schedule analysis) = Some (proposals, store).
Proof.
  intros Hprop. unfold propose_schedule in Hprop.
  fold (planned_week now week_start) in Hprop.
  destruct (planned_week now week_start) as [ws we]. simpl.
  pose proof (analysis_is_Some config events ws we) as Han.
  destruct (analyze_scheduled_vs_required py_int config events ws we)
    as [analysis|]; [simpl in Hprop|done].
  destruct Han as [[Hacts Hev] _]; [by eexists|].
  pose proof (busy_slots_of_total events) as Hbt.
  destruct (get_available_slots events ws we default_min_duration)
    as [available|] eqn:Hav; [simpl in Hprop|done].
  destruct (schedule_loop py_int (seq 0 (length available)) available
              (activities_to_schedule analysis))
    as [[ps store]|] eqn:Hloop; [simpl in Hprop|done].
  injection Hprop as <-.
  split; [done|]. split.
  - assert (Hbusy : is_Some (busy_slots_of events)).
    { unfold get_available_slots in Hav.
      destruct (busy_slots_of events); [by eexists|done]. }
    apply Hbt in Hbusy.
    rewrite Forall_forall in Hbusy. rewrite Forall_forall in Hev.
    apply Forall_forall. intros ev Hin. split; [by apply Hbusy|by apply Hev].
  - by exists analysis, available, store.
Qed.
End defined_facts.

(** ** Ranges in the configuration *)

Section range_facts.
Import RangeSpec.

Lemma split_no_char c s : Py.has_char c s = false → Py.split c s = [s].
Proof.
  induction s as [|c' s IH]; simpl; [done|].
  case_decide; [done|]. intros Hs. by rewrite IH.
Qed.

Lemma split_app c a b :
  Py.has_char c a = false →
  Py.split c (a +:+ String c b) = a :: Py.split c b.
Proof.
  induction a as [|c' a IH]; simpl.
  - intros _. by rewrite decide_True.
  - case_decide; [done|]. intros Ha. by rewrite IH.
Qed.

Lemma has_char_app c a b :
  Py.has_char c (a +:+ b) = Py.has_char c a || Py.has_char c b.
Proof.
  induction a as [|c' a IH]; simpl; [done|]. by case_decide.
Qed.

Lemma digits_no_hyphen d :
  Py.has_char "-" (NilEmpty.string_of_uint d) = false.
Proof. induction d; simpl; try done. Qed.

Lemma str_of_int_no_hyphen n :
  0 ≤ n → Py.has_char "-" (Py.str_of_int n) = false.
Proof.
  intros Hn. unfold Py.str_of_int.
  destruct n as [|p|p]; [done| |lia].
  simpl. unfold NilZero.string_of_uint.
  destruct (Pos.to_uint p); try done; apply digits_no_hyphen.
Qed.

Lemma range_text_parts lo hi :
  0 ≤ lo → 0 ≤ hi →
  Py.has_char "-" (range_text lo hi) = true ∧
  Py.split "-" (range_text lo hi) = [Py.str_of_int lo; Py.str_of_int hi].
Proof.
  intros Hlo Hhi. unfold range_text. split.
  - rewrite has_char_app. simpl. apply orb_true_r.
  - change ("-" +:+ Py.str_of_int hi) with (String "-" (Py.str_of_int hi)).
    rewrite split_app by by apply str_of_int_no_hyphen.
    by rewrite split_no_char by by apply str_of_int_no_hyphen.
Qed.

Lemma range_text_not_word lo hi w :
  Py.has_char "-" w = false → 0 ≤ lo → 0 ≤ hi → range_text lo hi ≠ w.
Proof.
  intros Hw Hlo Hhi Heq.
  destruct (range_text_parts lo hi Hlo Hhi) as [H _]. congruence.
Qed.

(** X11.  A range written as two numbers with a hyphen between them is
    read back as these two numbers, as a duration and as a frequency. *)
Theorem ranges_read_back py_int (a : Agent.Activity) lo hi lo' hi' :
  Forall (reads_back py_int) [lo; hi; lo'; hi'] →
  Agent.a_duration a = Agent.PyStr (range_text lo hi) →
  Agent.a_frequency a = Agent.PyStr (range_text lo' hi') →
  Agent.get_duration_range py_int a = Some (lo, hi) ∧
  Agent.get_frequency_range py_int a = Some (lo', hi').
Proof.
  intros Hall Hd Hf.
  apply Forall_cons in Hall as [[? Hlo] Hall].
  apply Forall_cons in Hall as [[? Hhi] Hall].
  apply Forall_cons in Hall as [[? Hlo'] Hall].
  apply Forall_cons in Hall as [[? Hhi'] _].
  unfold Agent.get_duration_range, Agent.get_frequency_range.
  rewrite Hd, Hf.
  destruct (range_text_parts lo hi) as [-> ->]; [done|done|].
  destruct (range_text_parts lo' hi') as [-> ->]; [done|done|].
  rewrite decide_False by by apply range_text_not_word.
  rewrite decide_False by by apply range_text_not_word.
  simpl. rewrite Hlo, Hhi, Hlo', Hhi'. done.
Qed.

Lemma ranges_read_back_witness :
  Forall (reads_back dec_int) [90; 180; 3; 4] ∧
  Agent.a_duration MoreExamples.studio = Agent.PyStr (range_text 90 180) ∧
  Agent.a_frequency MoreExamples.studio = Agent.PyStr (range_text 3 4) ∧
  Agent.get_duration_range dec_int MoreExamples.studio = Some (90, 180) ∧
  Agent.get_frequency_range dec_int MoreExamples.studio = Some (3, 4).
Proof.
  assert (H1 : Forall (reads_back dec_int) [90; 180; 3; 4]).
  { repeat apply Forall_cons_2; try apply Forall_nil_2;
      (split; [lia|vm_compute; reflexivity]). }
  assert (H2 : Agent.a_duration MoreExamples.studio
               = Agent.PyStr (range_text 90 180)) by reflexivity.
  assert (H3 : Agent.a_frequency MoreExamples.studio
               = Agent.PyStr (range_text 3 4)) by reflexivity.
  exact (conj H1 (conj H2 (conj H3
           (ranges_read_back dec_int MoreExamples.studio 90 180 3 4
              H1 H2 H3)))).
Defined.

(** X12.  In the [apps] variant the same range gives its lower bound as
    the minimum duration and its upper bound as the maximum duration, and
    a range of frequencies gives its lower bound as the weekly target. *)
Theorem apps_ranges_read_back py_int (a : Apps.Activity) lo hi lo' hi' :
  Forall (reads_back py_int) [lo; hi; lo'; hi'] →
  Apps.a_duration a = Apps.PyStr (range_text lo hi) →
  Apps.a_frequency a = Apps.PyStr (range_text lo' hi') →
  Apps.min_duration py_int a = Some lo ∧
  Apps.max_duration py_int a = Some hi ∧
  Apps.weekly_target py_int a = Some lo'.
Proof.
  intros Hall Hd Hf.
  apply Forall_cons in Hall as [[? Hlo] Hall].
  apply Forall_cons in Hall as [[? Hhi] Hall].
  apply Forall_cons in Hall as [[? Hlo'] Hall].
  apply Forall_cons in Hall as [[? Hhi'] _].
  unfold Apps.min_duration, Apps.max_duration, Apps.weekly_target.
  rewrite Hd, Hf.
  destruct (range_text_parts lo hi) as [-> ->]; [done|done|].
  destruct (range_text_parts lo' hi') as [-> ->]; [done|done|].
  rewrite decide_False by by apply range_text_not_word.
  rewrite decide_False by by apply range_text_not_word.
  simpl. rewrite Hlo, Hhi, Hlo'. done.
Qed.

Lemma apps_ranges_read_back_witness :
  Forall (reads_back dec_int) [90; 180; 3; 4] ∧
  Apps.a_duration MoreAppsExamples.studio = Apps.PyStr (range_text 90 180) ∧
  Apps.a_frequency MoreAppsExamples.studio = Apps.PyStr (range_text 3 4) ∧
  Apps.min_duration dec_int MoreAppsExamples.studio = Some 90 ∧
  Apps.max_duration dec_int MoreAppsExamples.studio = Some 180 ∧
  Apps.weekly_target dec_int MoreAppsExamples.studio = Some 3.
Proof.
  assert (H1 : Forall (reads_back dec_int) [90; 180; 3; 4]).
  { repeat apply Forall_cons_2; try apply Forall_nil_2;
      (split; [lia|vm_compute; reflexivity]). }
  assert (H2 : Apps.a_duration MoreAppsExamples.studio
               = Apps.PyStr (range_text 90 180)) by reflexivity.
  assert (H3 : Apps.a_frequency MoreAppsExamples.studio
               = Apps.PyStr (range_text 3 4)) by reflexivity.
  exact (conj H1 (conj H2 (conj H3
           (apps_ranges_read_back dec_int MoreAppsExamples.studio 90 180 3 4
              H1 H2 H3)))).
Defined.
End range_facts.

(** ** Looking up activities *)

Section lookup_facts.
Import Agent.
Variable py_int : string → option Z.

Lemma filter_none {A} (P : A → Prop) `{!∀ x, Decision (P x)} (l : list A) :
  Forall (λ x, ¬ P x) l → filter P l = [].
Proof.
  induction 1 as [|x l Hx Hl IH]; [done|].
  by rewrite filter_cons, decide_False.
Qed.

Lemma first_with_id_head acts activity_id :
  AgentMore.first_with_id acts activity_id
  = head (filter (λ a, a_id a = activity_id) acts).
Proof.
  induction acts as [|a acts IH]; simpl; [done|].
  rewrite filter_cons. by case_decide.
Qed.

Lemma dict_get_set {V} k k' (v : V) d :
  Py.dict_get k (Py.dict_set k' v d)
  = if decide (k' = k) then Some v else Py.dict_get k d.
Proof.
  induction d as [|[k0 v0] d IH]; simpl.
  - done.
  - destruct (decide (k0 = k')) as [->|Hne]; simpl.
    + by case_decide.
    + rewrite IH. destruct (decide (k0 = k)) as [->|Hne'].
      * by rewrite decide_False by congruence.
      * done.
Qed.

Lemma requirements_loop_last config acts acc reqs k :
  requirements_loop py_int config acts acc = Some reqs →
  r_activity <$> Py.dict_get k reqs
  = match last (filter (λ a, a_id a = k) acts) with
    | Some a => Some a
    | None => r_activity <$> Py.dict_get k acc
    end.
Proof.
  revert acc. induction acts as [|a acts IH]; intros acc Hloop;
    simpl in Hloop.
  - by simplify_eq.
  - destruct (get_frequency_range py_int a) as [[min_freq max_freq]|];
      [simpl in Hloop|done].
    destruct (get_duration_range py_int a) as [[min_dur max_dur]|];
      [simpl in Hloop|done].
    rewrite (IH _ Hloop), dict_get_set, filter_cons.
    destruct (decide (a_id a = k)) as [Hk|Hk].
    + rewrite last_cons. by destruct (last _).
    + done.
Qed.

(** X13.  [get_activity_by_id] returns the first activity of the
    configuration with the id, and nothing when no activity has it,
    whereas the requirements, and with them the analysis and the
    proposals, hold for an id the last activity with it: the two agree
    when the ids of the activities are distinct. *)
Theorem activity_by_id_first_and_last config reqs k :
  calculate_weekly_requirements py_int config = Some reqs →
  AgentMore.get_activity_by_id config k
    = head (filter (λ a, a_id a = k) (activities config)) ∧
  r_activity <$> Py.dict_get k reqs
    = last (filter (λ a, a_id a = k) (activities config)) ∧
  (AgentMore.get_activity_by_id config k = None
   ↔ k ∉ a_id <$> activities config) ∧
  (NoDup (a_id <$> activities config) →
   r_activity <$> Py.dict_get k reqs = AgentMore.get_activity_by_id config k).
Proof.
  intros Hr.
  assert (H1 : AgentMore.get_activity_by_id config k
               = head (filter (λ a, a_id a = k) (activities config)))
    by apply first_with_id_head.
  assert (H2 : r_activity <$> Py.dict_get k reqs
               = last (filter (λ a, a_id a = k) (activities config))).
  { rewrite (requirements_loop_last config _ [] reqs k Hr).
    by destruct (last _). }
  split_and!; [done|done| |].
  - rewrite H1. rewrite head_None. split.
    + intros Hnil (a & -> & Ha)%list_elem_of_fmap.
      assert (Hin : a ∈ filter (λ a', a_id a' = a_id a) (activities config))
        by by apply list_elem_of_filter.
      rewrite Hnil in Hin. by apply elem_of_nil in Hin.
    + intros Hk. apply filter_none, Forall_forall. intros a Ha <-.
      apply Hk, list_elem_of_fmap. by exists a.
  - intros Hnd. rewrite H1, H2.
    generalize (activities config) Hnd. clear. intros acts.
    induction acts as [|a acts IH]; intros Hnd; [done|].
    rewrite fmap_cons in Hnd. apply NoDup_cons in Hnd as [Ha Hnd].
    rewrite filter_cons. case_decide as Hk; [|by apply IH].
    assert (Hnil : filter (λ a', a_id a' = k) acts = []).
    { apply filter_none, Forall_forall. intros a' Ha' Hk'.
      apply Ha, list_elem_of_fmap. exists a'. split; [congruence|done]. }
    by rewrite Hnil.
Qed.
End lookup_facts.

Section lookup_witnesses.
Import Agent ScheduleExamples MoreExamples.

Lemma activity_by_id_first_and_last_witness :
  let reqs := default [] (calculate_weekly_requirements dec_int week_config) in
  calculate_weekly_requirements dec_int week_config = Some reqs ∧
  AgentMore.get_activity_by_id week_config "exercise"
    = head (filter (λ a, a_id a = "exercise") (activities week_config)) ∧
  r_activity <$> Py.dict_get "exercise" reqs
    = last (filter (λ a, a_id a = "exercise") (activities week_config)) ∧
  (AgentMore.get_activity_by_id week_config "exercise" = None
   ↔ "exercise" ∉ a_id <$> activities week_config) ∧
  (NoDup (a_id <$> activities week_config) →
   r_activity <$> Py.dict_get "exercise" reqs
   = AgentMore.get_activity_by_id week_config "exercise").
Proof.
  assert (H1 : calculate_weekly_requirements dec_int week_config
               = Some (default [] (calculate_weekly_requirements dec_int
                                     week_config)))
    by (vm_compute; reflexivity).
  exact (conj H1
           (activity_by_id_first_and_last dec_int week_config _ "exercise" H1)).
Defined.

(** With two activities under the id [chess], the lookup gives the first
    and the requirements are those of the second. *)
Example twin_ids_disagree :
  a_name <$> AgentMore.get_activity_by_id twin_config "chess" = Some "Chess" ∧
  (a_name ∘ r_activity <$>
     (calculate_weekly_requirements dec_int twin_config
        ≫= Py.dict_get "chess")) = Some "Blitz".
Proof. split; vm_compute; reflexivity. Qed.
End lookup_witnesses.

(** ** Slots for one activity, and the work hours *)

Section find_slot_facts.
Import Agent AgentSpec FilterSpec AgentMore.
Variable py_int : string → option Z.

Lemma filter_slots_by_preference_elem {R} (deref : R → TimeSlot) slots
    time_preference day_preference r :
  r ∈ filter_slots_by_preference deref slots time_preference day_preference
  ↔ r ∈ slots ∧ retains time_preference day_preference (deref r).
Proof.
  unfold filter_slots_by_preference.
  destruct time_preference as [tp|], day_preference as [dp|];
    rewrite ?list_elem_of_In, ?filter_In, <- ?list_elem_of_In,
      ?keeps_slot_retains; try done.
  unfold retains. intuition.
Qed.

(** X14.  The slots found for an activity are free slots of the days
    searched, in their order, each long enough for the shortest session of
    the activity.  None is found exactly when no free slot is that long.
    When one of the long enough slots meets the preferences of the
    activity, only such slots are returned; else all the long enough slots
    are. *)
Theorem find_slot_for_activity_suitable now activity events target_date
    search_days slots :
  find_slot_for_activity py_int now activity events target_date search_days
    = Some slots →
  let day_start := PyTime.at_midnight (default now target_date) in
  let meets := retains (a_time_preference activity) (a_days_preference activity) in
  ∃ available min_dur max_dur,
    get_available_slots events day_start
      (day_start + PyTime.days search_days) default_min_duration
      = Some available ∧
    get_duration_range py_int activity = Some (min_dur, max_dur) ∧
    sublist slots available ∧
    Forall (λ s, min_dur ≤ duration_minutes s) slots ∧
    (slots = [] ↔ Forall (λ s, duration_minutes s < min_dur) available) ∧
    (Forall meets slots
     ∨ (slots = filter (λ s, min_dur ≤ duration_minutes s) available
        ∧ Forall (λ s, ¬ meets s) slots)).
Proof.
  intros Hfind day_start meets. unfold find_slot_for_activity in Hfind.
  fold day_start in Hfind.
  destruct (get_available_slots events day_start _ default_min_duration)
    as [available|]; [simpl in Hfind|done].
  destruct (get_duration_range py_int activity) as [[min_dur max_dur]|];
    [simpl in Hfind|done].
  exists available, min_dur, max_dur. split; [done|]. split; [done|].
  set (suitable := filter (λ s, min_dur ≤ duration_minutes s) available) in *.
  pose proof (filter_slots_by_preference_elem id suitable
                (a_time_preference activity) (a_days_preference activity))
    as Helem.
  pose proof (filter_slots_by_preference_sublist id suitable
                (a_time_preference activity) (a_days_preference activity))
    as Hsub.
  assert (Hsuit : ∀ s, s ∈ suitable ↔ s ∈ available ∧ min_dur ≤ duration_minutes s).
  { intros s. unfold suitable. rewrite list_elem_of_filter. tauto. }
  assert (Hempty : suitable = []
                   ↔ Forall (λ s, duration_minutes s < min_dur) available).
  { rewrite Forall_forall. split.
    - intros Hnil s Hs. destruct (decide (min_dur ≤ duration_minutes s)); [|lia].
      assert (s ∈ suitable) by by apply Hsuit.
      rewrite Hnil in *. by apply elem_of_nil in H.
    - intros Hshort. apply filter_none, Forall_forall. intros s Hs.
      specialize (Hshort s Hs). lia. }
  destruct (filter_slots_by_preference id suitable _ _) as [|p ps] eqn:Hpref;
    injection Hfind as <-.
  - split_and!.
    + apply sublist_filter.
    + apply Forall_forall. intros s Hs. by apply Hsuit in Hs as [_ ?].
    + done.
    + right. split; [done|]. apply Forall_forall. intros s Hs Hm.
      assert (Hin : s ∈ []) by by apply Helem. by apply elem_of_nil in Hin.
  - split_and!.
    + etrans; [exact Hsub|]. apply sublist_filter.
    + apply Forall_forall. intros s Hs.
      apply Helem in Hs as [Hs _]. by apply Hsuit in Hs as [_ ?].
    + split; [done|]. intros Hshort. apply Hempty in Hshort.
      rewrite Hshort in Hsub. by apply sublist_nil_r in Hsub.
    + left. apply Forall_forall. intros s Hs. by apply Helem in Hs as [_ ?].
Qed.

(** *** The work hours *)

Lemma replace_time_on_the_day date h m t :
  replace_time date h m = Some t →
  PyTime.at_midnight t = PyTime.at_midnight date ∧ PyTime.hour t = h ∧
  PyTime.day_name t = PyTime.day_name date.
Proof.
  unfold replace_time. intros Ht.
  destruct (bool_decide (0 ≤ h < 24)) eqn:Hh; [simpl in Ht|done].
  destruct (bool_decide (0 ≤ m < 60)) eqn:Hm; [simpl in Ht|done].
  apply bool_decide_eq_true in Hh, Hm. injection Ht as <-.
  assert (H1 : PyTime.at_midnight
                 (PyTime.at_midnight date + h * PyTime.us_per_hour
                  + m * PyTime.us_per_minute) = PyTime.at_midnight date).
  { unfold PyTime.at_midnight, PyTime.us_per_day, PyTime.us_per_hour,
      PyTime.us_per_minute. Z.div_mod_to_equations. lia. }
  split; [done|]. split.
  - unfold PyTime.hour, PyTime.at_midnight, PyTime.us_per_day,
      PyTime.us_per_hour, PyTime.us_per_minute.
    Z.div_mod_to_equations. lia.
  - unfold PyTime.day_name, PyTime.weekday. f_equal. f_equal. f_equal.
    revert H1. unfold PyTime.at_midnight, PyTime.us_per_day,
      PyTime.us_per_hour, PyTime.us_per_minute.
    Z.div_mod_to_equations. lia.
Qed.

(** X15.  [get_work_hours] returns [None] exactly on the days that are
    not work days, whatever the times of the template.  On a work day the
    two timestamps returned lie on the calendar day of the date given, at
    the hours that the template names. *)
Theorem get_work_hours_on_the_day work date :
  (get_work_hours py_int work date = Some None
   ↔ PyTime.day_name date ∉ w_days work) ∧
  ∀ work_start work_end,
    get_work_hours py_int work date = Some (Some (work_start, work_end)) →
    PyTime.day_name date ∈ w_days work ∧
    PyTime.at_midnight work_start = PyTime.at_midnight date ∧
    PyTime.at_midnight work_end = PyTime.at_midnight date ∧
    fst <$> parse_time_of_day py_int (w_start work)
      = Some (PyTime.hour work_start) ∧
    fst <$> parse_time_of_day py_int (w_end work)
      = Some (PyTime.hour work_end).
Proof.
  unfold get_work_hours. split.
  - destruct (decide (PyTime.day_name date ∉ w_days work)) as [Hd|Hd];
      [done|].
    split; [|done]. intros H.
    destruct (parse_time_of_day py_int (w_start work)) as [[sh sm]|];
      [simpl in H|done].
    destruct (parse_time_of_day py_int (w_end work)) as [[eh em]|];
      [simpl in H|done].
    destruct (replace_time date sh sm); [simpl in H|done].
    destruct (replace_time date eh em); [simpl in H|done]. done.
  - intros work_start work_end H.
    destruct (decide (PyTime.day_name date ∉ w_days work)) as [Hd|Hd];
      [done|].
    destruct (parse_time_of_day py_int (w_start work)) as [[sh sm]|];
      [simpl in H|done].
    destruct (parse_time_of_day py_int (w_end work)) as [[eh em]|];
      [simpl in H|done].
    destruct (replace_time date sh sm) as [s|] eqn:Hs; [simpl in H|done].
    destruct (replace_time date eh em) as [e|] eqn:He; [simpl in H|done].
    simplify_eq.
    apply replace_time_on_the_day in Hs as (Hs1 & Hs2 & _).
    apply replace_time_on_the_day in He as (He1 & He2 & _).
    split_and!; [by apply dec_stable|done|done|simpl; congruence
                |simpl; congruence].
Qed.
End find_slot_facts.

Section find_slot_witnesses.
Import Agent AgentSpec FilterSpec AgentMore ScheduleExamples MoreExamples.

Lemma find_slot_for_activity_suitable_witness :
  let day_start := PyTime.at_midnight (default 0 None) in
  let meets := retains (a_time_preference exercise) (a_days_preference exercise) in
  find_slot_for_activity dec_int 0 exercise busy_week None default_search_days
    = Some exercise_slots ∧
  ∃ available min_dur max_dur,
    get_available_slots busy_week day_start
      (day_start + PyTime.days default_search_days) default_min_duration
      = Some available ∧
    get_duration_range dec_int exercise = Some (min_dur, max_dur) ∧
    sublist exercise_slots available ∧
    Forall (λ s, min_dur ≤ duration_minutes s) exercise_slots ∧
    (exercise_slots = []
     ↔ Forall (λ s, duration_minutes s < min_dur) available) ∧
    (Forall meets exercise_slots
     ∨ (exercise_slots = filter (λ s, min_dur ≤ duration_minutes s) available
        ∧ Forall (λ s, ¬ meets s) exercise_slots)).
Proof.
  assert (H1 : find_slot_for_activity dec_int 0 exercise busy_week None
                 default_search_days = Some exercise_slots)
    by (vm_compute; reflexivity).
  exact (conj H1
           (find_slot_for_activity_suitable dec_int 0 exercise busy_week None
              default_search_days exercise_slots H1)).
Defined.

(** The free slots of the busy week for exercise, which prefers the
    morning: the slot that starts at midnight is left out, and the slots
    that start at 10:00 and at 07:45 are returned whole. *)
Example exercise_slots_found :
  (λ s, (start s, end_ s)) <$> exercise_slots
  = [(PyTime.mk_datetime 0 10 0, PyTime.mk_datetime 1 7 0);
     (PyTime.mk_datetime 1 7 45, PyTime.days 7)].
Proof. vm_compute. reflexivity. Qed.

(** A night shift: the end returned is before the start. *)
Example night_shift_hours :
  get_work_hours dec_int night_shift 0
  = Some (Some (PyTime.mk_datetime 0 22 0, PyTime.mk_datetime 0 6 0)).
Proof. vm_compute. reflexivity. Qed.
End find_slot_witnesses.

(** * Further properties of the [apps/life-os-agent] variant *)

Section apps_filter_facts.
Import Apps AppsFilterSpec.

Lemma partition_slots_filter activity slots preferred other :
  partition_slots activity slots preferred other
  = (preferred ++ filter (λ s, day_matches activity s
                               ∧ in_preferred_time activity s) slots,
     other ++ filter (λ s, day_matches activity s
                           ∧ ¬ in_preferred_time activity s) slots).
Proof.
  revert preferred other.
  induction slots as [|slot slots IH]; intros preferred other; simpl.
  - by rewrite !filter_nil, !app_nil_r.
  - rewrite !filter_cons.
    destruct (TIME_RANGES (a_time_preference activity)) as [lo hi] eqn:Hr.
    assert (Hday : days_preference_truthy activity
                   && negb (bool_decide
                              (day slot ∈ (Some <$> default []
                                             (a_days_preference activity))))
                   = false ↔ day_matches activity slot).
    { unfold day_matches, days_preference_truthy.
      destruct (a_days_preference activity) as [[|d dl]|]; simpl.
      - split; auto.
      - case_bool_decide; simpl; intuition congruence.
      - split; auto. }
    assert (Htime : in_preferred_time activity slot
                    ↔ lo ≤ time_of (start slot) < hi
                      ∨ a_time_preference activity = FLEXIBLE).
    { unfold in_preferred_time. by rewrite Hr. }
    destruct (_ && negb _).
    { rewrite !decide_False by (intros [Hd _]; apply Hday in Hd; done).
      apply IH. }
    assert (Hd : day_matches activity slot) by by apply Hday.
    case_bool_decide as Hin.
    { rewrite decide_True by (split; [done|]; apply Htime; by left).
      rewrite decide_False by (intros [_ Hn]; apply Hn, Htime; by left).
      rewrite IH. by rewrite <- !(assoc_L (++)). }
    case_decide as Hflex.
    { rewrite decide_True by (split; [done|]; apply Htime; by right).
      rewrite decide_False by (intros [_ Hn]; apply Hn, Htime; by right).
      rewrite IH. by rewrite <- !(assoc_L (++)). }
    rewrite decide_False by (intros [_ Ht]; apply Htime in Ht; tauto).
    rewrite decide_True by (split; [done|]; rewrite Htime; tauto).
    rewrite IH. by rewrite <- !(assoc_L (++)).
Qed.

Lemma apps_filter_perm slots activity :
  filter_slots_by_preference slots activity
  ≡ₚ filter (day_matches activity) slots.
Proof.
  unfold filter_slots_by_preference. rewrite partition_slots_filter. simpl.
  induction slots as [|slot slots IH]; [done|].
  rewrite !filter_cons.
  destruct (decide (day_matches activity slot)) as [Hd|Hd].
  - destruct (decide (in_preferred_time activity slot)) as [Ht|Ht].
    + rewrite decide_True, decide_False by tauto. simpl. by f_equiv.
    + rewrite decide_False, decide_True by tauto.
      rewrite <- Permutation_middle. by f_equiv.
  - rewrite !decide_False by tauto. done.
Qed.

(** X16.  The preference filter of the variant drops a slot only for its
    day: it returns the slots whose day the activity accepts, first those
    that start in the preferred hours or all of them for a flexible
    activity, then the others, each group in the order given. *)
Theorem apps_filter_orders_by_time slots activity :
  filter_slots_by_preference slots activity
  = filter (λ s, day_matches activity s ∧ in_preferred_time activity s) slots
    ++ filter (λ s, day_matches activity s ∧ ¬ in_preferred_time activity s)
         slots
  ∧ filter_slots_by_preference slots activity
    ≡ₚ filter (day_matches activity) slots.
Proof.
  split; [|apply apps_filter_perm].
  unfold filter_slots_by_preference. by rewrite partition_slots_filter.
Qed.

(** *** [_split_slot] *)

(** X17.  For a used part that lies in the original slot, [_split_slot]
    takes the used instants out of every slot that has the start and the
    end of the original, and leaves every other slot as it is. *)
Theorem split_slot_removes_used slots original used :
  start original ≤ start used → start used ≤ end_ used →
  end_ used ≤ end_ original →
  ∀ t, covered (_split_slot slots original used) t
       ↔ Exists (λ slot, inside slot t
                         ∧ (same_span slot original → ¬ inside used t)) slots.
Proof.
  intros H1 H2 H3 t. unfold covered.
  induction slots as [|slot slots IH]; simpl.
  - by rewrite !Exists_nil.
  - rewrite Exists_app, Exists_cons, IH. clear IH.
    apply or_iff_compat_r. unfold inside, same_span.
    destruct (bool_decide (start slot = start original)) eqn:Hs; simpl.
    + apply bool_decide_eq_true in Hs.
      destruct (bool_decide (end_ slot = end_ original)) eqn:He; simpl.
      * apply bool_decide_eq_true in He.
        rewrite Exists_app.
        repeat case_decide; rewrite ?Exists_cons, ?Exists_nil; simpl; lia.
      * apply bool_decide_eq_false in He.
        rewrite Exists_cons, Exists_nil. tauto.
    + apply bool_decide_eq_false in Hs.
      rewrite Exists_cons, Exists_nil. tauto.
Qed.
End apps_filter_facts.

Section apps_analysis_facts.
Import Apps AppsMore AppsFilterSpec.
Variable py_int : string → option Z.
Variable py_lower : string → string.

Lemma count_events_in_week config week_start events counts mins :
  count_events py_lower config week_start (week_start + 6)
    (filter (starts_in_week week_start) events) counts mins
  = count_events py_lower config week_start (week_start + 6) events counts
      mins.
Proof.
  revert counts mins.
  induction events as [|e events IH]; intros counts mins; [done|].
  rewrite filter_cons. unfold starts_in_week at 1.
  destruct (decide (week_start ≤ date_of (e_start e) ≤ week_start + 6))
    as [Hin|Hout]; simpl.
  - rewrite !bool_decide_eq_false_2 by lia. simpl.
    destruct (str_truthy _); by rewrite ?IH.
  - destruct (bool_decide (date_of (e_start e) < week_start)) eqn:H1; simpl;
      [apply IH|].
    apply bool_decide_eq_false in H1.
    rewrite bool_decide_eq_true_2 by lia. apply IH.
Qed.

(** X18.  The analysis of the variant counts an event only when it starts
    on one of the seven days from [week_start]: the events that start
    before or after these days change nothing. *)
Theorem apps_analysis_counts_the_week config events week_start :
  analyze_scheduled_vs_required py_int py_lower config
    (filter (starts_in_week week_start) events) week_start
  = analyze_scheduled_vs_required py_int py_lower config events week_start.
Proof.
  unfold analyze_scheduled_vs_required.
  by rewrite count_events_in_week.
Qed.

(** X19.  The two lookups by priority agree on an activity listed in one
    tier.  They part for an activity listed in no tier, whose priority is
    medium though no tier lists it, and for one listed in several, whose
    priority is the highest of them. *)
Theorem apps_priority_lookups config a :
  (a ∈ get_activities_by_priority config CRITICAL
   ↔ a ∈ activities config
     ∧ get_priority (priorities config) (a_id a) = CRITICAL) ∧
  (a ∈ activities config →
   a ∈ get_activities_by_priority config
         (get_priority (priorities config) (a_id a))
   ∨ (get_priority (priorities config) (a_id a) = MEDIUM
      ∧ ∀ q, a ∉ get_activities_by_priority config q)) ∧
  (∀ q, a ∈ get_activities_by_priority config q →
        priority_index (get_priority (priorities config) (a_id a))
        ≤ priority_index q).
Proof.
  unfold get_activities_by_priority, get_priority.
  split_and!.
  - rewrite list_elem_of_filter. simpl.
    repeat case_decide; intuition congruence.
  - intros Ha.
    repeat case_decide;
      try (left; apply list_elem_of_filter; by split).
    right. split; [done|]. intros q [Hq _]%list_elem_of_filter.
    destruct q; simpl in Hq; done.
  - intros q [Hq _]%list_elem_of_filter.
    destruct q; simpl in *; repeat case_decide; simpl; try lia; done.
Qed.
End apps_analysis_facts.

(** ** What the analysis of [life-os-agent] counts *)

Section count_facts.
Import Agent OrderSpec CountSpec.
Variable py_int : string → option Z.

Lemma tally_counts activity_id events s m s' m' :
  tally activity_id events s m = Some (s', m') →
  s' = s + Z.of_nat (length (tagged activity_id events)) ∧
  m' = m + total_minutes (tagged activity_id events).
Proof.
  unfold tagged. revert s m.
  induction events as [|ev events IH]; intros s m Ht; simpl in Ht.
  - simplify_eq. simpl. lia.
  - rewrite filter_cons. case_decide as Hid.
    + destruct (ev_start ev) as [a|] eqn:Ha; [simpl in Ht|done].
      destruct (ev_end ev) as [b|] eqn:Hb; [simpl in Ht|done].
      apply IH in Ht as [-> ->]. simpl.
      unfold event_minutes at 1. rewrite Ha, Hb. simpl. lia.
    + by apply IH.
Qed.

(** X20.  The analysis counts, for an activity, every event tagged with
    its id, whatever the day of the event: the week given plays no part.
    The scheduled minutes are the sum of the lengths of these events in
    whole minutes, and the deficit is what the scheduled sessions leave of
    the minimum of sessions, or zero. *)
Theorem analysis_counts_tagged_events config events week_start week_end
    analysis :
  analyze_scheduled_vs_required py_int config events week_start week_end
    = Some analysis →
  Forall (λ x,
            scheduled_sessions x.2
              = Z.of_nat (length (tagged x.1 events)) ∧
            scheduled_minutes x.2 = total_minutes (tagged x.1 events) ∧
            sessions_deficit x.2
              = 0 `max` ((required_sessions x.2).1 - scheduled_sessions x.2))
    analysis ∧
  ∀ week_start' week_end',
    analyze_scheduled_vs_required py_int config events week_start' week_end'
    = Some analysis.
Proof.
  intros Han. split; [|done]. rewrite analyze_mapM in Han.
  destruct (calculate_weekly_requirements py_int config) as [reqs|];
    [simpl in Han|done].
  apply mapM_Some in Han.
  induction Han as [|[k req] y reqs analysis Hy Han IH]; [constructor|].
  constructor; [|done].
  unfold analysis_item in Hy. simpl in Hy.
  destruct (tally k events 0 0) as [[s m]|] eqn:Ht; simplify_eq/=.
  apply tally_counts in Ht as [-> ->]. split_and!; [lia|lia|done].
Qed.
End count_facts.

Section count_witnesses.
Import Agent CountSpec ScheduleExamples MoreExamples.

Lemma analysis_counts_tagged_events_witness :
  analyze_scheduled_vs_required dec_int week_config busy_week 0
    (0 + PyTime.days 7) = Some busy_week_analysis ∧
  Forall (λ x,
            scheduled_sessions x.2
              = Z.of_nat (length (tagged x.1 busy_week)) ∧
            scheduled_minutes x.2 = total_minutes (tagged x.1 busy_week) ∧
            sessions_deficit x.2
              = 0 `max` ((required_sessions x.2).1 - scheduled_sessions x.2))
    busy_week_analysis ∧
  ∀ week_start' week_end',
    analyze_scheduled_vs_required dec_int week_config busy_week week_start'
      week_end' = Some busy_week_analysis.
Proof.
  assert (H1 : analyze_scheduled_vs_required dec_int week_config busy_week 0
                 (0 + PyTime.days 7) = Some busy_week_analysis)
    by (vm_compute; reflexivity).
  exact (conj H1
           (analysis_counts_tagged_events dec_int week_config busy_week 0
              (0 + PyTime.days 7) busy_week_analysis H1)).
Defined.
End count_witnesses.

(** ** The free slots of the variant *)

Section apps_slot_facts.
Import Apps AppsSpec AppsSlotSpec.
Variable py_int : string → option Z.
Variable str_of_date : Z → string.

Lemma apps_find_gaps_min slot_duration d evs c day_end :
  Forall (λ g, slot_duration ≤ duration_minutes g)
    (find_gaps slot_duration d evs c day_end).
Proof.
  revert c. induction evs as [|e evs IH]; intros c; simpl.
  - repeat case_decide; repeat constructor; done.
  - apply Forall_app. split; [|apply IH].
    repeat case_decide; repeat constructor; done.
Qed.

Lemma apps_find_gaps_start slot_duration d evs c day_end :
  Forall (λ g, c ≤ start g) (find_gaps slot_duration d evs c day_end).
Proof.
  eapply Forall_impl; [apply apps_find_gaps_shape|]. simpl. tauto.
Qed.

Lemma apps_find_gaps_chronological slot_duration d evs c day_end :
  Forall ends_after_start evs →
  chronological (find_gaps slot_duration d evs c day_end).
Proof.
  unfold chronological, ends_after_start.
  intros Hb. revert c. induction Hb as [|b evs Hbe Hb IH]; intros c; simpl.
  - repeat case_decide; repeat constructor.
  - pose proof (apps_find_gaps_start slot_duration d evs (c `max` e_end b)
                  day_end) as Hs.
    repeat case_decide; simpl; try apply IH.
    constructor; [apply IH|].
    eapply Forall_impl; [exact Hs|]. simpl. lia.
Qed.

Lemma apps_find_gaps_avoid slot_duration d evs c day_end :
  StronglySorted (λ a b, e_start a ≤ e_start b) evs →
  Forall (λ g, Forall (λ e, clear_of_event e g) evs)
    (find_gaps slot_duration d evs c day_end).
Proof.
  unfold clear_of_event.
  intros Hs. revert c. induction Hs as [|b evs Hs IH Hb]; intros c; simpl.
  - repeat case_decide; repeat constructor.
  - apply Forall_app. split.
    + repeat case_decide; try apply Forall_nil_2.
      apply Forall_singleton. constructor; [simpl; lia|].
      eapply Forall_impl; [exact Hb|]. simpl. lia.
    + pose proof (apps_find_gaps_start slot_duration d evs (c `max` e_end b)
                    day_end) as Hst.
      pose proof (IH (c `max` e_end b)) as Hrest.
      rewrite Forall_forall in Hst, Hrest. apply Forall_forall. intros g Hg.
      constructor; [specialize (Hst g Hg); simpl in Hst; lia|].
      by apply Hrest.
Qed.

Lemma apps_sort_by_start_sorted evs :
  StronglySorted (λ a b, e_start a ≤ e_start b) (Py.sorted e_start Z.ltb evs).
Proof.
  eapply StronglySorted_weaken;
    [|exact (sorted_sorted e_start Z.ltb Zltb_asym Zltb_le_trans evs)].
  intros a b. unfold key_le. rewrite Z.ltb_ge. done.
Qed.

Lemma parse_time_in_day s t :
  parse_time py_int s = Some t → 0 ≤ t < PyTime.us_per_day.
Proof.
  unfold parse_time. intros H.
  destruct (Py.split ":" s) as [|a [|b [|? ?]]]; try done.
  destruct (py_int a) as [h|]; [simpl in H|done].
  destruct (py_int b) as [m|]; [simpl in H|done].
  unfold time in H.
  destruct (bool_decide (0 ≤ h < 24)) eqn:Hh; [simpl in H|done].
  destruct (bool_decide (0 ≤ m < 60)) eqn:Hm; [simpl in H|done].
  apply bool_decide_eq_true in Hh, Hm. injection H as <-.
  unfold PyTime.us_per_day, PyTime.us_per_hour, PyTime.us_per_minute. lia.
Qed.

(** The blocks added for a day start on that day. *)
Lemma add_work_on_the_day config current_date day events events' :
  add_work py_int str_of_date config current_date day events = Some events' →
  ∃ added, events' = events ++ added ∧
           Forall (λ e, date_of (e_start e) = current_date) added.
Proof.
  unfold add_work. intros H.
  destruct (template config ≫= work) as [w|];
    [|exists []; simplify_eq; by rewrite app_nil_r].
  case_decide; [|exists []; simplify_eq; by rewrite app_nil_r].
  destruct (parse_time py_int (w_start w)) as [s|] eqn:Hs; [simpl in H|done].
  destruct (parse_time py_int (w_end w)); [simpl in H|done].
  simplify_eq. eexists. split; [done|]. apply Forall_singleton. simpl.
  apply date_of_combine. by eapply parse_time_in_day.
Qed.

Lemma add_commitments_on_the_day current_date day cs events events' :
  add_commitments py_int str_of_date current_date day cs events = Some events' →
  ∃ added, events' = events ++ added ∧
           Forall (λ e, date_of (e_start e) = current_date) added.
Proof.
  revert events. induction cs as [|c cs IH]; intros events H; simpl in H.
  - exists []. simplify_eq. by rewrite app_nil_r.
  - case_decide; [|by apply IH].
    destruct (parse_time py_int (c_start c)) as [s|] eqn:Hs; [simpl in H|done].
    destruct (parse_time py_int (c_end c)); [simpl in H|done].
    apply IH in H as (added & -> & Hadded). rewrite <- (assoc_L (++)).
    eexists. split; [done|]. constructor; [|done]. simpl.
    apply date_of_combine. by eapply parse_time_in_day.
Qed.

(** One day: the slots and what is added to the list. *)
Lemma day_slots_day config week_start slot_duration events day_offset gaps
    events' :
  day_slots py_int str_of_date config week_start slot_duration events day_offset
    = Some (gaps, events') →
  let d := week_start + day_offset in
  ∃ added,
    events' = events ++ added ∧
    Forall (λ e, date_of (e_start e) = d) added ∧
    Forall (λ g, slot_duration ≤ duration_minutes g ∧
                 combine d t06 ≤ start g ∧ start g < end_ g ∧
                 end_ g < combine (d + 1) 0 ∧
                 ∀ e, e ∈ events' → date_of (e_start e) = d →
                      clear_of_event e g) gaps ∧
    (Forall ends_after_start events' → chronological gaps).
Proof.
  intros H d. unfold day_slots in H. fold d in H.
  destruct (add_work _ _ _ _ _ _) as [events1|] eqn:H1; [simpl in H|done].
  destruct (add_commitments _ _ _ _ _ _) as [events2|] eqn:H2;
    [simpl in H|done].
  apply add_work_on_the_day in H1 as (a1 & -> & Ha1).
  apply add_commitments_on_the_day in H2 as (a2 & -> & Ha2).
  injection H as <- <-.
  exists (a1 ++ a2). rewrite (assoc_L (++)). split; [done|].
  split; [by apply Forall_app|].
  set (evs := (events ++ a1) ++ a2).
  set (day_events := Py.sorted e_start Z.ltb
                       (filter (λ e, date_of (e_start e) = d) evs)).
  assert (Hday : ∀ e, e ∈ day_events ↔ date_of (e_start e) = d ∧ e ∈ evs).
  { intros e. unfold day_events. rewrite sorted_perm.
    by rewrite list_elem_of_filter. }
  split.
  - pose proof (apps_find_gaps_min slot_duration (day_of_date d) day_events
                  (combine d t06) (combine d t22)) as Hmin.
    pose proof (apps_find_gaps_shape slot_duration (day_of_date d) day_events
                  (combine d t06) (combine d t22)) as Hshape.
    pose proof (apps_find_gaps_avoid slot_duration (day_of_date d) day_events
                  (combine d t06) (combine d t22)
                  (apps_sort_by_start_sorted _)) as Havoid.
    rewrite Forall_forall in Hmin, Hshape, Havoid.
    apply Forall_forall. intros g Hg.
    destruct (Hshape g Hg) as (Hs1 & Hs2 & _ & Hs4).
    split_and!; [by apply Hmin|done|done| |].
    + assert (Hdate : date_of (end_ g) = d).
      { destruct Hs4 as [->|(e & He & <-)].
        - apply date_of_combine. by compute.
        - by apply Hday in He as [? _]. }
      apply date_of_bounds in Hdate. lia.
    + intros e He Hd. specialize (Havoid g Hg).
      rewrite Forall_forall in Havoid. apply Havoid. by apply Hday.
  - intros Hwf. apply apps_find_gaps_chronological.
    apply Forall_forall. intros e He. apply Hday in He as [_ He].
    rewrite Forall_forall in Hwf. by apply Hwf.
Qed.

Lemma days_loop_free config week_start slot_duration offsets :
  StronglySorted Z.lt offsets →
  Forall (λ o, 0 ≤ o < 7) offsets →
  ∀ available events slots events',
    days_loop py_int str_of_date config week_start slot_duration offsets
      available events = Some (slots, events') →
    Forall (λ g, slot_duration ≤ duration_minutes g ∧
                 ∃ d, week_start ≤ d < week_start + 7 ∧
                      Forall (λ o, d < week_start + o) offsets ∧
                      free_on d events g) available →
    (Forall ends_after_start events' → chronological available) →
    Forall (λ g, slot_duration ≤ duration_minutes g ∧
                 ∃ d, week_start ≤ d < week_start + 7 ∧ free_on d events' g)
      slots ∧
    (Forall ends_after_start events' → chronological slots).
Proof.
  intros Hsorted.
  induction Hsorted as [|o offsets Hsorted IH Ho];
    intros Hrange available events slots events' Hloop Hav Hchr;
    simpl in Hloop.
  - simplify_eq. split; [|done].
    eapply Forall_impl; [exact Hav|]. simpl.
    intros g (Hd & d & Hw & _ & Hf). split; [done|]. by exists d.
  - apply Forall_cons in Hrange as [Hor Hrange].
    destruct (day_slots _ _ _ _ _ _ _) as [[gaps events1]|] eqn:Hday;
      [simpl in Hloop|done].
    apply day_slots_day in Hday as (added & -> & Hadded & Hgaps & Hgchr).
    destruct (days_loop_extends _ _ _ _ _ _ _ _ _ _ Hloop) as [added' Hev'].
    apply (IH Hrange _ _ _ _ Hloop).
    + apply Forall_app. split.
      * eapply Forall_impl; [exact Hav|]. simpl.
        intros g (Hd & d & Hw & Hlt & H1 & H2 & H3 & H4).
        apply Forall_cons in Hlt as [Hlt Hlts].
        split; [done|]. exists d. split; [done|]. split; [done|].
        split_and!; [done|done|done|].
        intros e [He|He]%elem_of_app Hdate; [by apply H4|].
        rewrite Forall_forall in Hadded. specialize (Hadded e He). lia.
      * eapply Forall_impl; [exact Hgaps|]. simpl.
        intros g (Hd & H1 & H2 & H3 & H4).
        split; [done|]. exists (week_start + o). split; [lia|]. split.
        { eapply Forall_impl; [exact Ho|]. simpl. lia. }
        done.
    + intros Hwf. apply StronglySorted_app. split_and!.
      * intros a g Ha Hg.
        rewrite Forall_forall in Hav, Hgaps.
        destruct (Hav a Ha) as (_ & d & _ & Hlt & _ & _ & H3 & _).
        apply Forall_cons in Hlt as [Hlt _].
        destruct (Hgaps g Hg) as (_ & H1 & _).
        revert H1 H3 Hlt. unfold combine, t06, PyTime.us_per_day,
          PyTime.us_per_hour. lia.
      * by apply Hchr.
      * apply Hgchr. rewrite Hev' in Hwf.
        by apply Forall_app in Hwf as [? _].
Qed.

(** X21.  Every slot that the variant returns is at least
    [slot_duration] minutes long, lies in one day of the week from 06:00
    on, and shares no instant with an event that starts on that day, be it
    an event given, a work block or a commitment.  When no event of the
    final list ends before it starts, the slots are in chronological order
    and no two of them share an instant. *)
Theorem apps_slots_free config week_start events slot_duration slots events' :
  get_available_slots py_int str_of_date config week_start events slot_duration
    = Some (slots, events') →
  Forall (λ g, slot_duration ≤ duration_minutes g ∧
               ∃ d, week_start ≤ d < week_start + 7 ∧ free_on d events' g)
    slots ∧
  (Forall ends_after_start events' → chronological slots).
Proof.
  intros H. unfold get_available_slots in H.
  eapply days_loop_free; [| |exact H|constructor|constructor].
  - clear. unfold seqZ. simpl. repeat constructor; lia.
  - apply Forall_forall. intros o Ho. apply elem_of_seqZ in Ho. lia.
Qed.
End apps_slot_facts.

(** ** The proposals of the variant *)

Lemma StronglySorted_lookup_lt {A} (R : A → A → Prop) (l : list A) i j a b :
  StronglySorted R l → (i < j)%nat →
  l !! i = Some a → l !! j = Some b → R a b.
Proof.
  intros Hs. revert i j.
  induction Hs as [|x l Hl IH Hx]; intros i j Hij Hi Hj.
  - by rewrite lookup_nil in Hi.
  - destruct j as [|j]; [lia|]. destruct i as [|i]; simpl in *.
    + simplify_eq. rewrite Forall_forall in Hx. apply Hx.
      by eapply list_elem_of_lookup_2.
    + apply (IH i j); [lia|done|done].
Qed.

Section apps_split_facts.
Import Apps AppsSlotSpec AppsFilterSpec AppsBookedSpec.

Lemma within_apart g p q : within g p → apart q g → apart q p.
Proof. unfold within, apart. lia. Qed.

Lemma chronological_overlap_eq slots a b :
  chronological slots → Forall (λ g, start g < end_ g) slots →
  a ∈ slots → b ∈ slots → start a < end_ b → start b < end_ a → a = b.
Proof.
  intros Hchr Hne [i Hi]%list_elem_of_lookup [j Hj]%list_elem_of_lookup H1 H2.
  destruct (lt_eq_lt_dec i j) as [[Hlt| ->]|Hgt].
  - pose proof (StronglySorted_lookup_lt _ _ _ _ _ _ Hchr Hlt Hi Hj) as Hle.
    simpl in Hle. lia.
  - congruence.
  - pose proof (StronglySorted_lookup_lt _ _ _ _ _ _ Hchr Hgt Hj Hi) as Hle.
    simpl in Hle. lia.
Qed.

Lemma chronological_NoDup slots :
  chronological slots → Forall (λ g, start g < end_ g) slots → NoDup slots.
Proof.
  intros Hchr Hne. apply NoDup_alt. intros i j g Hi Hj.
  rewrite Forall_forall in Hne.
  pose proof (Hne g (list_elem_of_lookup_2 _ _ _ Hi)).
  destruct (lt_eq_lt_dec i j) as [[Hlt|Heq]|Hgt]; [|done|].
  - pose proof (StronglySorted_lookup_lt _ _ _ _ _ _ Hchr Hlt Hi Hj) as Hle.
    simpl in Hle. lia.
  - pose proof (StronglySorted_lookup_lt _ _ _ _ _ _ Hchr Hgt Hj Hi) as Hle.
    simpl in Hle. lia.
Qed.

Section split.
Variables original used : TimeSlot.
Hypothesis Hstart : start original ≤ start used.
Hypothesis Hused : start used ≤ end_ used.
Hypothesis Hend : end_ used ≤ end_ original.

(** Where each slot of the result comes from. *)
Lemma split_slot_pieces slots :
  Forall (λ q, ∃ s, s ∈ slots ∧ within s q ∧ day q = day s ∧
                    (start s < end_ s → start q < end_ q) ∧
                    (same_span s original → apart used q) ∧
                    (¬ same_span s original → q = s))
    (_split_slot slots original used).
Proof.
  induction slots as [|s slots IH]; simpl; [constructor|].
  apply Forall_app. split.
  - destruct (bool_decide (start s = start original)) eqn:Hs; simpl.
    + apply bool_decide_eq_true in Hs.
      destruct (bool_decide (end_ s = end_ original)) eqn:He; simpl.
      * apply bool_decide_eq_true in He. apply Forall_app. split.
        -- case_decide; [|constructor]. apply Forall_singleton.
           exists s. unfold within, apart, same_span. simpl.
           split_and!; [left|lia|lia|done|lia|lia|tauto].
        -- case_decide; [|constructor]. apply Forall_singleton.
           exists s. unfold within, apart, same_span. simpl.
           split_and!; [left|lia|lia|done|lia|lia|tauto].
      * apply bool_decide_eq_false in He. apply Forall_singleton.
        exists s. unfold within, same_span.
        split_and!; [left|lia|lia|done|done|tauto|done].
    + apply bool_decide_eq_false in Hs. apply Forall_singleton.
      exists s. unfold within, same_span.
      split_and!; [left|lia|lia|done|done|tauto|done].
  - eapply Forall_impl; [exact IH|]. simpl.
    intros q (s' & Hs' & Hq). exists s'. split; [by right|done].
Qed.

Lemma split_slot_chronological slots :
  chronological slots → chronological (_split_slot slots original used).
Proof.
  unfold chronological. induction 1 as [|s slots Hchr IH Hs]; simpl;
    [constructor|].
  apply StronglySorted_app. split_and!; [|
    |done].
  - intros p q Hp Hq.
    pose proof (split_slot_pieces slots) as Hpieces.
    rewrite Forall_forall in Hpieces, Hs.
    destruct (Hpieces q Hq) as (s' & Hs' & [Hw _] & _).
    specialize (Hs s' Hs').
    assert (end_ p ≤ end_ s); [|lia].
    destruct (bool_decide (start s = start original)) eqn:H1; simpl in Hp.
    + apply bool_decide_eq_true in H1.
      destruct (bool_decide (end_ s = end_ original)) eqn:H2; simpl in Hp.
      * apply bool_decide_eq_true in H2.
        apply elem_of_app in Hp as [Hp|Hp]; case_decide;
          rewrite ?list_elem_of_singleton, ?elem_of_nil in Hp;
          try done; subst p; simpl; lia.
      * apply list_elem_of_singleton in Hp. by subst.
    + apply list_elem_of_singleton in Hp. by subst.
  - destruct (bool_decide (start s = start original) &&
              bool_decide (end_ s = end_ original)).
    + repeat case_decide; simpl; repeat constructor; simpl; lia.
    + repeat constructor.
Qed.

Lemma split_slot_keeps slots s :
  s ∈ slots → ¬ same_span s original →
  s ∈ _split_slot slots original used.
Proof.
  unfold same_span. intros Hs Hn.
  induction slots as [|s' slots IH]; [by apply elem_of_nil in Hs|].
  simpl. apply elem_of_app. apply elem_of_cons in Hs as [<-|Hs].
  - left.
    destruct (bool_decide (start s = start original)) eqn:H1; simpl;
      [|left].
    apply bool_decide_eq_true in H1.
    rewrite bool_decide_eq_false_2 by tauto. left.
  - right. by apply IH.
Qed.
End split.
End apps_split_facts.

Section apps_proposal_facts.
Import Apps AppsSlotSpec AppsFilterSpec AppsBookedSpec.
Variable py_int : string → option Z.
Variable py_lower : string → string.
Variable str_of_date : Z → string.

Lemma part_of_within available0 g q :
  part_of available0 g → within g q → day q = day g → part_of available0 q.
Proof.
  intros (g0 & Hg0 & Hw & Hd) Hq Hdq. exists g0.
  unfold within in *. split_and!; [done|lia|lia|congruence].
Qed.

(** One booking. *)
Lemma book_slot_well available0 available proposed slot min_dur used
    (p : ProposedEvent) :
  booked_well available0 available proposed →
  slot ∈ available → 0 < min_dur →
  start slot + PyTime.minutes min_dur ≤ end_ slot →
  used = {| start := start slot;
            end_ := start slot + PyTime.minutes min_dur;
            day := day slot |} →
  pe_slot p = used →
  booked_well available0 (_split_slot available slot used) (proposed ++ [p]).
Proof.
  intros (Hchr & Hav & Hprop & Hap) Hslot Hmd Hfit Hused Hp.
  rewrite <- Hp in *. clear Hp. rename Hused into Hp.
  assert (Hlen : 0 < PyTime.minutes min_dur)
    by (unfold PyTime.minutes, PyTime.us_per_minute; lia).
  assert (H1 : start slot ≤ start (pe_slot p)) by (rewrite Hp; simpl; lia).
  assert (H2 : start (pe_slot p) ≤ end_ (pe_slot p)) by (rewrite Hp; simpl; lia).
  assert (H3 : end_ (pe_slot p) ≤ end_ slot) by (rewrite Hp; simpl; lia).
  assert (Hne : Forall (λ g, start g < end_ g) available).
  { eapply Forall_impl; [exact Hav|]. simpl. tauto. }
  pose proof (split_slot_pieces slot (pe_slot p) H1 H2 H3 available) as Hpieces.
  rewrite Forall_forall in Hpieces.
  assert (Hslot_part : start slot < end_ slot ∧ part_of available0 slot).
  { rewrite Forall_forall in Hav. by apply Hav. }
  assert (Hused_in : within slot (pe_slot p)) by (split; lia).
  split_and!.
  - by apply split_slot_chronological.
  - apply Forall_forall. intros q Hq.
    destruct (Hpieces q Hq) as (s & Hs & Hw & Hd & Hnes & _).
    rewrite Forall_forall in Hav. destruct (Hav s Hs) as [Hs1 Hs2].
    split; [by apply Hnes|]. by eapply part_of_within.
  - apply Forall_app. split.
    + eapply Forall_impl; [exact Hprop|]. simpl.
      intros p' (Hp1 & Hp2 & Hp3). split; [done|]. split; [done|].
      apply Forall_forall. intros q Hq.
      destruct (Hpieces q Hq) as (s & Hs & Hw & _).
      rewrite Forall_forall in Hp3. eapply within_apart; [exact Hw|].
      by apply Hp3.
    + apply Forall_singleton. split_and!.
      * rewrite Hp. simpl. lia.
      * eapply part_of_within; [apply Hslot_part|done|]. by rewrite Hp.
      * apply Forall_forall. intros q Hq.
        destruct (Hpieces q Hq) as (s & Hs & Hw & _ & _ & Hsame & Hother).
        destruct (decide (same_span s slot)) as [Hsp|Hsp]; [by apply Hsame|].
        rewrite (Hother Hsp).
        assert (Hsa : apart slot s).
        { unfold apart.
          destruct (decide (end_ slot ≤ start s)); [by left|].
          destruct (decide (end_ s ≤ start slot)); [by right|].
          exfalso. apply Hsp.
          assert (slot = s) as ->; [|done].
          apply (chronological_overlap_eq available); [done|done|done|done|lia|lia]. }
        revert Hsa Hused_in. unfold apart, within. lia.
  - apply StronglySorted_app. split_and!; [|done|repeat constructor].
    intros p1 p2 Hp1 ->%list_elem_of_singleton.
    rewrite Forall_forall in Hprop. destruct (Hprop p1 Hp1) as (_ & _ & Hcl).
    rewrite Forall_forall in Hcl. specialize (Hcl slot Hslot).
    revert Hcl Hused_in. unfold apart, within. lia.
Qed.

(** The loop over the preferred slots of one activity. *)
Lemma fill_slots_well config available0 activity min_dur :
  0 < min_dur →
  ∀ preferred_slots needed st,
    booked_well available0 (fs_available st) (fs_proposed st) →
    Forall (λ r, r ∈ fs_available st) preferred_slots →
    NoDup preferred_slots →
    let st' := fill_slots config activity min_dur preferred_slots needed st in
    booked_well available0 (fs_available st') (fs_proposed st').
Proof.
  intros Hmd.
  induction preferred_slots as [|slot rest IH];
    intros needed st Hwell Hin Hnd; simpl; [done|].
  apply Forall_cons in Hin as [Hslot Hrest].
  apply NoDup_cons in Hnd as [Hfresh Hnd].
  case_decide; [done|].
  case_decide as Hdur; [by apply IH|].
  case_decide as Hfit; [by apply IH|].
  apply IH; simpl; [|
    |done].
  - eapply book_slot_well; [done|done|done|lia|done|done].
  - destruct Hwell as (Hchr & Hav & _).
    apply Forall_forall. intros r Hr.
    rewrite Forall_forall in Hrest. specialize (Hrest r Hr).
    apply split_slot_keeps; [done|].
    intros [Hs He].
    assert (Hnes : Forall (λ g, start g < end_ g) (fs_available st)).
    { eapply Forall_impl; [exact Hav|]. simpl. tauto. }
    assert (r = slot) as ->; [|done].
    rewrite Forall_forall in Hnes.
    pose proof (Hnes r Hrest). pose proof (Hnes slot Hslot).
    apply (chronological_overlap_eq (fs_available st));
      [done|by apply Forall_forall|done|done|lia|lia].
Qed.

(** The loop over the activities. *)
Lemma fill_gaps_well config requirements available0 acts :
  Forall (λ a, ∀ d, min_duration py_int a = Some d → 0 < d) acts →
  ∀ st st',
    booked_well available0 (fs_available st) (fs_proposed st) →
    fill_gaps py_int config requirements acts st = Some st' →
    booked_well available0 (fs_available st') (fs_proposed st').
Proof.
  induction 1 as [|activity acts Hpos Hacts IH]; intros st st' Hwell Hfill;
    simpl in Hfill.
  - by simplify_eq.
  - destruct (Py.dict_get (a_id activity) requirements) as [req|];
      [simpl in Hfill|done].
    case_decide; [by eapply IH|].
    destruct (filter_slots_by_preference (fs_available st) activity)
      as [|slot slots] eqn:Hpref; [by eapply IH|].
    apply bind_Some in Hfill as (min_dur & Hmin & Hfill).
    eapply IH; [|exact Hfill].
    pose proof (apps_filter_perm (fs_available st) activity) as Hperm.
    rewrite Hpref in Hperm.
    destruct Hwell as (Hchr & Hav & Hrest).
    assert (Hnd : NoDup (fs_available st)).
    { apply chronological_NoDup; [done|].
      eapply Forall_impl; [exact Hav|]. simpl. tauto. }
    apply fill_slots_well; [by apply Hpos|done| |].
    + apply Forall_forall. intros r Hr. rewrite Hperm in Hr.
      by apply list_elem_of_filter in Hr as [_ ?].
    + rewrite Hperm. by apply NoDup_filter.
Qed.

Lemma apps_apart_lookup (proposed : list ProposedEvent) i j p q :
  StronglySorted (λ p q, apart (pe_slot p) (pe_slot q)) proposed → i ≠ j →
  proposed !! i = Some p → proposed !! j = Some q →
  apart (pe_slot p) (pe_slot q).
Proof.
  intros Hs Hij Hi Hj.
  destruct (lt_eq_lt_dec i j) as [[Hlt|Heq]|Hgt]; [|done|].
  - apply (StronglySorted_lookup_lt _ _ _ _ _ _ Hs Hlt Hi Hj).
  - pose proof (StronglySorted_lookup_lt _ _ _ _ _ _ Hs Hgt Hj Hi) as H.
    simpl in H. unfold apart in *. tauto.
Qed.

(** X22.  When every minimum duration is positive and no event, work
    block or commitment ends before it starts, the events that the variant
    proposes share no instant with one another; each lies in one of the
    free slots of the week, hence in one day from 06:00 on, and shares no
    instant with an event that starts on that day. *)
Theorem apps_propose_no_double_booking config week_start events proposal
    events_after available all_events :
  propose_schedule py_int py_lower str_of_date config week_start events
    = Some (proposal, events_after) →
  get_available_slots py_int str_of_date config week_start events
    default_slot_duration = Some (available, all_events) →
  Forall ends_after_start all_events →
  positive_durations py_int config →
  (∀ i j p q, i ≠ j → proposed_events proposal !! i = Some p →
              proposed_events proposal !! j = Some q →
              apart (pe_slot p) (pe_slot q)) ∧
  Forall (λ p, start (pe_slot p) < end_ (pe_slot p) ∧
               part_of available (pe_slot p) ∧
               ∃ d, week_start ≤ d < week_start + 7 ∧
                    free_on d all_events (pe_slot p))
    (proposed_events proposal).
Proof.
  intros Hprop Hav Hwf Hpos. unfold propose_schedule in Hprop.
  destruct (calculate_weekly_requirements py_int config) as [reqs|];
    [simpl in Hprop|done].
  rewrite Hav in Hprop. simpl in Hprop.
  destruct (analyze_scheduled_vs_required _ _ _ _ _) as [analysis|];
    [simpl in Hprop|done].
  match type of Hprop with
  | context [fill_gaps _ _ _ _ ?st0] => set (st := st0) in *
  end.
  destruct (fill_gaps py_int config reqs (sorted_activities config) st)
    as [st'|] eqn:Hfill; [simpl in Hprop|done].
  injection Hprop as <- <-. simpl.
  destruct (days_loop_free py_int str_of_date config week_start
              default_slot_duration (seqZ 0 7)) with
    (available := @nil TimeSlot) (events := events) (slots := available)
    (events' := all_events) as [Hfree Hchr];
    [unfold seqZ; simpl; repeat constructor; lia
    |apply Forall_forall; intros o Ho; apply elem_of_seqZ in Ho; lia
    |exact Hav|constructor|constructor|].
  specialize (Hchr Hwf).
  assert (Hself : Forall (λ g, start g < end_ g ∧ part_of available g)
                    available).
  { apply Forall_forall. intros g Hg. rewrite Forall_forall in Hfree.
    destruct (Hfree g Hg) as (_ & d & _ & _ & Hne & _).
    split; [done|]. exists g. unfold within. split_and!; [done|lia|lia|done]. }
  assert (Hwell : booked_well available (fs_available st') (fs_proposed st')).
  { eapply fill_gaps_well; [|
      |exact Hfill].
    - unfold sorted_activities. rewrite sorted_perm. exact Hpos.
    - subst st. simpl. split_and!; [done|done|constructor|constructor]. }
  destruct Hwell as (_ & _ & Hprops & Hap).
  split; [intros i j p q; by apply apps_apart_lookup|].
  eapply Forall_impl; [exact Hprops|]. simpl.
  intros p (Hne & Hpart & _). split; [done|]. split; [done|].
  destruct Hpart as (g & Hg & [Hw1 Hw2] & _).
  rewrite Forall_forall in Hfree.
  destruct (Hfree g Hg) as (_ & d & Hd & H1 & H2 & H3 & H4).
  exists d. split; [done|]. split_and!; [lia|done|lia|].
  intros e He Hdate. specialize (H4 e He Hdate).
  revert H4. unfold clear_of_event. lia.
Qed.
End apps_proposal_facts.

Section apps_witnesses.
Import Apps AppsSpec AppsSlotSpec AppsFilterSpec AppsBookedSpec AppsExamples
  MoreAppsExamples.

Lemma apps_slots_free_witness :
  get_available_slots dec_int date_text studio_config 0 studio_week_events
    default_slot_duration = Some (studio_week_slots, studio_week_all_events) ∧
  Forall (λ g, default_slot_duration ≤ duration_minutes g ∧
               ∃ d, 0 ≤ d < 0 + 7 ∧ free_on d studio_week_all_events g)
    studio_week_slots ∧
  (Forall ends_after_start studio_week_all_events →
   chronological studio_week_slots).
Proof.
  assert (H1 : get_available_slots dec_int date_text studio_config 0
                 studio_week_events default_slot_duration
               = Some (studio_week_slots, studio_week_all_events))
    by (vm_compute; reflexivity).
  exact (conj H1
           (apps_slots_free dec_int date_text studio_config 0
              studio_week_events default_slot_duration studio_week_slots
              studio_week_all_events H1)).
Defined.

(** An event that began the day before is not seen: the slot of
    Tuesday from 06:00 holds the two hours in which the night train still
    runs. *)
Example overnight_event_overlapped :
  (λ g, (start g, end_ g))
    <$> take 2 (default []
                  (fst <$> get_available_slots dec_int date_text bare_config 0
                             [overnight_event] default_slot_duration))
  = [(PyTime.mk_datetime 0 6 0, PyTime.mk_datetime 0 23 0);
     (PyTime.mk_datetime 1 6 0, PyTime.mk_datetime 1 22 0)].
Proof. vm_compute. reflexivity. Qed.

Lemma split_slot_removes_used_witness :
  let original := {| start := 0; end_ := 100; day := Some MONDAY |} in
  let used := {| start := 0; end_ := 30; day := Some MONDAY |} in
  start original ≤ start used ∧ start used ≤ end_ used ∧
  end_ used ≤ end_ original ∧
  ∀ t, covered (_split_slot [original] original used) t
       ↔ Exists (λ slot, inside slot t
                         ∧ (same_span slot original → ¬ inside used t))
           [original].
Proof.
  set (original := {| start := 0; end_ := 100; day := Some MONDAY |}).
  set (used := {| start := 0; end_ := 30; day := Some MONDAY |}).
  assert (H1 : start original ≤ start used) by (simpl; lia).
  assert (H2 : start used ≤ end_ used) by (simpl; lia).
  assert (H3 : end_ used ≤ end_ original) by (simpl; lia).
  exact (conj H1 (conj H2 (conj H3
           (split_slot_removes_used [original] original used H1 H2 H3)))).
Defined.

Lemma apps_propose_no_double_booking_witness :
  propose_schedule dec_int id date_text studio_config 0 studio_week_events
    = Some (studio_week_proposal, studio_week_events) ∧
  get_available_slots dec_int date_text studio_config 0 studio_week_events
    default_slot_duration = Some (studio_week_slots, studio_week_all_events) ∧
  Forall ends_after_start studio_week_all_events ∧
  positive_durations dec_int studio_config ∧
  (∀ i j p q, i ≠ j → proposed_events studio_week_proposal !! i = Some p →
              proposed_events studio_week_proposal !! j = Some q →
              apart (pe_slot p) (pe_slot q)) ∧
  Forall (λ p, start (pe_slot p) < end_ (pe_slot p) ∧
               part_of studio_week_slots (pe_slot p) ∧
               ∃ d, 0 ≤ d < 0 + 7 ∧
                    free_on d studio_week_all_events (pe_slot p))
    (proposed_events studio_week_proposal).
Proof.
  assert (H1 : propose_schedule dec_int id date_text studio_config 0
                 studio_week_events
               = Some (studio_week_proposal, studio_week_events))
    by (vm_compute; reflexivity).
  assert (H2 : get_available_slots dec_int date_text studio_config 0
                 studio_week_events default_slot_duration
               = Some (studio_week_slots, studio_week_all_events))
    by (vm_compute; reflexivity).
  assert (H3 : Forall ends_after_start studio_week_all_events).
  { repeat constructor; vm_compute; discriminate. }
  assert (H4 : positive_durations dec_int studio_config).
  { repeat constructor; intros d H; vm_compute in H; injection H as <-;
      reflexivity. }
  exact (conj H1 (conj H2 (conj H3 (conj H4
           (apps_propose_no_double_booking dec_int id date_text studio_config
              0 studio_week_events studio_week_proposal studio_week_events
              studio_week_slots studio_week_all_events H1 H2 H3 H4))))).
Defined.

(** The proposals for the example: no free slot starts in the
    afternoon, and the three sessions of studio time take the start of the
    first slots of the week, before and after work on Monday and on Tuesday
    morning; yoga is on Sunday. *)
Example studio_week_proposed :
  (λ p, (a_id (pe_activity p), start (pe_slot p), end_ (pe_slot p)))
    <$> proposed_events studio_week_proposal
  = [("studio", PyTime.mk_datetime 0 6 0, PyTime.mk_datetime 0 7 30);
     ("studio", PyTime.mk_datetime 0 17 0, PyTime.mk_datetime 0 18 30);
     ("studio", PyTime.mk_datetime 1 6 0, PyTime.mk_datetime 1 7 30);
     ("yoga", PyTime.mk_datetime 6 6 0, PyTime.mk_datetime 6 6 30)].
Proof. vm_compute. reflexivity. Qed.
End apps_witnesses.

(** ** The coverage that the variant reports *)

Section apps_count_facts.
Import Apps AppsCountSpec.
Variable py_int : string → option Z.
Variable py_lower : string → string.
Variable str_of_date : Z → string.

Lemma proposed_for_app id (ps qs : list ProposedEvent) :
  proposed_for id (ps ++ qs) = proposed_for id ps + proposed_for id qs.
Proof. unfold proposed_for. rewrite filter_app, length_app. lia. Qed.

Lemma count_of_set id k v counts :
  count_of id (Py.dict_set k v counts)
  = if decide (k = id) then v else count_of id counts.
Proof. unfold count_of. rewrite dict_get_set. by case_decide. Qed.

(** The loop over the preferred slots: what it adds. *)
Lemma fill_slots_counts config activity min_dur preferred_slots :
  ∀ needed st,
    let st' := fill_slots config activity min_dur preferred_slots needed st in
    ∃ new,
      fs_proposed st' = fs_proposed st ++ new ∧
      Forall (λ p, pe_activity p = activity) new ∧
      Z.of_nat (length new) ≤ 0 `max` needed ∧
      ∀ id, count_of id (fs_counts st')
            = count_of id (fs_counts st) + proposed_for id new.
Proof.
  induction preferred_slots as [|slot rest IH]; intros needed st; simpl.
  - exists []. rewrite app_nil_r. split_and!; [done|constructor|simpl; lia|].
    intros id. unfold proposed_for. simpl. lia.
  - assert (Hnone : ∃ new, fs_proposed st = fs_proposed st ++ new ∧
              Forall (λ p, pe_activity p = activity) new ∧
              Z.of_nat (length new) ≤ 0 `max` needed ∧
              ∀ id, count_of id (fs_counts st)
                    = count_of id (fs_counts st) + proposed_for id new).
    { exists []. rewrite app_nil_r.
      split_and!; [done|constructor|simpl; lia|].
      intros id. unfold proposed_for. simpl. lia. }
    case_decide; [done|].
    case_decide; [apply IH|].
    case_decide; [apply IH|].
    match goal with
    | |- context [fill_slots config activity min_dur rest ?n ?s] =>
        destruct (IH n s) as (new & Hnew & Hact & Hlen & Hcount)
    end.
    simpl in *.
    eexists (_ :: new). split_and!.
    + rewrite Hnew, <- (assoc_L (++)). done.
    + by constructor.
    + simpl. lia.
    + intros id. rewrite Hcount, count_of_set.
      change (?p :: new) with ([p] ++ new). rewrite proposed_for_app.
      unfold proposed_for at 2. rewrite filter_cons, filter_nil. simpl.
      unfold count_of.
      destruct (decide (a_id activity = id)) as [<-|Hne]; simpl; lia.
Qed.

(** The loop over the activities: what it adds, and where it stops. *)
Lemma fill_gaps_counts config requirements acts :
  ∀ st st',
    fill_gaps py_int config requirements acts st = Some st' →
    ∃ new,
      fs_proposed st' = fs_proposed st ++ new ∧
      (∀ id, count_of id (fs_counts st')
             = count_of id (fs_counts st) + proposed_for id new) ∧
      (∀ id req, Py.dict_get id requirements = Some req →
                 count_of id (fs_counts st')
                 ≤ count_of id (fs_counts st) `max` target_sessions req).
Proof.
  induction acts as [|activity acts IH]; intros st st' Hfill; simpl in Hfill.
  - simplify_eq. exists []. rewrite app_nil_r. split_and!; [done| |].
    + intros id. unfold proposed_for. simpl. lia.
    + intros id req _. lia.
  - destruct (Py.dict_get (a_id activity) requirements) as [req|] eqn:Hreq;
      [simpl in Hfill|done].
    case_decide as Hneeded; [by apply IH|].
    destruct (filter_slots_by_preference (fs_available st) activity)
      as [|slot slots] eqn:Hpref; [by apply IH|].
    apply bind_Some in Hfill as (min_dur & Hmin & Hfill).
    destruct (fill_slots_counts config activity min_dur (slot :: slots)
                (target_sessions req - default 0 (Py.dict_get (a_id activity)
                                                    (fs_counts st))) st)
      as (new1 & Hnew1 & Hact1 & Hlen1 & Hcount1).
    destruct (IH _ _ Hfill) as (new2 & Hnew2 & Hcount2 & Hbound2).
    exists (new1 ++ new2). split_and!.
    + rewrite Hnew2, Hnew1, <- (assoc_L (++)). done.
    + intros id. rewrite Hcount2, Hcount1, proposed_for_app. lia.
    + intros id req' Hreq'. specialize (Hbound2 id req' Hreq').
      rewrite Hcount1 in Hbound2.
      destruct (decide (a_id activity = id)) as [Hid|Hid].
      * subst id. rewrite Hreq in Hreq'. injection Hreq' as <-.
        assert (proposed_for (a_id activity) new1 ≤ Z.of_nat (length new1)).
        { unfold proposed_for.
          pose proof (length_filter (λ p, a_id (pe_activity p) = a_id activity)
                        new1). lia. }
        unfold count_of in *. lia.
      * assert (Hzero : proposed_for id new1 = 0).
        { unfold proposed_for. rewrite filter_none; [done|].
          eapply Forall_impl; [exact Hact1|]. simpl. intros p ->. done. }
        lia.
Qed.

(** *** The dicts built from lists of items *)

Lemma foldl_dict_set_get {V W} (f : string → V → W) (l : list (string * V)) :
  NoDup l.*1 →
  ∀ d0 k,
    Py.dict_get k (foldl (λ d '(k', v), Py.dict_set k' (f k' v) d) d0 l)
    = match Py.dict_get k l with
      | Some v => Some (f k v)
      | None => Py.dict_get k d0
      end.
Proof.
  induction l as [|[k1 v1] l IH]; intros Hnd d0 k; simpl; [done|].
  rewrite fmap_cons in Hnd. apply NoDup_cons in Hnd as [Hk1 Hnd].
  rewrite (IH Hnd), dict_get_set.
  destruct (decide (k1 = k)) as [->|Hne]; [|done].
  assert (Hnone : Py.dict_get k l = None).
  { clear -Hk1. induction l as [|[k2 v2] l IH]; simpl; [done|].
    rewrite fmap_cons, not_elem_of_cons in Hk1. destruct Hk1 as [Hne Hk1].
    rewrite decide_False by done. by apply IH. }
  by rewrite Hnone.
Qed.

Lemma apps_requirements_NoDup config acts acc reqs :
  NoDup acc.*1 →
  requirements_loop py_int config acts acc = Some reqs → NoDup reqs.*1.
Proof.
  revert acc. induction acts as [|a acts IH]; intros acc Hnd Hloop;
    simpl in Hloop.
  - by simplify_eq.
  - destruct (weekly_target py_int a); [simpl in Hloop|done].
    destruct (min_duration py_int a); [simpl in Hloop|done].
    destruct (max_duration py_int a); [simpl in Hloop|done].
    eapply IH; [|exact Hloop]. by apply dict_set_NoDup.
Qed.

Lemma apps_analysis_loop_get counts mins items :
  NoDup items.*1 →
  ∀ acc k,
    match Py.dict_get k items with
    | Some req =>
        ∃ info, Py.dict_get k (analysis_loop counts mins items acc) = Some info ∧
                scheduled_sessions info = count_of k counts ∧
                an_target_sessions info = target_sessions req
    | None =>
        Py.dict_get k (analysis_loop counts mins items acc) = Py.dict_get k acc
    end.
Proof.
  induction items as [|[k1 req1] items IH]; intros Hnd acc k; simpl; [done|].
  rewrite fmap_cons in Hnd. apply NoDup_cons in Hnd as [Hk1 Hnd].
  destruct (decide (k1 = k)) as [->|Hne].
  - assert (Hnone : Py.dict_get k items = None).
    { clear -Hk1. induction items as [|[k2 v2] l IH]; simpl; [done|].
      rewrite fmap_cons, not_elem_of_cons in Hk1. destruct Hk1 as [Hne Hk1].
      rewrite decide_False by done. by apply IH. }
    match goal with
    | |- context [analysis_loop counts mins items ?acc'] =>
        pose proof (IH Hnd acc' k) as Hrest
    end.
    rewrite Hnone in Hrest. rewrite Hrest, dict_get_set, decide_True by done.
    eexists. split; [done|]. done.
  - match goal with
    | |- context [analysis_loop counts mins items ?acc'] =>
        pose proof (IH Hnd acc' k) as Hrest
    end.
    destruct (Py.dict_get k items) as [req|]; [done|].
    by rewrite Hrest, dict_get_set, decide_False.
Qed.

Lemma apps_analysis_loop_keys counts mins items :
  ∀ acc, NoDup (acc.*1 ++ items.*1) →
         (analysis_loop counts mins items acc).*1 = acc.*1 ++ items.*1.
Proof.
  induction items as [|[k1 req1] items IH]; intros acc Hnd; simpl.
  - by rewrite app_nil_r.
  - rewrite fmap_cons in Hnd. simpl in Hnd.
    assert (Hfresh : k1 ∉ acc.*1).
    { apply NoDup_app in Hnd as (_ & Hd & _). intros Hin.
      apply (Hd _ Hin). left. }
    rewrite IH.
    + rewrite dict_set_fresh by done. rewrite fmap_app. simpl.
      by rewrite <- (assoc_L (++)).
    + rewrite dict_set_fresh by done. rewrite fmap_app. simpl.
      rewrite <- (assoc_L (++)). done.
Qed.

(** X23.  The coverage that [propose_schedule] reports for an activity
    id is the number of sessions that the analysis found scheduled plus
    the number of proposals made for the id, and the proposals never take
    that number past the target. *)
Theorem apps_coverage_adds_proposals config week_start events proposal
    events_after analysis :
  propose_schedule py_int py_lower str_of_date config week_start events
    = Some (proposal, events_after) →
  analyze_scheduled_vs_required py_int py_lower config events week_start
    = Some analysis →
  ∀ id cov,
    Py.dict_get id (coverage proposal) = Some cov →
    ∃ info,
      Py.dict_get id analysis = Some info ∧
      cov_target cov = an_target_sessions info ∧
      cov_scheduled cov
        = scheduled_sessions info + proposed_for id (proposed_events proposal) ∧
      cov_scheduled cov ≤ scheduled_sessions info `max` cov_target cov ∧
      cov_covered cov = bool_decide (cov_target cov ≤ cov_scheduled cov).
Proof.
  intros Hprop Han id cov Hcov. unfold propose_schedule in Hprop.
  destruct (calculate_weekly_requirements py_int config) as [reqs|] eqn:Hreqs;
    [simpl in Hprop|done].
  destruct (get_available_slots _ _ _ _ _ _) as [[available copy]|];
    [simpl in Hprop|done].
  rewrite Han in Hprop. simpl in Hprop.
  unfold analyze_scheduled_vs_required in Han. rewrite Hreqs in Han.
  simpl in Han.
  destruct (count_events py_lower config week_start (week_start + 6) events
              [] []) as [counts mins].
  injection Han as <-.
  match type of Hprop with
  | context [fill_gaps _ _ _ _ ?st0] => set (st := st0) in *
  end.
  destruct (fill_gaps py_int config reqs (sorted_activities config) st)
    as [st'|] eqn:Hfill; [simpl in Hprop|done].
  injection Hprop as <- <-. simpl in *.
  assert (Hnd : NoDup reqs.*1).
  { eapply apps_requirements_NoDup; [|exact Hreqs]. constructor. }
  unfold final_coverage in Hcov.
  rewrite (foldl_dict_set_get
             (λ activity_id req,
                {| cov_scheduled :=
                     default 0 (Py.dict_get activity_id (fs_counts st'));
                   cov_target := target_sessions req;
                   cov_covered :=
                     bool_decide
                       (target_sessions req
                        ≤ default 0 (Py.dict_get activity_id (fs_counts st')))
                |}) reqs Hnd [] id) in Hcov.
  destruct (Py.dict_get id reqs) as [req|] eqn:Hreq; [|done].
  injection Hcov as <-. simpl.
  pose proof (apps_analysis_loop_get counts mins reqs Hnd [] id) as Hinfo.
  rewrite Hreq in Hinfo. destruct Hinfo as (info & Hinfo & Hsched & Htarget).
  exists info. split; [done|]. split; [by rewrite Htarget|].
  destruct (fill_gaps_counts _ _ _ _ _ Hfill) as (new & Hnew & Hcount & Hbound).
  assert (Hst : count_of id (fs_counts st) = scheduled_sessions info).
  { subst st. simpl. unfold count_of.
    rewrite (foldl_dict_set_get (λ _ info, scheduled_sessions info)).
    - by rewrite Hinfo.
    - rewrite apps_analysis_loop_keys; simpl; done. }
  specialize (Hcount id). specialize (Hbound id req Hreq).
  rewrite Hst in Hcount, Hbound.
  subst st. simpl in Hnew. rewrite Hnew.
  unfold count_of in *. split_and!; [done|lia|done].
Qed.
End apps_count_facts.

Section apps_count_witnesses.
Import Apps AppsCountSpec MoreAppsExamples.

Lemma apps_coverage_adds_proposals_witness :
  propose_schedule dec_int id date_text studio_config 0 studio_week_events
    = Some (studio_week_proposal, studio_week_events) ∧
  analyze_scheduled_vs_required dec_int id studio_config studio_week_events 0
    = Some studio_week_analysis ∧
  ∀ id cov,
    Py.dict_get id (coverage studio_week_proposal) = Some cov →
    ∃ info,
      Py.dict_get id studio_week_analysis = Some info ∧
      cov_target cov = an_target_sessions info ∧
      cov_scheduled cov
        = scheduled_sessions info
          + proposed_for id (proposed_events studio_week_proposal) ∧
      cov_scheduled cov ≤ scheduled_sessions info `max` cov_target cov ∧
      cov_covered cov = bool_decide (cov_target cov ≤ cov_scheduled cov).
Proof.
  assert (H1 : propose_schedule dec_int id date_text studio_config 0
                 studio_week_events
               = Some (studio_week_proposal, studio_week_events))
    by (vm_compute; reflexivity).
  assert (H2 : analyze_scheduled_vs_required dec_int id studio_config
                 studio_week_events 0 = Some studio_week_analysis)
    by (vm_compute; reflexivity).
  exact (conj H1 (conj H2
           (apps_coverage_adds_proposals dec_int id date_text studio_config 0
              studio_week_events studio_week_proposal studio_week_events
              studio_week_analysis H1 H2))).
Defined.

(** The coverage of the example: the three sessions of studio time and
    the session of yoga reach their targets. *)
Example studio_week_coverage :
  (λ x, (x.1, cov_scheduled x.2, cov_target x.2, cov_covered x.2))
    <$> coverage studio_week_proposal
  = [("studio", 3, 3, true); ("yoga", 1, 1, true)].
Proof. vm_compute. reflexivity. Qed.
End apps_count_witnesses.

(** ** The proposals booked and analysed again *)

Section booked_again.
Import Agent OrderSpec RoundTripSpec BookedSpec CountSpec.
Variable py_int : string → option Z.
Implicit Types (config : LifeOSConfig) (events : list Event).

(** Every activity of the configuration has an entry in the analysis. *)
Lemma analysis_keys config events week_start week_end analysis a :
  analyze_scheduled_vs_required py_int config events week_start week_end
    = Some analysis →
  a ∈ activities config → a_id a ∈ analysis.*1.
Proof.
  rewrite analyze_mapM. unfold calculate_weekly_requirements.
  destruct (requirements_loop py_int config (activities config) [])
    as [reqs|] eqn:Hr; [simpl|done].
  intros Hm Ha. apply mapM_Some in Hm.
  assert (Hkeys : analysis.*1 = reqs.*1).
  { clear -Hm. induction Hm as [|[k req] y reqs analysis Hy Hm IH]; [done|].
    unfold analysis_item in Hy. simpl in Hy.
    destruct (tally k events 0 0) as [[sessions mins]|]; simplify_eq/=.
    by rewrite IH. }
  rewrite Hkeys. apply (requirements_loop_keys py_int _ _ _ _ _ Hr).
  right. apply list_elem_of_fmap. by exists a.
Qed.

(** The analysis of the events with the booked proposals appended, entry
    by entry against the analysis of the events alone. *)
Lemma analysis_after_booking config events week_start week_end proposals
    analysis new_id :
  analyze_scheduled_vs_required py_int config events week_start week_end
    = Some analysis →
  ∃ analysis',
    analyze_scheduled_vs_required py_int config
      (events ++ ((λ p, booked_event config (new_id p) p) <$> proposals))
      week_start week_end = Some analysis' ∧
    Forall2 (λ x x',
               x'.1 = x.1 ∧
               an_activity x'.2 = an_activity x.2 ∧
               required_sessions x'.2 = required_sessions x.2 ∧
               scheduled_sessions x.2 = Z.of_nat (length (tagged x.1 events)) ∧
               scheduled_sessions x'.2
                 = scheduled_sessions x.2 + proposals_for x.1 proposals ∧
               sessions_deficit x.2
                 = 0 `max` ((required_sessions x.2).1 - scheduled_sessions x.2) ∧
               sessions_deficit x'.2
                 = 0 `max` ((required_sessions x.2).1 - scheduled_sessions x'.2))
      analysis analysis'.
Proof.
  intros Han. set (booked := _ <$> proposals). rewrite analyze_mapM in *.
  destruct (calculate_weekly_requirements py_int config) as [reqs|];
    [simpl in *|done].
  apply mapM_Some in Han.
  match goal with |- ∃ a', _ ∧ Forall2 ?R _ a' =>
    cut (∃ a', Forall2 (λ item y, analysis_item (events ++ booked) item = Some y)
                 reqs a' ∧ Forall2 R analysis a')
  end.
  { intros (a' & H1 & H2). exists a'. split; [by apply mapM_Some|done]. }
  induction Han as [|[k req] x reqs analysis Hx Han (analysis' & IH1 & IH2)].
  - by exists [].
  - unfold analysis_item in Hx. simpl in Hx.
    destruct (tally k events 0 0) as [[s m]|] eqn:Ht; simpl in Hx; [|done].
    injection Hx as <-.
    destruct (tally_app_booked config new_id k events proposals 0 0 s m Ht)
      as [m'' Ht'].
    apply tally_counts in Ht as [-> _].
    eexists ((k, analysis_entry req _ m'') :: analysis').
    split.
    + constructor; [|done].
      unfold analysis_item. simpl. fold booked in Ht'. by rewrite Ht'.
    + constructor; [|done]. simpl. split_and!; try done; lia.
Qed.

(** C4.  The proposals of [propose_schedule], booked as events tagged
    with their activity ids and added to the events, are each counted
    once by the analysis of the same week.  Every activity of the
    configuration has its entry in the new analysis, under its id, and
    every proposal is for such an entry.  The scheduled sessions of an
    entry are the tagged events there were plus the proposals for the
    activity, which are no more than its former deficit; the new deficit
    is the former one less these proposals, and it is zero exactly when
    the scheduled sessions and the proposals reach the minimum of
    sessions. *)
Theorem proposals_round_trip config now events week_start proposals new_id :
  propose_schedule py_int config now events week_start = Some proposals →
  let week := planned_week now week_start in
  let booked := (λ p, booked_event config (new_id p) p) <$> proposals in
  ∃ analysis analysis',
    analyze_scheduled_vs_required py_int config events week.1 week.2
      = Some analysis ∧
    analyze_scheduled_vs_required py_int config (events ++ booked)
      week.1 week.2 = Some analysis' ∧
    NoDup analysis'.*1 ∧
    (∀ a, a ∈ activities config → a_id a ∈ analysis'.*1) ∧
    Forall (λ p, a_id (p_activity p) ∈ analysis'.*1) proposals ∧
    Forall2 (λ x x',
               x'.1 = x.1 ∧
               an_activity x'.2 = an_activity x.2 ∧
               scheduled_sessions x'.2
                 = Z.of_nat (length (tagged x.1 events))
                   + proposals_for x.1 proposals ∧
               scheduled_sessions x'.2
                 = scheduled_sessions x.2 + proposals_for x.1 proposals ∧
               proposals_for x.1 proposals ≤ sessions_deficit x.2 ∧
               sessions_deficit x'.2
                 = sessions_deficit x.2 - proposals_for x.1 proposals ∧
               (sessions_deficit x'.2 = 0
                ↔ (required_sessions x.2).1
                  ≤ scheduled_sessions x.2 + proposals_for x.1 proposals))
      analysis analysis'.
Proof.
  intros Hprop week booked.
  assert (Han : ∃ analysis,
             analyze_scheduled_vs_required py_int config events week.1 week.2
             = Some analysis).
  { unfold propose_schedule in Hprop.
    fold (planned_week now week_start) in Hprop. fold week in Hprop.
    destruct week as [ws we]. simpl.
    destruct (analyze_scheduled_vs_required py_int config events ws we)
      as [analysis|]; [by eexists|done]. }
  destruct Han as [analysis Han].
  destruct (propose_schedule_counts py_int config now events week_start
              proposals analysis Hprop Han) as [Hle Hfor].
  destruct (analysis_entries py_int config events _ _ analysis Han)
    as [Hnd Hent].
  destruct (analysis_after_booking config events week.1 week.2 proposals
              analysis new_id Han) as (analysis' & Han' & Hall).
  fold booked in Han'.
  assert (Hkeys : analysis'.*1 = analysis.*1).
  { clear -Hall. induction Hall as [|x x' l l' Hx Hall IH]; [done|].
    rewrite !fmap_cons, IH. f_equal. by destruct Hx. }
  exists analysis, analysis'. split_and!; [done|done| | | |].
  - by rewrite Hkeys.
  - intros a Ha. by eapply analysis_keys.
  - rewrite Hkeys. eapply Forall_impl; [exact Hfor|].
    intros p (x & Hx & Hp & _). rewrite Hp.
    rewrite Forall_forall in Hent. destruct (Hent x Hx) as (<- & _).
    apply list_elem_of_fmap. by exists x.
  - apply Forall2_same_length_lookup in Hall as [Hlen Hall].
    apply Forall2_same_length_lookup. split; [done|].
    intros i x x' Hx Hx'.
    destruct (Hall i x x' Hx Hx') as (H1 & H2 & H3 & H4 & H5 & H6 & H7).
    pose proof (Forall_lookup_1 _ _ _ _ Hle Hx) as Hn. simpl in Hn.
    assert (0 ≤ proposals_for x.1 proposals) by (unfold proposals_for; lia).
    split_and!; [done|done|lia|done|done|lia|lia].
Qed.
End booked_again.

Section booked_again_witnesses.
Import Agent OrderSpec RoundTripSpec BookedSpec CountSpec ScheduleExamples
  MoreExamples.

Lemma proposals_round_trip_witness :
  propose_schedule dec_int week_config 0 busy_week (Some 0)
    = Some busy_week_proposals ∧
  let week := planned_week 0 (Some 0) in
  let booked :=
    (λ p, booked_event week_config None p) <$> busy_week_proposals in
  ∃ analysis analysis',
    analyze_scheduled_vs_required dec_int week_config busy_week week.1 week.2
      = Some analysis ∧
    analyze_scheduled_vs_required dec_int week_config (busy_week ++ booked)
      week.1 week.2 = Some analysis' ∧
    NoDup analysis'.*1 ∧
    (∀ a, a ∈ activities week_config → a_id a ∈ analysis'.*1) ∧
    Forall (λ p, a_id (p_activity p) ∈ analysis'.*1) busy_week_proposals ∧
    Forall2 (λ x x',
               x'.1 = x.1 ∧
               an_activity x'.2 = an_activity x.2 ∧
               scheduled_sessions x'.2
                 = Z.of_nat (length (tagged x.1 busy_week))
                   + proposals_for x.1 busy_week_proposals ∧
               scheduled_sessions x'.2
                 = scheduled_sessions x.2
                   + proposals_for x.1 busy_week_proposals ∧
               proposals_for x.1 busy_week_proposals ≤ sessions_deficit x.2 ∧
               sessions_deficit x'.2
                 = sessions_deficit x.2
                   - proposals_for x.1 busy_week_proposals ∧
               (sessions_deficit x'.2 = 0
                ↔ (required_sessions x.2).1
                  ≤ scheduled_sessions x.2
                    + proposals_for x.1 busy_week_proposals))
      analysis analysis'.
Proof.
  assert (H1 : propose_schedule dec_int week_config 0 busy_week (Some 0)
               = Some busy_week_proposals) by (vm_compute; reflexivity).
  exact (conj H1
           (proposals_round_trip dec_int week_config 0 busy_week (Some 0)
              busy_week_proposals (λ _, None) H1)).
Defined.

(** The week of the example: one session of exercise is booked already,
    two more are proposed, and after booking every deficit is zero. *)
Example busy_week_round_trip :
  (λ x, (x.1, scheduled_sessions x.2, sessions_deficit x.2))
    <$> busy_week_analysis
  = [("reading", 0, 2); ("exercise", 1, 2); ("chess", 0, 2)] ∧
  (a_id ∘ p_activity) <$> busy_week_proposals
  = ["exercise"; "exercise"; "reading"; "reading"; "chess"; "chess"] ∧
  (λ x, (x.1, scheduled_sessions x.2, sessions_deficit x.2))
    <$> default []
          (analyze_scheduled_vs_required dec_int week_config
             (busy_week
                ++ ((λ p, booked_event week_config None p)
                      <$> busy_week_proposals))
             0 (0 + PyTime.days 7))
  = [("reading", 2, 0); ("exercise", 3, 0); ("chess", 2, 0)].
Proof. split_and!; vm_compute; reflexivity. Qed.

Lemma propose_schedule_result_requires_witness :
  propose_schedule dec_int week_config 0 busy_week (Some 0)
    = Some busy_week_proposals ∧
  Forall (λ a, is_Some (get_frequency_range dec_int a)
               ∧ is_Some (get_duration_range dec_int a))
    (activities week_config) ∧
  Forall (λ ev, (is_Some (ev_start ev) → is_Some (ev_end ev)) ∧
                ∀ a, a ∈ activities week_config →
                     ev_activity_id ev = Some (a_id a) →
                     is_Some (ev_start ev) ∧ is_Some (ev_end ev)) busy_week ∧
  ∃ analysis available store,
    analyze_scheduled_vs_required dec_int week_config busy_week
      (planned_week 0 (Some 0)).1 (planned_week 0 (Some 0)).2
      = Some analysis ∧
    get_available_slots busy_week (planned_week 0 (Some 0)).1
      (planned_week 0 (Some 0)).2 default_min_duration = Some available ∧
    schedule_loop dec_int (seq 0 (length available)) available
      (activities_to_schedule analysis) = Some (busy_week_proposals, store).
Proof.
  assert (H1 : propose_schedule dec_int week_config 0 busy_week (Some 0)
               = Some busy_week_proposals) by (vm_compute; reflexivity).
  exact (conj H1
           (propose_schedule_result_requires dec_int week_config 0 busy_week
              (Some 0) busy_week_proposals H1)).
Defined.
End booked_again_witnesses.

(** ** Where [apps/life-os-agent] departs from [life-os-agent] *)

Section apps_departures.
Import Apps AppsExamples MoreAppsExamples.

(** C3, as stated, fails of [apps/life-os-agent], which sorts the
    activities by their tier alone.  The walk and the studio time are in
    the same tier, and the empty week leaves the walk a deficit of one
    session and the studio time one of three; yet the walk, listed first,
    is processed first and takes the first slot of the week, Monday at
    06:00. *)
Lemma apps_order_ignores_deficit :
  ∃ analysis proposal events',
    analyze_scheduled_vs_required dec_int id walk_config [] 0
      = Some analysis ∧
    gap_sessions <$> Py.dict_get "walk" analysis = Some 1 ∧
    gap_sessions <$> Py.dict_get "studio" analysis = Some 3 ∧
    get_priority (priorities walk_config) "walk"
      = get_priority (priorities walk_config) "studio" ∧
    sorted_activities walk_config = [walk; studio] ∧
    propose_schedule dec_int id date_text walk_config 0 []
      = Some (proposal, events') ∧
    pe_activity <$> proposed_events proposal = [walk; studio; studio; studio] ∧
    (start ∘ pe_slot) <$> proposed_events proposal
      = [PyTime.mk_datetime 0 6 0; PyTime.mk_datetime 0 6 30;
         PyTime.mk_datetime 1 6 0; PyTime.mk_datetime 2 6 0].
Proof.
  eexists _, _, _.
  split; [vm_compute; reflexivity|].
  split; [vm_compute; reflexivity|].
  split; [vm_compute; reflexivity|].
  split; [vm_compute; reflexivity|].
  split; [vm_compute; reflexivity|].
  split; [vm_compute; reflexivity|].
  split; vm_compute; reflexivity.
Qed.

(** C5, as stated, fails of [apps/life-os-agent], whose walk has no
    fallback.  Yoga is wanted on Sundays only and the Sunday is taken: the
    filter returns no slot, the six other days are free from 06:00 to
    22:00, and no session is proposed although one is missing. *)
Lemma apps_walk_has_no_fallback :
  ∃ slots events proposal events',
    get_available_slots dec_int date_text yoga_config 0 [sunday_block]
      default_slot_duration = Some (slots, events) ∧
    length slots = 6%nat ∧
    Forall (λ slot, 30 ≤ duration_minutes slot) slots ∧
    min_duration dec_int yoga = Some 30 ∧
    filter_slots_by_preference slots yoga = [] ∧
    propose_schedule dec_int id date_text yoga_config 0 [sunday_block]
      = Some (proposal, events') ∧
    proposed_events proposal = [] ∧
    coverage proposal
    = [("yoga", {| cov_scheduled := 0; cov_target := 1;
                   cov_covered := false |})].
Proof.
  eexists _, _, _, _.
  split; [vm_compute; reflexivity|].
  split; [reflexivity|].
  split; [repeat constructor; vm_compute; discriminate|].
  split; [vm_compute; reflexivity|].
  split; [vm_compute; reflexivity|].
  split; [vm_compute; reflexivity|].
  split; vm_compute; reflexivity.
Qed.

(** C7, as stated, fails of [apps/life-os-agent], which appends to the
    list it is given.  With work on Mondays from 22:00 to 06:00, a second
    run on the list that the first run was given, which now holds the
    work block of the first run, returns one more slot than the first. *)
Lemma apps_second_run_differs :
  ∃ slots1 events1 slots2 events2,
    get_available_slots dec_int date_text night_work_config 0 []
      default_slot_duration = Some (slots1, events1) ∧
    get_available_slots dec_int date_text night_work_config 0 events1
      default_slot_duration = Some (slots2, events2) ∧
    length events1 = 1%nat ∧ length events2 = 2%nat ∧
    length slots1 = 8%nat ∧ length slots2 = 9%nat ∧
    slots1 ≠ slots2.
Proof.
  eexists _, _, _, _.
  split; [vm_compute; reflexivity|].
  split; [vm_compute; reflexivity|].
  split_and!; [reflexivity|reflexivity|reflexivity|reflexivity|].
  intros H. apply (f_equal length) in H. discriminate H.
Qed.

(** C9, as stated, fails of [apps/life-os-agent], which works on dates.
    Day 2 is a Wednesday; its week is returned as the Monday, day 0, and
    the Sunday, day 6: the end is six days after the start, not seven. *)
Lemma apps_week_ends_after_six_days :
  day_of_date 2 = WEDNESDAY ∧
  get_week_bounds 0 (Some 2) = (0, 6) ∧
  (get_week_bounds 0 (Some 2)).2 ≠ (get_week_bounds 0 (Some 2)).1 + 7.
Proof. split_and!; [reflexivity|reflexivity|vm_compute; discriminate]. Qed.
End apps_departures.
